(** * DMV appointment monitor: the monitoring/check engine

    A shallow embedding of the server-side core of the repository:
    - [AppointmentChecker] (server/services/appointmentChecker.ts),
    - [EmailService], [SmsService], [NotificationService],
    - [MonitoringService] (the scheduler),
    - [MemStorage] (server/storage.ts), the storage all of them share.

    Asynchronous methods are embedded as state-passing computations over a
    [World] (storage, private fields of the service singletons, and the
    trace of console lines and external calls); a JavaScript exception is
    a [Throw] result that keeps the state reached so far.  External
    libraries (puppeteer, nodemailer, twilio, node-cron) are an [Env] of
    outcomes. *)

From Equations Require Import Equations.
From Stdlib Require Import ZArith List String Ascii Bool Lia Arith.
From Stdlib Require Import DecimalString Sorted Permutation.
Import ListNotations.
Local Open Scope string_scope.
Local Open Scope list_scope.
Local Open Scope Z_scope.

(** String concatenation (template literals, [+] on strings). *)
Infix "+++" := String.append (right associativity, at level 60).

Set Implicit Arguments.

(** ** JavaScript values used by the code *)

(** A [Date] is its time value: milliseconds since the epoch, UTC. *)
Definition Date := Z.

Definition msPerDay : Z := 86400000.

(** Template-literal conversion of an integer number. *)
Definition showZ (z : Z) : string := NilZero.string_of_int (Z.to_int z).
Definition showNat (n : nat) : string := showZ (Z.of_nat n).

Module Calendar.

(** Day number (days since 1970-01-01) to proleptic Gregorian
    (year, month 1..12, day 1..31). *)
Definition civil (days : Z) : Z * Z * Z :=
  let z := days + 719468 in
  let era := z / 146097 in
  let doe := z - era * 146097 in
  let yoe := (doe - doe / 1460 + doe / 36524 - doe / 146096) / 365 in
  let doy := doe - (365 * yoe + yoe / 4 - yoe / 100) in
  let mp := (5 * doy + 2) / 153 in
  let d := doy - (153 * mp + 2) / 5 + 1 in
  let m := if mp <? 10 then mp + 3 else mp - 9 in
  let y := yoe + era * 400 + (if m <=? 2 then 1 else 0) in
  (y, m, d).

(** 0 = Sunday ... 6 = Saturday; 1970-01-01 was a Thursday. *)
Definition weekday (days : Z) : Z := (days + 4) mod 7.

Definition monthShort (m : Z) : string :=
  nth (Z.to_nat (m - 1))
      ["Jan"; "Feb"; "Mar"; "Apr"; "May"; "Jun";
       "Jul"; "Aug"; "Sep"; "Oct"; "Nov"; "Dec"] "".

Definition weekdayShort (w : Z) : string :=
  nth (Z.to_nat w) ["Sun"; "Mon"; "Tue"; "Wed"; "Thu"; "Fri"; "Sat"] "".

Definition pad2 (z : Z) : string :=
  if z <? 10 then "0" +++ showZ z else showZ z.

Fixpoint padLeft (n : nat) (s : string) : string :=
  match n with
  | O => s
  | S k => if (String.length s <? S k)%nat then padLeft k ("0" +++ s) else s
  end.

(** The year of [Date.prototype.toISOString]: four digits for 0..9999,
    a sign and six digits otherwise. *)
Definition isoYear (y : Z) : string :=
  if (0 <=? y) && (y <=? 9999) then padLeft 4 (showZ y)
  else (if y <? 0 then "-" else "+") +++ padLeft 6 (showZ (Z.abs y)).

End Calendar.

(** A value together with the equation it was computed by, so that the
    loop's guard is available where the recursive call is justified. *)
Definition inspect {A} (a : A) : {b : A | a = b} := exist _ a eq_refl.

(** ** The host's time zone

    ECMAScript reads local time through two operations of the host:
    the offset of local time from UTC at an instant (LocalTime(t) is
    [t + offsetAt t]) and UTC(t), the instant that a local time value
    stands for ([utcOf]); where a change of offset skips or repeats local
    times, the host chooses the instant.

    The zone obeys two laws: the instant a local time value resolves to
    lies on the calendar day the value names, and the same local time on
    the next calendar day is a later instant.  They hold for a constant
    offset and for daylight-saving rules such as those of
    America/Los_Angeles (the zone of the Nevada DMV), where the clock
    changes by an hour at 02:00; they fail only where a change moves the
    clock forward across midnight or skips a whole calendar day. *)
Record TimeZone := {
  offsetAt : Date -> Z;
  utcOf : Z -> Date;
  utcOf_same_day :
    forall l, (utcOf l + offsetAt (utcOf l)) / msPerDay = l / msPerDay;
  utcOf_next_day_later :
    forall t, t < utcOf (t + offsetAt t + msPerDay) }.

Lemma fixedOffset_same_day (tz l : Z) :
  (l - tz + tz) / msPerDay = l / msPerDay.
Proof. f_equal. lia. Qed.

Lemma fixedOffset_next_day_later (tz t : Z) : t < t + tz + msPerDay - tz.
Proof. unfold msPerDay. lia. Qed.

(** A zone without daylight saving: local time is UTC plus [tz]
    milliseconds. *)
Definition fixedOffset (tz : Z) : TimeZone :=
  {| offsetAt := fun _ => tz;
     utcOf := fun l => l - tz;
     utcOf_same_day := fixedOffset_same_day tz;
     utcOf_next_day_later := fixedOffset_next_day_later tz |}.

Section DateMethods.

Variable tz : TimeZone.

(** LocalTime(t) *)
Definition localTime (d : Date) : Z := d + offsetAt tz d.

Definition localDay (d : Date) : Z := localTime d / msPerDay.
Definition utcDay (d : Date) : Z := d / msPerDay.

Definition getDay (d : Date) : Z := Calendar.weekday (localDay d).
Definition getMonth (d : Date) : Z :=
  let '(_, m, _) := Calendar.civil (localDay d) in m - 1.
Definition getDate (d : Date) : Z :=
  let '(_, _, dd) := Calendar.civil (localDay d) in dd.

(** [day.setDate(day.getDate() + 1)]: the local time value moves on by
    one calendar day, the time within the day kept
    (MakeDate(MakeDay(year, month, date + 1), TimeWithinDay(t)) is
    [localTime d + msPerDay]), and is resolved to an instant. *)
Definition setDateNext (d : Date) : Date := utcOf tz (localTime d + msPerDay).

(** [toISOString().split('T')[0]]: the UTC calendar date. *)
Definition isoDate (d : Date) : string :=
  let '(y, m, dd) := Calendar.civil (utcDay d) in
  Calendar.isoYear y +++ "-" +++ Calendar.pad2 m +++ "-" +++ Calendar.pad2 dd.

(** [toLocaleDateString('en-US', {weekday:'short', month:'short', day:'numeric'})] *)
Definition localeWeekdayMonthDay (d : Date) : string :=
  Calendar.weekdayShort (getDay d) +++ ", " +++
  Calendar.monthShort (getMonth d + 1) +++ " " +++ showZ (getDate d).

(** [toLocaleDateString('en-US', {month:'short', day:'numeric'})] *)
Definition localeMonthDay (d : Date) : string :=
  Calendar.monthShort (getMonth d + 1) +++ " " +++ showZ (getDate d).

(** [toLocaleDateString('en-US', {month:'numeric', day:'numeric'})] *)
Definition localeNumeric (d : Date) : string :=
  showZ (getMonth d + 1) +++ "/" +++ showZ (getDate d).

(** *** AppointmentChecker.getNextWorkingDays *)

(** [!businessDaysOnly || (day.getDay() !== 0 && day.getDay() !== 6)] *)
Definition keepsDay (businessDaysOnly : bool) (d : Date) : bool :=
  negb businessDaysOnly || (negb (getDay d =? 0) && negb (getDay d =? 6)).

(** Days the loop may still skip before it reaches a day it keeps. *)
Definition skipDebt (businessDaysOnly : bool) (d : Date) : nat :=
  if businessDaysOnly
  then (if getDay d =? 6 then 2%nat else if getDay d =? 0 then 1%nat else 0%nat)
  else 0%nat.

Definition loopMeasure (count : Z) (businessDaysOnly : bool)
           (days : list Date) (day : Date) : nat :=
  (3 * Z.to_nat (count - Z.of_nat (List.length days))
   + skipDebt businessDaysOnly day)%nat.

Lemma localDay_next (d : Date) : localDay (setDateNext d) = localDay d + 1.
Proof.
  unfold localDay, setDateNext, localTime.
  rewrite utcOf_same_day.
  replace (d + offsetAt tz d + msPerDay)
    with (d + offsetAt tz d + 1 * msPerDay) by ring.
  apply Z.div_add. unfold msPerDay. lia.
Qed.

Lemma setDateNext_later (d : Date) : d < setDateNext d.
Proof. apply utcOf_next_day_later. Qed.

Lemma getDay_next (d : Date) :
  getDay (setDateNext d) = (getDay d + 1) mod 7.
Proof.
  unfold getDay, Calendar.weekday. rewrite localDay_next.
  replace (localDay d + 1 + 4) with ((localDay d + 4) + 1) by ring.
  rewrite Z.add_mod by lia.
  rewrite (Z.add_mod _ 1 7) by lia.
  rewrite Z.mod_mod by lia. reflexivity.
Qed.

Lemma getDay_range (d : Date) : 0 <= getDay d < 7.
Proof. unfold getDay, Calendar.weekday. apply Z.mod_pos_bound. lia. Qed.

Lemma loopMeasure_decreases count b days day :
  Z.of_nat (List.length days) < count ->
  let days' := if keepsDay b day then days ++ [day] else days in
  (loopMeasure count b days' (setDateNext day) < loopMeasure count b days day)%nat.
Proof.
  intros Hlt. cbv zeta. unfold loopMeasure, skipDebt, keepsDay.
  rewrite getDay_next.
  pose proof (getDay_range day) as Hr.
  assert (Hcases : getDay day = 0 \/ getDay day = 1 \/ getDay day = 2 \/
                   getDay day = 3 \/ getDay day = 4 \/ getDay day = 5 \/
                   getDay day = 6) by lia.
  destruct b; cbn [negb orb].
  - destruct Hcases as [H|[H|[H|[H|[H|[H|H]]]]]]; rewrite H; cbn;
      try rewrite length_app; cbn [List.length]; lia.
  - rewrite length_app. cbn [List.length]. lia.
Qed.

(** The [while (days.length < count)] loop of [getNextWorkingDays]. *)
Equations? workingDaysLoop (count : Z) (businessDaysOnly : bool)
           (days : list Date) (day : Date) : list Date
  by wf (loopMeasure count businessDaysOnly days day) lt :=
  workingDaysLoop count businessDaysOnly days day with inspect (Z.of_nat (List.length days) <? count) := {
    | exist _ false _ => days
    | exist _ true Hlt =>
        workingDaysLoop count businessDaysOnly
          (if keepsDay businessDaysOnly day then days ++ [day] else days)
          (setDateNext day) }.
Proof.
  apply loopMeasure_decreases. apply Z.ltb_lt. exact Hlt.
Qed.

Definition getNextWorkingDays (today : Date) (count : Z)
           (businessDaysOnly : bool) : list Date :=
  workingDaysLoop count businessDaysOnly [] today.

End DateMethods.

(** ** Strings *)

Module Str.

(** A string is held as the bytes of its UTF-8 encoding. *)
Definition utf8 (bytes : list nat) : string :=
  fold_right (fun n s => String (ascii_of_nat n) s) EmptyString bytes.

Definition nl : string := utf8 [10]%nat.
(** U+2022 BULLET and U+1F697 AUTOMOBILE. *)
Definition bullet : string := utf8 [226; 128; 162]%nat.
Definition car : string := utf8 [240; 159; 154; 151]%nat.

(** Truthiness of a string: the empty string is falsy. *)
Definition nonEmpty (s : string) : bool :=
  match s with EmptyString => false | String _ _ => true end.

(** White space as [trim] and the regular expressions' [\s] see it:
    the WhiteSpace and LineTerminator code points of ECMAScript, by the
    length of their encoding.

    One byte: U+0009 .. U+000D (tab, line feed, vertical tab, form feed,
    carriage return) and U+0020 (space). *)
Definition asciiSpace (c : ascii) : bool :=
  let n := nat_of_ascii c in
  ((9 <=? n) && (n <=? 13))%nat || (n =? 32)%nat.

(** Two bytes: U+00A0 (no-break space). *)
Definition twoByteSpace (c1 c2 : ascii) : bool :=
  ((nat_of_ascii c1 =? 194) && (nat_of_ascii c2 =? 160))%nat.

(** Three bytes: U+1680, U+2000 .. U+200A, U+2028, U+2029, U+202F,
    U+205F, U+3000 and U+FEFF. *)
Definition threeByteSpace (c1 c2 c3 : ascii) : bool :=
  let n1 := nat_of_ascii c1 in
  let n2 := nat_of_ascii c2 in
  let n3 := nat_of_ascii c3 in
  ((n1 =? 225) && (n2 =? 154) && (n3 =? 128) ||
   (n1 =? 226) && (n2 =? 128) &&
     ((128 <=? n3) && (n3 <=? 138) || (n3 =? 168) || (n3 =? 169) || (n3 =? 175)) ||
   (n1 =? 226) && (n2 =? 129) && (n3 =? 159) ||
   (n1 =? 227) && (n2 =? 128) && (n3 =? 128) ||
   (n1 =? 239) && (n2 =? 187) && (n3 =? 191))%nat.

Definition isDigit (c : ascii) : bool :=
  let n := nat_of_ascii c in ((48 <=? n) && (n <=? 57))%nat.

(** [s] without the white space at its head.  With [backwards] the
    bytes of [s] are read as those of a reversed string (last byte
    first), which is how [trim] strips the tail. *)
Fixpoint skipSpace (backwards : bool) (s : string) : string :=
  match s with
  | String c1 t1 =>
      if asciiSpace c1 then skipSpace backwards t1
      else
        match t1 with
        | String c2 t2 =>
            if (if backwards then twoByteSpace c2 c1 else twoByteSpace c1 c2)
            then skipSpace backwards t2
            else
              match t2 with
              | String c3 t3 =>
                  if (if backwards then threeByteSpace c3 c2 c1
                      else threeByteSpace c1 c2 c3)
                  then skipSpace backwards t3
                  else s
              | EmptyString => s
              end
        | EmptyString => s
        end
  | EmptyString => EmptyString
  end.

Definition trimStart (s : string) : string := skipSpace false s.

Fixpoint rev (s : string) : string :=
  match s with
  | EmptyString => EmptyString
  | String c t => rev t +++ String c EmptyString
  end.

(** [s.trim()] *)
Definition trim (s : string) : string :=
  rev (skipSpace true (rev (trimStart s))).

(** [s.includes(sub)] *)
Fixpoint includes (s sub : string) : bool :=
  String.prefix sub s ||
  match s with
  | EmptyString => false
  | String _ t => includes t sub
  end.

Definition lowerChar (c : ascii) : ascii :=
  let n := nat_of_ascii c in
  if ((65 <=? n) && (n <=? 90))%nat then ascii_of_nat (n + 32) else c.

(** [s.toLowerCase()], exact in the ASCII letters of its result: [A-Z]
    are lowered, U+0130 becomes [i] followed by U+0307 and U+212A (the
    Kelvin sign) becomes [k].  These are the only characters whose lower
    case holds an ASCII letter; every other character outside ASCII is
    left as it is, where JavaScript may put another character outside
    ASCII in its place. *)
Fixpoint toLowerCase (s : string) : string :=
  match s with
  | EmptyString => EmptyString
  | String c1 t1 =>
      let plain := String (lowerChar c1) (toLowerCase t1) in
      match t1 with
      | String c2 t2 =>
          if ((nat_of_ascii c1 =? 196) && (nat_of_ascii c2 =? 176))%nat
          then "i" +++ utf8 [204; 135]%nat +++ toLowerCase t2
          else
            match t2 with
            | String c3 t3 =>
                if ((nat_of_ascii c1 =? 226) && (nat_of_ascii c2 =? 132) &&
                    (nat_of_ascii c3 =? 170))%nat
                then String "k" (toLowerCase t3)
                else plain
            | EmptyString => plain
            end
      | EmptyString => plain
      end
  end.

(** [xs.join(sep)] *)
Fixpoint join (sep : string) (xs : list string) : string :=
  match xs with
  | [] => ""
  | [x] => x
  | x :: rest => x +++ sep +++ join sep rest
  end.

Fixpoint drop (n : nat) (s : string) : string :=
  match n, s with
  | O, _ => s
  | S k, String _ t => drop k t
  | S _, EmptyString => EmptyString
  end.

(** [s.replace(pat, rep)] with a string pattern: the first occurrence. *)
Fixpoint replace (pat rep s : string) : string :=
  if String.prefix pat s then rep +++ drop (String.length pat) s
  else match s with
       | EmptyString => EmptyString
       | String c t => String c (replace pat rep t)
       end.

(** *** The two time patterns of the text strategy *)

Definition isAmPm (c1 c2 : ascii) : bool :=
  let l1 := lowerChar c1 in
  let l2 := lowerChar c2 in
  (Ascii.eqb l1 "a" || Ascii.eqb l1 "p") && Ascii.eqb l2 "m".

(** [(AM|PM)] at the head of [s], case-insensitive. *)
Definition startsAmPm (s : string) : bool :=
  match s with
  | String c1 (String c2 _) => isAmPm c1 c2
  | _ => false
  end.

(** [:\d{2}\s*(AM|PM)] at the head of [s]. *)
Definition colonMinutesAmPm (s : string) : bool :=
  match s with
  | String c (String d1 (String d2 t)) =>
      Ascii.eqb c ":" && isDigit d1 && isDigit d2 && startsAmPm (trimStart t)
  | _ => false
  end.

(** [\d{1,2}] followed by [rest], at the head of [s]: two digits are
    tried before one. *)
Definition oneOrTwoDigitsThen (rest : string -> bool) (s : string) : bool :=
  match s with
  | String d1 t =>
      isDigit d1 &&
      ((match t with
        | String d2 t2 => isDigit d2 && rest t2
        | EmptyString => false
        end) || rest t)
  | EmptyString => false
  end.

(** [pattern.test(s)] for an unanchored pattern given by its matcher at
    a position. *)
Fixpoint testAnywhere (at_head : string -> bool) (s : string) : bool :=
  at_head s ||
  match s with
  | EmptyString => false
  | String _ t => testAnywhere at_head t
  end.

(** [/\d{1,2}:\d{2}\s*(AM|PM)/i.test(s)] *)
Definition testClockTime (s : string) : bool :=
  testAnywhere (oneOrTwoDigitsThen colonMinutesAmPm) s.

(** [/\d{1,2}(AM|PM)/i.test(s)] *)
Definition testHourAmPm (s : string) : bool :=
  testAnywhere (oneOrTwoDigitsThen startsAmPm) s.

End Str.

(** ** Data model (shared/schema.ts, and the fields the services read) *)

Record DmvLocation := {
  loc_id : string;
  loc_name : string;
  loc_url : string;
  loc_type : string;
  loc_enabled : bool;
  loc_createdAt : Date }.

(** The SMS fields are those [SmsService] reads off the configuration. *)
Record EmailConfig := {
  notificationEmail : string;
  smtpServer : string;
  smtpPort : Z;
  smtpUsername : option string;
  smtpPassword : option string;
  smsEnabled : bool;
  phoneNumber : option string;
  twilioAccountSid : option string;
  twilioAuthToken : option string;
  twilioPhoneNumber : option string }.

Record MonitoringSettings := {
  checkInterval : Z;
  daysAhead : Z;
  businessDaysOnly : bool;
  isEnabled : bool }.

(** [smsSent] is [None] while the record has no such property. *)
Record MonitoringStats := {
  totalChecks : Z;
  appointmentsFound : Z;
  emailsSent : Z;
  smsSent : option Z;
  lastCheckTime : option Date;
  uptime : Z }.

Record AppointmentSlot := {
  slot_location : string;
  slot_date : string;
  slot_time : string;
  slot_url : string }.

(** The value handed to [JSON.stringify] for an entry's metadata (the
    serialisation itself is not modelled). *)
Inductive Metadata :=
| MetaLocation (locationId url : string)
| MetaSlots (slots : list AppointmentSlot)
| MetaNotification (slots : list AppointmentSlot) (methods : list string)
                   (timestamp : Date)
| MetaError (error : string).

Record InsertActivityLog := {
  log_type : string;
  log_title : string;
  log_description : option string;
  log_action : option string;
  log_metadata : option Metadata }.

Record ActivityLog := {
  log_entry : InsertActivityLog;
  log_createdAt : Date }.

(** *** Thrown values *)

Inductive Thrown :=
| ErrorObject (message stack : string)   (* [instanceof Error] *)
| OtherThrown (value : string).

(** [new Error(msg)] (the stack's frames are left out). *)
Definition newError (msg : string) : Thrown :=
  ErrorObject msg ("Error: " +++ msg).

(** [error instanceof Error ? error.message : 'Unknown error'] *)
Definition messageOf (e : Thrown) : string :=
  match e with
  | ErrorObject m _ => m
  | OtherThrown _ => "Unknown error"
  end.

(** [error instanceof Error ? error.stack : error] *)
Definition stackOf (e : Thrown) : string :=
  match e with
  | ErrorObject _ s => s
  | OtherThrown v => v
  end.

(** *** The page as the browser evaluates selectors on it *)

Record Element := {
  classList : list string;
  attributes : list (string * string);
  textContent : option string }.

Definition hasClass (el : Element) (c : string) : bool :=
  existsb (String.eqb c) (classList el).

Definition getAttribute (el : Element) (name : string) : option string :=
  option_map snd (find (fun kv => String.eqb (fst kv) name) (attributes el)).

Definition hasAttribute (el : Element) (name : string) : bool :=
  match getAttribute el name with Some _ => true | None => false end.

(** [el.textContent?.trim() || ''] *)
Definition trimmedText (el : Element) : string :=
  match textContent el with
  | Some t => Str.trim t
  | None => ""
  end.

(** [el.getAttribute(name) || ''] *)
Definition attributeOrEmpty (el : Element) (name : string) : string :=
  match getAttribute el name with
  | Some v => v
  | None => ""
  end.

(** The two selector lists the checker evaluates:
    [.available, .time-slot, [data-available=true], .calendar-day.available]
    and [.calendar-cell, .booking-slot, .appointment-time]. *)
Inductive Selector := AvailableMarkers | CalendarCells.

Definition matchesSelector (sel : Selector) (el : Element) : bool :=
  match sel with
  | AvailableMarkers =>
      hasClass el "available" || hasClass el "time-slot" ||
      match getAttribute el "data-available" with
      | Some v => String.eqb v "true"
      | None => false
      end ||
      (hasClass el "calendar-day" && hasClass el "available")
  | CalendarCells =>
      hasClass el "calendar-cell" || hasClass el "booking-slot" ||
      hasClass el "appointment-time"
  end.

(** *** External calls and console lines, in the order they happen *)

Record MailOptions := {
  mail_from : string;
  mail_to : string;
  mail_subject : string;
  mail_text : string }.

Inductive Event :=
| ConsoleLog (line : string)
| ConsoleError (line : string) (e : Thrown)
| BrowserLaunch
| BrowserClose
| NewPage
| PageGoto (url : string)
| PageWait (ms : Z)
| PageEval (selector : Selector)
| PageClose
| SendMail (host : string) (port : Z) (opts : MailOptions)
| TwilioCreate (sid body from to : string)
| CronSchedule (expression : string)
| CronStart
| CronStop.

(** *** The outside world: what each external call answers

    [None] is a call that resolves, [Some e] one that throws or rejects
    with [e].  Pages are keyed by URL. *)
Record Env := {
  tz : TimeZone;
  launch : option Thrown;
  browserClose : option Thrown;
  newPage : option Thrown;
  pageClose : option Thrown;
  goto : string -> option Thrown;
  waitForDelay : string -> option Thrown;
  dom : string -> list Element;
  evalRejects : string -> Selector -> option Thrown;
  sendMail : MailOptions -> option Thrown;
  twilioClient : string -> string -> option Thrown;
  twilioCreate : string -> string -> string -> option Thrown;
  cronSchedule : string -> option Thrown }.

(** *** Program state *)

Record MemStorage := {
  dmvLocations : list DmvLocation;
  emailConfig : option EmailConfig;
  monitoringSettings : option MonitoringSettings;
  activityLogs : list ActivityLog;
  monitoringStats : option MonitoringStats }.

(** The private fields of [MonitoringService]; [task] holds the cron
    expression of the scheduled task. *)
Record MonitoringServiceState := {
  task : option string;
  isRunning : bool;
  startTime : option Date }.

Record World := {
  storage : MemStorage;
  browser : bool;                (* [AppointmentChecker.browser] is set *)
  monitoringService : MonitoringServiceState;
  clock : Date;                  (* what [new Date()] reads *)
  trace : list Event }.

Definition setStorage (s : MemStorage) (w : World) : World :=
  {| storage := s; browser := browser w;
     monitoringService := monitoringService w;
     clock := clock w; trace := trace w |}.

Definition setBrowser (b : bool) (w : World) : World :=
  {| storage := storage w; browser := b;
     monitoringService := monitoringService w;
     clock := clock w; trace := trace w |}.

Definition setMonitoringService (m : MonitoringServiceState) (w : World) : World :=
  {| storage := storage w; browser := browser w;
     monitoringService := m;
     clock := clock w; trace := trace w |}.

Definition addEvent (e : Event) (w : World) : World :=
  {| storage := storage w; browser := browser w;
     monitoringService := monitoringService w;
     clock := clock w; trace := trace w ++ [e] |}.

(** ** Asynchronous computations

    A computation runs on a world and ends by returning or by throwing;
    either way the effects it had stay. *)

Inductive Result (A : Type) :=
| Ok (a : A)
| Throw (e : Thrown).
Arguments Ok {A} a.
Arguments Throw {A} e.

Definition isOk {A} (r : Result A) : bool :=
  match r with Ok _ => true | Throw _ => false end.

Definition M (A : Type) : Type := World -> Result A * World.

Definition ret {A} (a : A) : M A := fun w => (Ok a, w).

Definition bind {A B} (c : M A) (k : A -> M B) : M B :=
  fun w => match c w with
           | (Ok a, w') => k a w'
           | (Throw e, w') => (Throw e, w')
           end.

Definition throw {A} (e : Thrown) : M A := fun w => (Throw e, w).

(** [try { c } catch (error) { h error }] *)
Definition tryCatch {A} (c : M A) (h : Thrown -> M A) : M A :=
  fun w => match c w with
           | (Ok a, w') => (Ok a, w')
           | (Throw e, w') => h e w'
           end.

(** [try { c } finally { f }] *)
Definition tryFinally {A} (c : M A) (f : M unit) : M A :=
  fun w => match c w with
           | (r, w') => match f w' with
                        | (Ok _, w'') => (r, w'')
                        | (Throw e, w'') => (Throw e, w'')
                        end
           end.

Definition getWorld : M World := fun w => (Ok w, w).
Definition modify (f : World -> World) : M unit := fun w => (Ok tt, f w).
Definition emit (e : Event) : M unit := modify (addEvent e).

(** An external call: recorded, then resolved or rejected as the
    environment says. *)
Definition external (e : Event) (answer : option Thrown) : M unit :=
  fun w => match answer with
           | None => (Ok tt, addEvent e w)
           | Some err => (Throw err, addEvent e w)
           end.

Declare Scope async_scope.
Delimit Scope async_scope with async.
Notation "x <- c1 ;; c2" := (bind c1 (fun x => c2))
  (at level 61, c1 at next level, right associativity) : async_scope.
Notation "c1 ;; c2" := (bind c1 (fun _ => c2))
  (at level 61, right associativity) : async_scope.
Local Open Scope async_scope.

(** [for (const x of xs) { body x }] where the body pushes onto an array
    declared outside the loop: the array is threaded through. *)
Fixpoint forEachPush {A B} (xs : list A) (acc : list B)
         (body : A -> M (list B)) : M (list B) :=
  match xs with
  | [] => ret acc
  | x :: rest => pushed <- body x ;; forEachPush rest (acc ++ pushed) body
  end.

Definition consoleLog (line : string) : M unit := emit (ConsoleLog line).
Definition consoleError (line : string) (e : Thrown) : M unit :=
  emit (ConsoleError line e).

(** [new Date()] *)
Definition newDate : M Date := fun w => (Ok (clock w), w).

(** A value that is [null], [undefined] or the empty string is falsy. *)
Definition truthy (s : option string) : bool :=
  match s with Some v => Str.nonEmpty v | None => false end.

(** [a || b] on strings. *)
Definition orElse (a b : string) : string :=
  if Str.nonEmpty a then a else b.

(** ** MemStorage (server/storage.ts) *)

Module Storage.

(** Stable insertion by creation time: [Array.prototype.sort] with
    [a.createdAt - b.createdAt]. *)
Fixpoint insertByCreatedAt (x : DmvLocation) (l : list DmvLocation)
  : list DmvLocation :=
  match l with
  | [] => [x]
  | y :: rest =>
      if loc_createdAt y <=? loc_createdAt x
      then y :: insertByCreatedAt x rest
      else x :: l
  end.

Definition sortByCreatedAt (l : list DmvLocation) : list DmvLocation :=
  fold_left (fun sorted x => insertByCreatedAt x sorted) l [].

Definition getDmvLocations : M (list DmvLocation) :=
  fun w => (Ok (sortByCreatedAt (dmvLocations (storage w))), w).

Definition getEmailConfig : M (option EmailConfig) :=
  fun w => (Ok (emailConfig (storage w)), w).

Definition getMonitoringSettings : M (option MonitoringSettings) :=
  fun w => (Ok (monitoringSettings (storage w)), w).

Definition getMonitoringStats : M (option MonitoringStats) :=
  fun w => (Ok (monitoringStats (storage w)), w).

Definition appendLog (entry : ActivityLog) (s : MemStorage) : MemStorage :=
  {| dmvLocations := dmvLocations s;
     emailConfig := emailConfig s;
     monitoringSettings := monitoringSettings s;
     activityLogs := activityLogs s ++ [entry];
     monitoringStats := monitoringStats s |}.

Definition createActivityLog (log : InsertActivityLog) : M ActivityLog :=
  fun w =>
    let newLog := {| log_entry := log; log_createdAt := clock w |} in
    (Ok newLog, setStorage (appendLog newLog (storage w)) w).

(** [{...this.monitoringStats, ...stats}]: a property the new record
    lacks keeps its stored value. *)
Definition mergeStats (old : option MonitoringStats) (new : MonitoringStats)
  : MonitoringStats :=
  {| totalChecks := totalChecks new;
     appointmentsFound := appointmentsFound new;
     emailsSent := emailsSent new;
     smsSent := match smsSent new with
                | Some n => Some n
                | None => match old with
                          | Some o => smsSent o
                          | None => None
                          end
                end;
     lastCheckTime := lastCheckTime new;
     uptime := uptime new |}.

Definition putStats (st : MonitoringStats) (s : MemStorage) : MemStorage :=
  {| dmvLocations := dmvLocations s;
     emailConfig := emailConfig s;
     monitoringSettings := monitoringSettings s;
     activityLogs := activityLogs s;
     monitoringStats := Some st |}.

Definition upsertMonitoringStats (stats : MonitoringStats) : M MonitoringStats :=
  fun w =>
    let merged := mergeStats (monitoringStats (storage w)) stats in
    (Ok merged, setStorage (putStats merged (storage w)) w).

End Storage.

(** Record updates written [{...stats, field: value}] in the source. *)
Definition withEmailsSent (n : Z) (st : MonitoringStats) : MonitoringStats :=
  {| totalChecks := totalChecks st; appointmentsFound := appointmentsFound st;
     emailsSent := n; smsSent := smsSent st;
     lastCheckTime := lastCheckTime st; uptime := uptime st |}.

Definition withSmsSent (n : Z) (st : MonitoringStats) : MonitoringStats :=
  {| totalChecks := totalChecks st; appointmentsFound := appointmentsFound st;
     emailsSent := emailsSent st; smsSent := Some n;
     lastCheckTime := lastCheckTime st; uptime := uptime st |}.

(** [s] for a plural: [n > 1 ? 's' : ''] *)
Definition plural (n : nat) : string := if (1 <? n)%nat then "s" else "".

(** ** EmailService (server/services/emailService.ts) *)

Module EmailService.
Section WithEnv.
Variable env : Env.

Definition subject (slots : list AppointmentSlot) : string :=
  "DMV Appointment Available - " +++ showNat (List.length slots) +++
  " slot" +++ plural (List.length slots) +++ " found!".

Definition body (slots : list AppointmentSlot) : string :=
  let slotDetails :=
    Str.join (Str.nl +++ Str.nl)
      (map (fun slot =>
              Str.bullet +++ " " +++ slot_location slot +++ Str.nl +++
              "  " +++ slot_time slot +++ Str.nl +++
              "  Book here: " +++ slot_url slot) slots) in
  "Great news! We found available DMV appointment slots:" +++
  Str.nl +++ Str.nl +++ slotDetails +++ Str.nl +++ Str.nl +++
  "Book quickly as these slots may fill up fast!".

(** [emailConfig.smtpUsername || emailConfig.notificationEmail] *)
Definition mailFrom (cfg : EmailConfig) : string :=
  match smtpUsername cfg with
  | Some u => orElse u (notificationEmail cfg)
  | None => notificationEmail cfg
  end.

Definition sendAppointmentNotification (slots : list AppointmentSlot) : M unit :=
  emailConfig <- Storage.getEmailConfig ;;
  match emailConfig with
  | None => throw (newError "Email configuration not found")
  | Some cfg =>
      let mailOptions :=
        {| mail_from := mailFrom cfg;
           mail_to := notificationEmail cfg;
           mail_subject := subject slots;
           mail_text := body slots |} in
      external (SendMail (smtpServer cfg) (smtpPort cfg) mailOptions)
               (sendMail env mailOptions) ;;
      (* Update stats *)
      stats <- Storage.getMonitoringStats ;;
      match stats with
      | Some st =>
          Storage.upsertMonitoringStats (withEmailsSent (emailsSent st + 1) st) ;;
          ret tt
      | None => ret tt
      end
  end.

Definition sendTestEmail : M unit :=
  emailConfig <- Storage.getEmailConfig ;;
  match emailConfig with
  | None => throw (newError "Email configuration not found")
  | Some cfg =>
      let mailOptions :=
        {| mail_from := mailFrom cfg;
           mail_to := notificationEmail cfg;
           mail_subject := "DMV Monitor - Test Email";
           mail_text := "This is a test email from your DMV appointment monitor. If you received this, your email configuration is working correctly!" |} in
      external (SendMail (smtpServer cfg) (smtpPort cfg) mailOptions)
               (sendMail env mailOptions)
  end.

End WithEnv.
End EmailService.

(** ** SmsService (server/services/smsService.ts) *)

Module SmsService.
Section WithEnv.
Variable env : Env.

(** The guard both operations open with:
    [!emailConfig || !emailConfig.smsEnabled || !emailConfig.twilioAccountSid
     || !emailConfig.twilioAuthToken || !emailConfig.twilioPhoneNumber
     || !emailConfig.phoneNumber] *)
Definition notConfigured (emailConfig : option EmailConfig) : bool :=
  match emailConfig with
  | None => true
  | Some cfg =>
      negb (smsEnabled cfg) || negb (truthy (twilioAccountSid cfg)) ||
      negb (truthy (twilioAuthToken cfg)) ||
      negb (truthy (twilioPhoneNumber cfg)) || negb (truthy (phoneNumber cfg))
  end.

Definition valueOf (s : option string) : string :=
  match s with Some v => v | None => "" end.

Definition buildSmsMessage (slots : list AppointmentSlot) : string :=
  let slotCount := List.length slots in
  let header :=
    Str.car +++ " DMV Alert! " +++ showNat slotCount +++ " appointment" +++
    plural slotCount +++ " available:" in
  let slotDetails :=
    Str.join Str.nl
      (map (fun slot =>
              let location :=
                Str.replace " (DL)" " DL"
                  (Str.replace " (All Services)" ""
                     (Str.replace " DMV" "" (slot_location slot))) in
              Str.bullet +++ " " +++ location +++ ": " +++ slot_time slot)
           slots) in
  let footer := "Book quickly - slots fill up fast!" in
  header +++ Str.nl +++ Str.nl +++ slotDetails +++ Str.nl +++ Str.nl +++ footer.

(** [twilio(accountSid, authToken)] *)
Definition twilio (sid token : string) : M unit :=
  fun w => match twilioClient env sid token with
           | None => (Ok tt, w)
           | Some e => (Throw e, w)
           end.

Definition messagesCreate (cfg : EmailConfig) (body : string) : M unit :=
  external (TwilioCreate (valueOf (twilioAccountSid cfg)) body
                         (valueOf (twilioPhoneNumber cfg))
                         (valueOf (phoneNumber cfg)))
           (twilioCreate env body (valueOf (twilioPhoneNumber cfg))
                         (valueOf (phoneNumber cfg))).

Definition sendAppointmentNotification (slots : list AppointmentSlot) : M unit :=
  emailConfig <- Storage.getEmailConfig ;;
  if notConfigured emailConfig then
    consoleLog "SMS not configured or disabled, skipping SMS notification" ;;
    ret tt
  else
    match emailConfig with
    | None => ret tt
    | Some cfg =>
        twilio (valueOf (twilioAccountSid cfg)) (valueOf (twilioAuthToken cfg)) ;;
        let message := buildSmsMessage slots in
        tryCatch
          (messagesCreate cfg message ;;
           (* Update SMS stats *)
           stats <- Storage.getMonitoringStats ;;
           match stats with
           | Some st =>
               Storage.upsertMonitoringStats
                 (withSmsSent (match smsSent st with Some n => n | None => 0 end + 1) st) ;;
               ret tt
           | None => ret tt
           end ;;
           consoleLog "SMS notification sent successfully")
          (fun error =>
             consoleError "Failed to send SMS notification:" error ;;
             throw error)
    end.

Definition sendTestSms : M unit :=
  emailConfig <- Storage.getEmailConfig ;;
  if notConfigured emailConfig then
    throw (newError "SMS configuration incomplete or disabled")
  else
    match emailConfig with
    | None => ret tt
    | Some cfg =>
        twilio (valueOf (twilioAccountSid cfg)) (valueOf (twilioAuthToken cfg)) ;;
        messagesCreate cfg
          "Test message from your DMV appointment monitor. SMS notifications are working correctly!"
    end.

End WithEnv.
End SmsService.

(** ** NotificationService (server/services/notificationService.ts) *)

Module NotificationService.
Section WithEnv.
Variable env : Env.

Definition notificationLog (slots : list AppointmentSlot)
           (results : list string) (now : Date) : InsertActivityLog :=
  {| log_type := "notification_sent";
     log_title := "Notifications Sent";
     log_description :=
       Some ("Sent " +++ Str.join " and " results +++ " notifications for " +++
             showNat (List.length slots) +++ " appointment" +++
             plural (List.length slots));
     log_action := Some ("Notified via: " +++ Str.join ", " results);
     log_metadata := Some (MetaNotification slots results now) |}.

Definition sendAppointmentNotification (slots : list AppointmentSlot) : M unit :=
  let results := [] in
  (* Send email notification *)
  results <-
    tryCatch
      (EmailService.sendAppointmentNotification env slots ;;
       consoleLog "Email notification sent successfully" ;;
       ret (results ++ ["email"]))
      (fun error =>
         consoleError "Failed to send email notification:" error ;;
         ret results) ;;
  (* Send SMS notification if enabled *)
  results <-
    tryCatch
      (SmsService.sendAppointmentNotification env slots ;;
       consoleLog "SMS notification sent successfully" ;;
       ret (results ++ ["SMS"]))
      (fun error =>
         consoleError "Failed to send SMS notification:" error ;;
         ret results) ;;
  (* Log notification activity *)
  if (0 <? List.length results)%nat then
    now <- newDate ;;
    Storage.createActivityLog (notificationLog slots results now) ;;
    ret tt
  else ret tt.

(** The [{ email, sms }] object it returns, as a pair. *)
Definition sendTestNotifications : M (bool * bool) :=
  email <-
    tryCatch (EmailService.sendTestEmail env ;; ret true)
             (fun error => consoleError "Email test failed:" error ;; ret false) ;;
  sms <-
    tryCatch (SmsService.sendTestSms env ;; ret true)
             (fun error => consoleError "SMS test failed:" error ;; ret false) ;;
  ret (email, sms).

End WithEnv.
End NotificationService.

(** ** AppointmentChecker (server/services/appointmentChecker.ts) *)

Module AppointmentChecker.
Section WithEnv.
Variable env : Env.

Definition initialize : M unit :=
  w <- getWorld ;;
  if negb (browser w) then
    external BrowserLaunch (launch env) ;;
    modify (setBrowser true)
  else ret tt.

Definition close : M unit :=
  w <- getWorld ;;
  if browser w then
    external BrowserClose (browserClose env) ;;
    modify (setBrowser false)
  else ret tt.

(** [page.$$eval(selector, f).catch(() => [])] *)
Definition evalOrEmpty {A} (url : string) (sel : Selector)
           (f : list Element -> list A) : M (list A) :=
  tryCatch
    (external (PageEval sel) (evalRejects env url sel) ;;
     ret (f (filter (matchesSelector sel) (dom env url))))
    (fun _ => ret []).

(** *** Text-pattern strategy *)

Definition dateFormats (targetDate : Date) : list string :=
  [ localeWeekdayMonthDay (tz env) targetDate;
    localeMonthDay (tz env) targetDate;
    localeNumeric (tz env) targetDate;
    showZ (getMonth (tz env) targetDate + 1) +++ "/" +++
      showZ (getDate (tz env) targetDate);
    showZ (getDate (tz env) targetDate) ].

Definition matchesDate (text : string) (targetDate : Date) : bool :=
  existsb (fun format => Str.includes text format) (dateFormats targetDate).

Definition hasTime (text : string) : bool :=
  existsb (fun pattern => pattern text) [Str.testClockTime; Str.testHourAmPm].

Definition textSlots (location : DmvLocation) (targetDates : list Date)
           (texts : list string) : list AppointmentSlot :=
  flat_map
    (fun text =>
       flat_map
         (fun targetDate =>
            if matchesDate text targetDate &&
               (hasTime text || Str.includes (Str.toLowerCase text) "available")
            then [ {| slot_location := loc_name location;
                      slot_date := isoDate targetDate;
                      slot_time := text;
                      slot_url := loc_url location |} ]
            else [])
         targetDates)
    texts.

(** *** Structured-attribute strategy *)

Record CalendarSlot := {
  cal_text : string;
  cal_date : string;
  cal_time : string }.

(** The element filter and map run in the page. *)
Definition isAvailable (el : Element) : bool :=
  negb (hasClass el "disabled") && negb (hasClass el "unavailable") &&
  negb (hasAttribute el "disabled").

Definition readCalendarSlots (elements : list Element) : list CalendarSlot :=
  map (fun el => {| cal_text := trimmedText el;
                    cal_date := attributeOrEmpty el "data-date";
                    cal_time := attributeOrEmpty el "data-time" |})
      (filter (fun el => isAvailable el && Str.nonEmpty (trimmedText el))
              elements).

(** The loop over [calendarSlots]; [today] is what [new Date()] reads. *)
Definition calendarSlotsToPush (location : DmvLocation) (today : Date)
           (calendarSlots : list CalendarSlot) : list AppointmentSlot :=
  flat_map
    (fun slot =>
       if Str.nonEmpty (cal_date slot) || Str.nonEmpty (cal_time slot)
       then [ {| slot_location := loc_name location;
                 slot_date := orElse (cal_date slot) (isoDate today);
                 slot_time := orElse (cal_time slot) (cal_text slot);
                 slot_url := loc_url location |} ]
       else [])
    calendarSlots.

Definition locationErrorLog (location : DmvLocation) (error : Thrown)
  : InsertActivityLog :=
  {| log_type := "error";
     log_title := "Error checking " +++ loc_name location;
     log_description :=
       Some ("Failed to check appointments: " +++ messageOf error);
     log_action := None;
     log_metadata := Some (MetaLocation (loc_id location) (loc_url location)) |}.

(** The body of the loop over the enabled locations; it answers the
    slots it pushed onto [availableSlots] (every call that can throw
    comes before the first push). *)
Definition checkLocation (targetDates : list Date) (location : DmvLocation)
  : M (list AppointmentSlot) :=
  consoleLog ("Checking " +++ loc_name location +++ " at " +++ loc_url location) ;;
  tryCatch
    (external (PageGoto (loc_url location)) (goto env (loc_url location)) ;;
     (* Wait for dynamic content to load *)
     external (PageWait 5000) (waitForDelay env (loc_url location)) ;;
     (* Look for available appointment slots *)
     slots <- evalOrEmpty (loc_url location) AvailableMarkers (map trimmedText) ;;
     let pushedText := textSlots location targetDates slots in
     (* Alternative: Look for calendar elements or booking buttons *)
     calendarSlots <- evalOrEmpty (loc_url location) CalendarCells readCalendarSlots ;;
     today <- newDate ;;
     ret (pushedText ++ calendarSlotsToPush location today calendarSlots))
    (fun error =>
       consoleError ("Error checking " +++ loc_name location +++ ":") error ;;
       (* Log the error as an activity *)
       Storage.createActivityLog (locationErrorLog location error) ;;
       ret []).

Definition checkAppointments : M (list AppointmentSlot) :=
  initialize ;;
  locations <- Storage.getDmvLocations ;;
  let enabledLocations := filter loc_enabled locations in
  settings <- Storage.getMonitoringSettings ;;
  match settings with
  | None => throw (newError "Monitoring settings not found")
  | Some settings =>
      today <- newDate ;;
      let targetDates :=
        getNextWorkingDays (tz env) today (daysAhead settings)
                           (businessDaysOnly settings) in
      external NewPage (newPage env) ;;
      availableSlots <-
        tryFinally
          (forEachPush enabledLocations [] (checkLocation targetDates))
          (external PageClose (pageClose env)) ;;
      ret availableSlots
  end.

End WithEnv.
End AppointmentChecker.

(** ** MonitoringService (server/services/monitoringService.ts) *)

Module MonitoringService.
Section WithEnv.
Variable env : Env.

Definition setTask (t : option string) (w : World) : World :=
  setMonitoringService
    {| task := t; isRunning := isRunning (monitoringService w);
       startTime := startTime (monitoringService w) |} w.

Definition setIsRunning (b : bool) (w : World) : World :=
  setMonitoringService
    {| task := task (monitoringService w); isRunning := b;
       startTime := startTime (monitoringService w) |} w.

Definition setStartTime (t : option Date) (w : World) : World :=
  setMonitoringService
    {| task := task (monitoringService w);
       isRunning := isRunning (monitoringService w);
       startTime := t |} w.

Definition startedLog (intervalMinutes : Z) : InsertActivityLog :=
  {| log_type := "monitoring_started";
     log_title := "Monitoring Started";
     log_description :=
       Some ("Started monitoring with " +++ showZ intervalMinutes +++
             " minute intervals");
     log_action := None;
     log_metadata := None |}.

Definition stoppedLog : InsertActivityLog :=
  {| log_type := "monitoring_stopped";
     log_title := "Monitoring Stopped";
     log_description := Some "Appointment monitoring has been stopped";
     log_action := None;
     log_metadata := None |}.

Definition startMonitoring : M unit :=
  w <- getWorld ;;
  if isRunning (monitoringService w) then ret tt
  else
    settings <- Storage.getMonitoringSettings ;;
    match settings with
    | Some settings =>
        if isEnabled settings then
          (* Stop any existing task *)
          w <- getWorld ;;
          match task (monitoringService w) with
          | Some _ => emit CronStop
          | None => ret tt
          end ;;
          (* Convert interval from seconds to cron expression *)
          let intervalMinutes := checkInterval settings / 60 in
          let cronExpression := "*/" +++ showZ intervalMinutes +++ " * * * *" in
          external (CronSchedule cronExpression) (cronSchedule env cronExpression) ;;
          modify (setTask (Some cronExpression)) ;;
          emit CronStart ;;
          modify (setIsRunning true) ;;
          now <- newDate ;;
          modify (setStartTime (Some now)) ;;
          (* Log monitoring started *)
          Storage.createActivityLog (startedLog intervalMinutes) ;;
          consoleLog ("DMV monitoring started with " +++ showZ intervalMinutes +++
                      " minute intervals")
        else throw (newError "Monitoring is not enabled")
    | None => throw (newError "Monitoring is not enabled")
    end.

Definition stopMonitoring : M unit :=
  w <- getWorld ;;
  match task (monitoringService w) with
  | Some _ => emit CronStop ;; modify (setTask None)
  | None => ret tt
  end ;;
  modify (setIsRunning false) ;;
  (* Log monitoring stopped *)
  Storage.createActivityLog stoppedLog ;;
  consoleLog "DMV monitoring stopped".

Definition foundLog (slots : list AppointmentSlot) : InsertActivityLog :=
  {| log_type := "appointment_found";
     log_title := "Appointment Found!";
     log_description :=
       Some ("Found " +++ showNat (List.length slots) +++ " available slot" +++
             plural (List.length slots) +++ ": " +++
             Str.join ", "
               (map (fun s => slot_location s +++ " - " +++ slot_time s) slots));
     log_action := Some "Email notification sent";
     log_metadata := Some (MetaSlots slots) |}.

Definition completedLog (enabledCount : nat) : InsertActivityLog :=
  {| log_type := "check_completed";
     log_title := "Routine Check Completed";
     log_description :=
       Some ("Checked " +++ showNat enabledCount +++
             " locations - No appointments available");
     log_action := None;
     log_metadata := None |}.

Definition checkFailedLog (error : Thrown) : InsertActivityLog :=
  {| log_type := "error";
     log_title := "Check Failed";
     log_description := Some ("Appointment check failed: " +++ messageOf error);
     log_action := None;
     log_metadata := Some (MetaError (stackOf error)) |}.

(** [{...stats, totalChecks: ..., appointmentsFound: ..., lastCheckTime: ...,
    uptime: ...}] *)
Definition checkedStats (st : MonitoringStats) (found : nat) (now : Date)
           (started : option Date) : MonitoringStats :=
  {| totalChecks := totalChecks st + 1;
     appointmentsFound := appointmentsFound st + Z.of_nat found;
     emailsSent := emailsSent st;
     smsSent := smsSent st;
     lastCheckTime := Some now;
     uptime := match started with
               | Some t0 => (now - t0) / 60000
               | None => uptime st
               end |}.

(** The "Update stats" block of [performCheck]. *)
Definition updateStats (found : nat) : M unit :=
  stats <- Storage.getMonitoringStats ;;
  match stats with
  | Some st =>
      now <- newDate ;;
      w <- getWorld ;;
      Storage.upsertMonitoringStats
        (checkedStats st found now (startTime (monitoringService w))) ;;
      ret tt
  | None => ret tt
  end.

Definition performCheck : M unit :=
  consoleLog "Performing appointment check..." ;;
  tryCatch
    (slots <- AppointmentChecker.checkAppointments env ;;
     updateStats (List.length slots) ;;
     if (0 <? List.length slots)%nat then
       (* Send email notification *)
       EmailService.sendAppointmentNotification env slots ;;
       (* Log appointment found *)
       Storage.createActivityLog (foundLog slots) ;;
       consoleLog ("Found " +++ showNat (List.length slots) +++
                   " appointments, email sent")
     else
       (* Log routine check completed *)
       locations <- Storage.getDmvLocations ;;
       let enabledCount := List.length (filter loc_enabled locations) in
       Storage.createActivityLog (completedLog enabledCount) ;;
       consoleLog "No appointments found")
    (fun error =>
       consoleError "Error during appointment check:" error ;;
       (* Log error *)
       Storage.createActivityLog (checkFailedLog error) ;;
       ret tt).

(** [{ isRunning, startTime, uptime }] *)
Definition getStatus (w : World) : bool * option Date * Z :=
  (isRunning (monitoringService w),
   startTime (monitoringService w),
   match startTime (monitoringService w) with
   | Some t0 => (clock w - t0) / 60000
   | None => 0
   end).

Definition updateSettings : M unit :=
  w <- getWorld ;;
  if isRunning (monitoringService w) then
    stopMonitoring ;;
    startMonitoring
  else ret tt.

End WithEnv.
End MonitoringService.

(** ** Cycles in flight

    The cron callback and the [POST /api/monitoring/check-now] route both
    call [performCheck] directly.  [performCheck] calls
    [checkAppointments] at once and is suspended while that call waits on
    the browser; other requests and timers are served meanwhile.  The
    system below keeps the invocations whose Checker call is pending:
    [Fire] starts one, [Settle] lets the oldest resume and run to its end
    (finer interleavings of the resumed part are not distinguished). *)

Module Cycles.

Inductive Trigger := Tick | CheckNow.

Record System := {
  world : World;
  inFlight : list Trigger }.

Inductive Action :=
| Fire (t : Trigger)
| Settle.

Section WithEnv.
Variable env : Env.

(** A tick fires while the cron task is scheduled; a check-now request
    is always served. *)
Definition fires (t : Trigger) (s : System) : bool :=
  match t with
  | Tick => match task (monitoringService (world s)) with
            | Some _ => true
            | None => false
            end
  | CheckNow => true
  end.

Definition step (a : Action) (s : System) : System :=
  match a with
  | Fire t =>
      if fires t s
      then {| world := world s; inFlight := inFlight s ++ [t] |}
      else s
  | Settle =>
      match inFlight s with
      | [] => s
      | _ :: rest =>
          {| world := snd (MonitoringService.performCheck env (world s));
             inFlight := rest |}
      end
  end.

Definition run (actions : list Action) (s : System) : System :=
  fold_left (fun s a => step a s) actions s.

End WithEnv.
End Cycles.

(** ** Observations used in the statements *)

Definition stamp (now : Date) (log : InsertActivityLog) : ActivityLog :=
  {| log_entry := log; log_createdAt := now |}.

Definition logs (w : World) : list ActivityLog := activityLogs (storage w).

Definition stats (w : World) : option MonitoringStats :=
  monitoringStats (storage w).

Definition hasType (kind : string) (entry : ActivityLog) : bool :=
  String.eqb (log_type (log_entry entry)) kind.

(** How many entries of a kind the activity log holds. *)
Definition countType (kind : string) (w : World) : nat :=
  List.length (filter (hasType kind) (logs w)).

Definition isTwilioCreate (e : Event) : bool :=
  match e with TwilioCreate _ _ _ _ => true | _ => false end.

Definition isSendMail (e : Event) : bool :=
  match e with SendMail _ _ _ => true | _ => false end.

(** The SMS (resp. email) transport calls made so far. *)
Definition smsCalls (w : World) : list Event := filter isTwilioCreate (trace w).
Definition mailCalls (w : World) : list Event := filter isSendMail (trace w).

(** ** Sample data for the examples *)

Module Sample.

Definition henderson : DmvLocation :=
  {| loc_id := "loc-1";
     loc_name := "Henderson DMV (All Services)";
     loc_url := "https://hendersondmv.waitwell.us/book/1026";
     loc_type := "All Services";
     loc_enabled := true;
     loc_createdAt := 1735900000000 |}.

Definition flamingo : DmvLocation :=
  {| loc_id := "loc-2";
     loc_name := "West Flamingo DMV (DL)";
     loc_url := "https://westflamingodmv.waitwell.us/book/1228";
     loc_type := "Driver's License Only";
     loc_enabled := true;
     loc_createdAt := 1735900000001 |}.

Definition settings : MonitoringSettings :=
  {| checkInterval := 300; daysAhead := 5;
     businessDaysOnly := true; isEnabled := true |}.

Definition zeroStats : MonitoringStats :=
  {| totalChecks := 0; appointmentsFound := 0; emailsSent := 0;
     smsSent := None; lastCheckTime := None; uptime := 0 |}.

(** Email and SMS both fully configured. *)
Definition fullConfig : EmailConfig :=
  {| notificationEmail := "user@example.com";
     smtpServer := "smtp.example.com";
     smtpPort := 587;
     smtpUsername := Some "monitor@example.com";
     smtpPassword := Some "secret";
     smsEnabled := true;
     phoneNumber := Some "+17025550100";
     twilioAccountSid := Some "AC0123456789";
     twilioAuthToken := Some "token";
     twilioPhoneNumber := Some "+17025550199" |}.

(** Email configured, SMS switched off and without credentials. *)
Definition emailOnlyConfig : EmailConfig :=
  {| notificationEmail := "user@example.com";
     smtpServer := "smtp.example.com";
     smtpPort := 587;
     smtpUsername := Some "monitor@example.com";
     smtpPassword := Some "secret";
     smsEnabled := false;
     phoneNumber := None;
     twilioAccountSid := None;
     twilioAuthToken := None;
     twilioPhoneNumber := None |}.

Definition store (config : option EmailConfig) : MemStorage :=
  {| dmvLocations := [henderson; flamingo];
     emailConfig := config;
     monitoringSettings := Some settings;
     activityLogs := [];
     monitoringStats := Some zeroStats |}.

(** Friday 2025-01-03, 12:00 UTC. *)
Definition noon : Date := 1735905600000.

(** Pacific time as it ran in 2025: UTC-8, and UTC-7 from 2025-03-09
    10:00 UTC (02:00 local, when the clock jumps to 03:00) until
    2025-11-02 09:00 UTC (02:00 local, when the clock goes back to
    01:00). *)
Definition pacificOffset (t : Date) : Z :=
  if (1741514400000 <=? t) && (t <? 1762074000000)
  then -25200000 else -28800000.

(** A local time that the spring change skips is read with the offset
    before the change; one that the autumn change repeats is its first
    occurrence. *)
Definition pacificUtcOf (l : Z) : Date :=
  if l <? 1741489200000 then l + 28800000
  else if l <? 1762048800000 then l + 25200000
  else l + 28800000.

Lemma pacific_same_day (l : Z) :
  (pacificUtcOf l + pacificOffset (pacificUtcOf l)) / msPerDay = l / msPerDay.
Proof.
  unfold pacificUtcOf, pacificOffset, msPerDay.
  destruct (Z.ltb_spec l 1741489200000) as [H1|H1];
    [|destruct (Z.ltb_spec l 1762048800000) as [H2|H2]].
  - destruct (Z.leb_spec 1741514400000 (l + 28800000)) as [H3|H3]; cbn [andb].
    + destruct (Z.ltb_spec (l + 28800000) 1762074000000) as [H4|H4]; [|lia].
      (* a skipped local time, between 02:00 and 03:00 on 2025-03-09 *)
      transitivity 20156.
      * symmetry.
        apply Z.div_unique with (r := l + 28800000 + -25200000 - 86400000 * 20156); lia.
      * apply Z.div_unique with (r := l - 86400000 * 20156); lia.
    + f_equal. lia.
  - destruct (Z.leb_spec 1741514400000 (l + 25200000)) as [H3|H3]; [|lia].
    destruct (Z.ltb_spec (l + 25200000) 1762074000000) as [H4|H4]; [|lia].
    cbn [andb]. f_equal. lia.
  - destruct (Z.leb_spec 1741514400000 (l + 28800000)) as [H3|H3]; [|lia].
    destruct (Z.ltb_spec (l + 28800000) 1762074000000) as [H4|H4]; [lia|].
    cbn [andb]. f_equal. lia.
Qed.

Lemma pacific_next_day_later (t : Date) :
  t < pacificUtcOf (t + pacificOffset t + msPerDay).
Proof.
  unfold pacificUtcOf, pacificOffset, msPerDay.
  destruct ((1741514400000 <=? t) && (t <? 1762074000000));
    repeat match goal with
           | |- context [?a <? ?b] => destruct (Z.ltb_spec a b)
           end; lia.
Qed.

Definition pacific : TimeZone :=
  {| offsetAt := pacificOffset;
     utcOf := pacificUtcOf;
     utcOf_same_day := pacific_same_day;
     utcOf_next_day_later := pacific_next_day_later |}.

(** Friday 2025-03-07, 12:00 in Pacific standard time: two days before
    the clocks change. *)
Definition fridayBeforeChange : Date := 1741377600000.

Definition stopped (config : option EmailConfig) : World :=
  {| storage := store config;
     browser := false;
     monitoringService :=
       {| task := None; isRunning := false; startTime := None |};
     clock := noon;
     trace := [] |}.

Definition running (config : option EmailConfig) : World :=
  {| storage := store config;
     browser := false;
     monitoringService :=
       {| task := Some "*/5 * * * *"; isRunning := true;
          startTime := Some (noon - 600000) |};
     clock := noon;
     trace := [] |}.

(** A booking cell with text and no data attributes. *)
Definition bareCell : Element :=
  {| classList := ["calendar-cell"];
     attributes := [];
     textContent := Some "9:00 AM" |}.

(** A booking cell that carries its time as an attribute. *)
Definition timedCell : Element :=
  {| classList := ["booking-slot"];
     attributes := [("data-time", "10:15 AM")];
     textContent := Some " Book " |}.

(** Every external call succeeds and every page shows [page]. *)
Definition calm (page : list Element) : Env :=
  {| tz := fixedOffset 0;
     launch := None;
     browserClose := None;
     newPage := None;
     pageClose := None;
     goto := fun _ => None;
     waitForDelay := fun _ => None;
     dom := fun _ => page;
     evalRejects := fun _ _ => None;
     sendMail := fun _ => None;
     twilioClient := fun _ _ => None;
     twilioCreate := fun _ _ _ => None;
     cronSchedule := fun _ => None |}.

(** As [calm], but the browser cannot be launched. *)
Definition noBrowser : Env :=
  {| tz := fixedOffset 0;
     launch := Some (newError "Failed to launch the browser process");
     browserClose := None;
     newPage := None;
     pageClose := None;
     goto := fun _ => None;
     waitForDelay := fun _ => None;
     dom := fun _ => [];
     evalRejects := fun _ _ => None;
     sendMail := fun _ => None;
     twilioClient := fun _ _ => None;
     twilioCreate := fun _ _ _ => None;
     cronSchedule := fun _ => None |}.

(** As [calm], but navigation to Henderson's page times out. *)
Definition hendersonDown (page : list Element) : Env :=
  {| tz := fixedOffset 0;
     launch := None;
     browserClose := None;
     newPage := None;
     pageClose := None;
     goto := fun url =>
       if String.eqb url (loc_url henderson)
       then Some (newError "Navigation timeout of 30000 ms exceeded")
       else None;
     waitForDelay := fun _ => None;
     dom := fun _ => page;
     evalRejects := fun _ _ => None;
     sendMail := fun _ => None;
     twilioClient := fun _ _ => None;
     twilioCreate := fun _ _ _ => None;
     cronSchedule := fun _ => None |}.


End Sample.

(** * Properties *)

(** ** The embedding at work *)

Example getNextWorkingDays_fri :
  (* 2025-01-03 (Friday) 12:00 UTC *)
  map (isoDate) (getNextWorkingDays (fixedOffset 0) 1735905600000 3 true)
  = ["2025-01-03"; "2025-01-06"; "2025-01-07"].
Proof. vm_compute. reflexivity. Qed.

Example trim_ex : Str.trim "  2:30 PM " = "2:30 PM".
Proof. reflexivity. Qed.

(** White space outside ASCII: a no-break space (U+00A0) and a narrow
    no-break space (U+202F) are trimmed, and stand between the minutes
    and AM/PM of a clock time. *)
Example trim_no_break_space :
  Str.trim (Str.utf8 [194; 160]%nat +++ " 9:00 AM" +++ Str.utf8 [226; 128; 175]%nat)
  = "9:00 AM" /\
  Str.trim (Str.utf8 [194; 160]%nat) = "" /\
  Str.testClockTime ("2:30" +++ Str.utf8 [226; 128; 175]%nat +++ "PM") = true /\
  Str.testClockTime ("2:30" +++ Str.utf8 [194; 160]%nat +++ " pm") = true /\
  Str.testClockTime "2:30_PM" = false.
Proof. repeat split; reflexivity. Qed.

Example toLowerCase_ex :
  Str.toLowerCase "Slots AVAILABLE" = "slots available" /\
  Str.includes (Str.toLowerCase "Slots AVAILABLE") "available" = true.
Proof. split; reflexivity. Qed.

Example testClockTime_ex :
  Str.testClockTime "Mon, Jan 6 2:30 PM" = true /\
  Str.testClockTime "Mon, Jan 6 2:3 PM" = false /\
  Str.testHourAmPm "at 9am" = true /\
  Str.testHourAmPm "9 am" = false.
Proof. repeat split; reflexivity. Qed.

Example replace_ex :
  Str.replace " DMV" "" "Henderson DMV (DL)" = "Henderson (DL)".
Proof. reflexivity. Qed.

(** ** Frame reasoning: what a computation leaves untouched *)

Section Keeps.

Context {X : Type}.
Variable obs : World -> X.

(** Whatever the outcome, [c] leaves the observation [obs] as it was. *)
Definition keeps {A} (c : M A) : Prop :=
  forall w, obs (snd (c w)) = obs w.

Lemma keeps_ret {A} (a : A) : keeps (ret a).
Proof. intros w. reflexivity. Qed.

Lemma keeps_throw {A} (e : Thrown) : keeps (@throw A e).
Proof. intros w. reflexivity. Qed.

Lemma keeps_getWorld : keeps getWorld.
Proof. intros w. reflexivity. Qed.

Lemma keeps_newDate : keeps newDate.
Proof. intros w. reflexivity. Qed.

Lemma keeps_bind {A B} (c : M A) (k : A -> M B) :
  keeps c -> (forall a, keeps (k a)) -> keeps (bind c k).
Proof.
  intros Hc Hk w. unfold bind. specialize (Hc w).
  destruct (c w) as [[a|e] w1]; cbn in *.
  - rewrite Hk. assumption.
  - assumption.
Qed.

Lemma keeps_tryCatch {A} (c : M A) (h : Thrown -> M A) :
  keeps c -> (forall e, keeps (h e)) -> keeps (tryCatch c h).
Proof.
  intros Hc Hh w. unfold tryCatch. specialize (Hc w).
  destruct (c w) as [[a|e] w1]; cbn in *.
  - assumption.
  - rewrite Hh. assumption.
Qed.

Lemma keeps_tryFinally {A} (c : M A) (f : M unit) :
  keeps c -> keeps f -> keeps (tryFinally c f).
Proof.
  intros Hc Hf w. unfold tryFinally. specialize (Hc w).
  destruct (c w) as [r w1]. specialize (Hf w1).
  destruct (f w1) as [[u|e] w2]; cbn in *; congruence.
Qed.

Lemma keeps_forEachPush {A B} (body : A -> M (list B)) (xs : list A) :
  (forall x, keeps (body x)) -> forall acc, keeps (forEachPush xs acc body).
Proof.
  intros Hbody. induction xs as [|x xs IH]; intros acc; cbn [forEachPush].
  - apply keeps_ret.
  - apply keeps_bind; [apply Hbody | intros pushed; apply IH].
Qed.

Lemma keeps_if {A} (b : bool) (c1 c2 : M A) :
  keeps c1 -> keeps c2 -> keeps (if b then c1 else c2).
Proof. destruct b; auto. Qed.

(** Events [obs] is blind to; the effects that only record such events
    keep it. *)
Variable quiet : Event -> bool.
Hypothesis obs_addEvent :
  forall e w, quiet e = true -> obs (addEvent e w) = obs w.

Lemma keeps_emit (e : Event) : quiet e = true -> keeps (emit e).
Proof. intros Hq w. apply obs_addEvent. assumption. Qed.

Lemma keeps_external (e : Event) (answer : option Thrown) :
  quiet e = true -> keeps (external e answer).
Proof.
  intros Hq w. unfold external. destruct answer; apply obs_addEvent; assumption.
Qed.

End Keeps.

(** Events other than calls of the SMS transport. *)
Definition notSms (e : Event) : bool := negb (isTwilioCreate e).

(** Structural steps of a frame proof; [Hev] is the fact that the
    observation is blind to the events in question. *)
Ltac keeps_step Hev :=
  first
    [ apply keeps_ret | apply keeps_throw | apply keeps_getWorld
    | apply keeps_newDate
    | apply keeps_bind; [|intros ?]
    | apply keeps_tryCatch; [|intros ?]
    | apply keeps_tryFinally
    | apply keeps_forEachPush; intros ?
    | eapply keeps_external; [exact Hev | reflexivity]
    | eapply keeps_emit; [exact Hev | reflexivity]
    | match goal with
      | |- keeps _ (if ?b then _ else _) => destruct b
      | |- keeps _ (match ?x with _ => _ end) => destruct x
      end
    | (intros ?; reflexivity) ].

Ltac keeps_auto Hev :=
  unfold consoleLog, consoleError; repeat keeps_step Hev.


(** ** Target dates *)

Section WorkingDaysProperties.

Variable tz : TimeZone.

Definition notWeekend (d : Date) : Prop :=
  getDay tz d <> 0 /\ getDay tz d <> 6.

(** What the loop maintains about the dates collected so far. *)
Record loopInv (today : Date) (count : Z) (b : bool)
       (days : list Date) (day : Date) : Prop := {
  inv_len : Z.of_nat (List.length days) <= count;
  inv_bounds : Forall (fun d => today <= d < day) days;
  inv_sorted : StronglySorted Z.lt days;
  inv_weekdays : b = true -> Forall notWeekend days;
  inv_today : today <= day }.

Lemma keepsDay_notWeekend d : keepsDay tz true d = true -> notWeekend d.
Proof.
  unfold keepsDay, notWeekend. cbn [negb orb].
  rewrite andb_true_iff, !negb_true_iff, !Z.eqb_neq. tauto.
Qed.

Lemma StronglySorted_snoc (l : list Z) (x : Z) :
  StronglySorted Z.lt l -> Forall (fun d => d < x) l ->
  StronglySorted Z.lt (l ++ [x]).
Proof.
  induction 1 as [|a l Hs IH Ha]; intros Hall; cbn.
  - repeat constructor.
  - inversion Hall; subst. constructor.
    + apply IH; assumption.
    + apply Forall_app. split; [assumption | repeat constructor; assumption].
Qed.

Lemma loopInv_step today count b days day :
  Z.of_nat (List.length days) < count ->
  loopInv today count b days day ->
  loopInv today count b
          (if keepsDay tz b day then days ++ [day] else days)
          (setDateNext tz day).
Proof.
  intros Hlt [Hlen Hb Hs Hw Ht].
  pose proof (setDateNext_later tz day) as Hnext.
  destruct (keepsDay tz b day) eqn:Hk; constructor; try lia.
  - rewrite length_app. cbn [List.length]. lia.
  - apply Forall_app. split.
    + eapply Forall_impl; [|exact Hb]. cbn. intros; lia.
    + repeat constructor; lia.
  - apply StronglySorted_snoc; [assumption|].
    eapply Forall_impl; [|exact Hb]. cbn. intros; lia.
  - intros ->. apply Forall_app. split; [auto|].
    repeat constructor; apply keepsDay_notWeekend; assumption.
  - eapply Forall_impl; [|exact Hb]. cbn. intros; lia.
  - assumption.
  - assumption.
Qed.

Lemma workingDaysLoop_eq count b days day :
  workingDaysLoop tz count b days day =
  if Z.of_nat (List.length days) <? count
  then workingDaysLoop tz count b
         (if keepsDay tz b day then days ++ [day] else days) (setDateNext tz day)
  else days.
Proof.
  funelim (workingDaysLoop tz count b days day);
    match goal with
    | Hg : (_ <? _) = _ |- _ => rewrite Hg
    end; congruence.
Qed.

(** Induction on what is left of the loop. *)
Lemma workingDaysLoop_ind (P : list Date -> Date -> list Date -> Prop)
      count b :
  (forall days day,
      (Z.of_nat (List.length days) <? count) = false -> P days day days) ->
  (forall days day r,
      (Z.of_nat (List.length days) <? count) = true ->
      P (if keepsDay tz b day then days ++ [day] else days) (setDateNext tz day) r ->
      P days day r) ->
  forall days day, P days day (workingDaysLoop tz count b days day).
Proof.
  intros Hstop Hstep days day.
  remember (loopMeasure tz count b days day) as m eqn:Hm.
  revert days day Hm.
  induction m as [m IH] using lt_wf_ind. intros days day ->.
  rewrite workingDaysLoop_eq.
  destruct (Z.of_nat (List.length days) <? count) eqn:Hg.
  - apply Hstep; [assumption|].
    eapply IH; [|reflexivity].
    apply loopMeasure_decreases. apply Z.ltb_lt. assumption.
  - apply Hstop. assumption.
Qed.

Lemma workingDaysLoop_inv today count b days day :
  loopInv today count b days day ->
  let r := workingDaysLoop tz count b days day in
  Z.of_nat (List.length r) = count /\
  Forall (fun d => today <= d) r /\
  StronglySorted Z.lt r /\
  (b = true -> Forall notWeekend r).
Proof.
  cbv zeta.
  apply (workingDaysLoop_ind
           (fun days day r =>
              loopInv today count b days day ->
              Z.of_nat (List.length r) = count /\
              Forall (fun d => today <= d) r /\
              StronglySorted Z.lt r /\
              (b = true -> Forall notWeekend r))).
  - (* the guard failed: the loop is over *)
    intros ds d Hg [Hlen Hb Hs Hw Ht]. apply Z.ltb_ge in Hg.
    repeat split; try assumption; try lia.
    eapply Forall_impl; [|exact Hb]. cbn. intros; lia.
  - (* one more iteration *)
    intros ds d r Hg IH Hinv. apply IH.
    apply loopInv_step; [apply Z.ltb_lt; assumption | assumption].
Qed.

Lemma workingDaysLoop_prefix count b days day :
  exists rest, workingDaysLoop tz count b days day = days ++ rest.
Proof.
  apply (workingDaysLoop_ind (fun days day r => exists rest, r = days ++ rest)).
  - intros ds d _. exists []. rewrite app_nil_r. reflexivity.
  - intros ds d r _ [rest ->].
    destruct (keepsDay tz b d).
    + exists (d :: rest). rewrite <- app_assoc. reflexivity.
    + exists rest. reflexivity.
Qed.

End WorkingDaysProperties.

(** C6. For every [count] in 1..30 and both values of
    [businessDaysOnly], with a fixed "now" ([today]) and in every time
    zone (of constant offset or with daylight-saving changes),
    [getNextWorkingDays] returns exactly [count] dates, strictly
    increasing, each at or after [today]; [today] itself comes first
    whenever the filter keeps it; and with [businessDaysOnly] set none of
    the dates is a Saturday or a Sunday. *)
Theorem getNextWorkingDays_count_order_weekdays
        (tz : TimeZone) (today : Date) (count : Z) (businessDaysOnly : bool) :
  1 <= count <= 30 ->
  let days := getNextWorkingDays tz today count businessDaysOnly in
  Z.of_nat (List.length days) = count /\
  StronglySorted Z.lt days /\
  Forall (fun d => today <= d) days /\
  (keepsDay tz businessDaysOnly today = true -> hd_error days = Some today) /\
  (businessDaysOnly = true ->
   Forall (fun d => getDay tz d <> 0 /\ getDay tz d <> 6) days).
Proof.
  intros Hcount. cbv zeta. unfold getNextWorkingDays.
  assert (Hinv : loopInv tz today count businessDaysOnly [] today).
  { constructor; cbn; try constructor; try lia. }
  destruct (workingDaysLoop_inv Hinv) as (Hlen & Hge & Hsorted & Hweek).
  repeat split; try assumption.
  intros Hkeep. rewrite workingDaysLoop_eq. cbn [List.length].
  replace (Z.of_nat 0 <? count) with true by (symmetry; apply Z.ltb_lt; lia).
  rewrite Hkeep. cbn [app].
  destruct (workingDaysLoop_prefix tz count businessDaysOnly [today]
                                   (setDateNext tz today)) as [rest ->].
  reflexivity.
Qed.

Lemma getNextWorkingDays_count_order_weekdays_witness :
  let days := getNextWorkingDays Sample.pacific Sample.fridayBeforeChange 5 true in
  Z.of_nat (List.length days) = 5 /\
  StronglySorted Z.lt days /\
  Forall (fun d => Sample.fridayBeforeChange <= d) days /\
  (keepsDay Sample.pacific true Sample.fridayBeforeChange = true ->
   hd_error days = Some Sample.fridayBeforeChange) /\
  (true = true ->
   Forall (fun d => getDay Sample.pacific d <> 0 /\ getDay Sample.pacific d <> 6)
          days).
Proof.
  apply (@getNextWorkingDays_count_order_weekdays
           Sample.pacific Sample.fridayBeforeChange 5 true).
  lia.
Defined.

(** ** Structured-attribute strategy *)

Module Structured.

(** The slots the strategy pushes for a location, from the page's
    elements. *)
Definition extract (location : DmvLocation) (today : Date)
           (page : list Element) : list AppointmentSlot :=
  AppointmentChecker.calendarSlotsToPush location today
    (AppointmentChecker.readCalendarSlots
       (filter (matchesSelector CalendarCells) page)).

(** A calendar cell, booking slot or appointment time that is neither
    disabled nor unavailable and carries text. *)
Definition candidate (el : Element) : bool :=
  matchesSelector CalendarCells el && AppointmentChecker.isAvailable el &&
  Str.nonEmpty (trimmedText el).

Definition hasDateOrTime (el : Element) : bool :=
  Str.nonEmpty (attributeOrEmpty el "data-date") ||
  Str.nonEmpty (attributeOrEmpty el "data-time").

(** The slot read off one element: each field comes from its data
    attribute, else the date is today's and the time is the text. *)
Definition slotOf (location : DmvLocation) (today : Date) (el : Element)
  : AppointmentSlot :=
  {| slot_location := loc_name location;
     slot_date := orElse (attributeOrEmpty el "data-date") (isoDate today);
     slot_time := orElse (attributeOrEmpty el "data-time") (trimmedText el);
     slot_url := loc_url location |}.

Lemma extract_eq location today page :
  extract location today page =
  map (slotOf location today)
      (filter (fun el => candidate el && hasDateOrTime el) page).
Proof.
  unfold extract, AppointmentChecker.readCalendarSlots,
    AppointmentChecker.calendarSlotsToPush.
  induction page as [|el page IH]; [reflexivity|].
  cbn [filter]. unfold candidate at 1, hasDateOrTime at 1.
  destruct (matchesSelector CalendarCells el); cbn [andb]; [|exact IH].
  cbn [filter].
  destruct (AppointmentChecker.isAvailable el); cbn [andb]; [|exact IH].
  destruct (Str.nonEmpty (trimmedText el)); cbn [andb]; [|exact IH].
  cbn [map flat_map AppointmentChecker.cal_date AppointmentChecker.cal_time
       AppointmentChecker.cal_text].
  rewrite IH.
  destruct (Str.nonEmpty (attributeOrEmpty el "data-date")
            || Str.nonEmpty (attributeOrEmpty el "data-time"));
    reflexivity.
Qed.

End Structured.

(** C5 as stated fails: a calendar cell that is available and carries
    text, but has neither data attribute, yields no slot -- neither from
    the strategy nor from a whole check of a page made of that cell. *)
Lemma structured_bare_cell_yields_nothing :
  Structured.candidate Sample.bareCell = true /\
  Structured.extract Sample.flamingo Sample.noon [Sample.bareCell] = [] /\
  fst (AppointmentChecker.checkAppointments
         (Sample.calm [Sample.bareCell]) (Sample.stopped None)) = Ok [].
Proof. repeat split; vm_compute; reflexivity. Qed.

(** Text that is white space only is no text: a cell with a [data-date]
    whose text is a no-break space yields no slot either. *)
Example structured_blank_cell_yields_nothing :
  let blankCell := {| classList := ["calendar-cell"];
                      attributes := [("data-date", "2025-01-06")];
                      textContent := Some (Str.utf8 [194; 160]%nat) |} in
  Structured.candidate blankCell = false /\
  Structured.extract Sample.flamingo Sample.noon [blankCell] = [].
Proof. split; vm_compute; reflexivity. Qed.

(** C5, amended. The structured-attribute strategy produces one slot for
    every calendar-cell / booking-slot / appointment-time element that is
    not disabled or unavailable, carries non-empty text and has a
    non-empty [data-date] or [data-time] attribute, in page order, and
    nothing else; the slot's date is [data-date] when non-empty, else
    today's date, and its time is [data-time] when non-empty, else the
    element text. *)
Theorem structured_strategy_slots
        (location : DmvLocation) (today : Date) (page : list Element) :
  let produced := Structured.extract location today page in
  List.length produced =
    List.length (filter (fun el => Structured.candidate el &&
                                   Structured.hasDateOrTime el) page) /\
  forall s,
    In s produced <->
    exists el,
      In el page /\ Structured.candidate el = true /\
      Structured.hasDateOrTime el = true /\
      s = {| slot_location := loc_name location;
             slot_date := orElse (attributeOrEmpty el "data-date") (isoDate today);
             slot_time := orElse (attributeOrEmpty el "data-time") (trimmedText el);
             slot_url := loc_url location |}.
Proof.
  cbv zeta. rewrite Structured.extract_eq. split.
  - apply length_map.
  - intros s. rewrite in_map_iff. split.
    + intros (el & <- & Hin). apply filter_In in Hin as [Hin Hc].
      apply andb_true_iff in Hc as [Hc Hd].
      exists el. repeat split; assumption.
    + intros (el & Hin & Hc & Hd & ->).
      exists el. split; [reflexivity|].
      apply filter_In. split; [assumption|]. rewrite Hc, Hd. reflexivity.
Qed.

(** ** SMS channel without configuration *)

(** The SMS configuration is absent, disabled, or lacks a credential
    field. *)
Definition smsUnconfigured (config : option EmailConfig) : Prop :=
  config = None \/
  exists cfg,
    config = Some cfg /\
    (smsEnabled cfg = false \/ truthy (twilioAccountSid cfg) = false \/
     truthy (twilioAuthToken cfg) = false \/
     truthy (twilioPhoneNumber cfg) = false \/
     truthy (phoneNumber cfg) = false).

Lemma notConfigured_iff (config : option EmailConfig) :
  SmsService.notConfigured config = true <-> smsUnconfigured config.
Proof.
  unfold smsUnconfigured. destruct config as [cfg|]; cbn.
  - rewrite !orb_true_iff, !negb_true_iff. split.
    + intros H. right. exists cfg. split; [reflexivity|]. tauto.
    + intros [H | (cfg' & Heq & H)]; [discriminate|].
      injection Heq as <-. tauto.
  - split; [intros _; left; reflexivity | reflexivity].
Qed.

(** C10. When the SMS configuration is absent, disabled, or misses a
    credential field, [SmsService.sendAppointmentNotification] returns
    normally for every slot list and sends nothing (its only effect is a
    console line), while [sendTestSms] throws the error
    "SMS configuration incomplete or disabled" (and sends nothing
    either). *)
Theorem sms_unconfigured_skip_versus_throw
        (env : Env) (w : World) (slots : list AppointmentSlot) :
  smsUnconfigured (emailConfig (storage w)) ->
  SmsService.sendAppointmentNotification env slots w =
    (Ok tt,
     addEvent
       (ConsoleLog "SMS not configured or disabled, skipping SMS notification")
       w) /\
  SmsService.sendTestSms env w =
    (Throw (newError "SMS configuration incomplete or disabled"), w).
Proof.
  intros H. apply notConfigured_iff in H.
  unfold SmsService.sendAppointmentNotification, SmsService.sendTestSms,
    bind, Storage.getEmailConfig.
  rewrite H. split; reflexivity.
Qed.

Lemma sms_unconfigured_skip_versus_throw_witness :
  SmsService.sendAppointmentNotification (Sample.calm []) []
      (Sample.stopped None) =
    (Ok tt,
     addEvent
       (ConsoleLog "SMS not configured or disabled, skipping SMS notification")
       (Sample.stopped None)) /\
  SmsService.sendTestSms (Sample.calm []) (Sample.stopped None) =
    (Throw (newError "SMS configuration incomplete or disabled"),
     Sample.stopped None).
Proof.
  apply (@sms_unconfigured_skip_versus_throw
           (Sample.calm []) (Sample.stopped None) []).
  left. reflexivity.
Defined.

(** ** Scheduler: start and stop *)

(** C9. [startMonitoring] while the scheduler is running returns at once
    without error and changes nothing: no task is scheduled, the session
    start time stays, and no activity entry is appended. *)
Theorem startMonitoring_running_noop (env : Env) (w : World) :
  isRunning (monitoringService w) = true ->
  MonitoringService.startMonitoring env w = (Ok tt, w).
Proof.
  intros H. unfold MonitoringService.startMonitoring, bind, getWorld.
  rewrite H. reflexivity.
Qed.

Lemma startMonitoring_running_noop_witness :
  MonitoringService.startMonitoring
    (Sample.calm []) (Sample.running None) = (Ok tt, Sample.running None).
Proof.
  apply (@startMonitoring_running_noop (Sample.calm []) (Sample.running None)).
  reflexivity.
Defined.

(** The scheduler is in its Stopped state. *)
Definition isStopped (w : World) : Prop :=
  isRunning (monitoringService w) = false /\ task (monitoringService w) = None.

(** C4 as stated fails: stopping the stopped scheduler appends a
    [monitoring_stopped] entry, and stopping it again appends another. *)
Lemma stopMonitoring_stopped_appends_again :
  let w0 := Sample.stopped None in
  let w1 := snd (MonitoringService.stopMonitoring w0) in
  let w2 := snd (MonitoringService.stopMonitoring w1) in
  isRunning (monitoringService w0) = false /\
  task (monitoringService w0) = None /\
  countType "monitoring_stopped" w0 = 0%nat /\
  countType "monitoring_stopped" w1 = 1%nat /\
  countType "monitoring_stopped" w2 = 2%nat.
Proof. repeat split; vm_compute; reflexivity. Qed.

(** C4, amended. [stopMonitoring] on a stopped scheduler does not error
    and leaves the scheduler's state (task, running flag, start time) as
    it was, with no cron call made, but it is not a no-op: each call
    appends one [monitoring_stopped] entry to the activity log. *)
Theorem stopMonitoring_stopped_logs_once (w : World) :
  isStopped w ->
  exists w',
    MonitoringService.stopMonitoring w = (Ok tt, w') /\
    monitoringService w' = monitoringService w /\
    logs w' = logs w ++ [stamp (clock w) MonitoringService.stoppedLog] /\
    countType "monitoring_stopped" w' = S (countType "monitoring_stopped" w) /\
    trace w' = trace w ++ [ConsoleLog "DMV monitoring stopped"].
Proof.
  intros [Hrun Htask].
  destruct w as [st br [tk run t0] ck tr]. cbn in Hrun, Htask. subst.
  eexists. split; [reflexivity|].
  unfold countType, logs. cbn.
  rewrite !filter_app, !length_app. cbn.
  repeat split; try reflexivity. lia.
Qed.

Lemma stopMonitoring_stopped_logs_once_witness :
  exists w',
    MonitoringService.stopMonitoring (Sample.stopped None) = (Ok tt, w') /\
    monitoringService w' = monitoringService (Sample.stopped None) /\
    logs w' = logs (Sample.stopped None)
              ++ [stamp (clock (Sample.stopped None)) MonitoringService.stoppedLog] /\
    countType "monitoring_stopped" w'
      = S (countType "monitoring_stopped" (Sample.stopped None)) /\
    trace w' = trace (Sample.stopped None)
               ++ [ConsoleLog "DMV monitoring stopped"].
Proof.
  apply (@stopMonitoring_stopped_logs_once (Sample.stopped None)).
  split; reflexivity.
Defined.

(** ** Notification dispatcher *)

Definition anyEvent (e : Event) : bool := true.

Lemma logs_addEvent e w : anyEvent e = true -> logs (addEvent e w) = logs w.
Proof. reflexivity. Qed.

Lemma clock_addEvent e w : anyEvent e = true -> clock (addEvent e w) = clock w.
Proof. reflexivity. Qed.

Lemma email_keeps_logs env slots :
  keeps logs (EmailService.sendAppointmentNotification env slots).
Proof.
  unfold EmailService.sendAppointmentNotification. keeps_auto logs_addEvent.
Qed.

Lemma email_keeps_clock env slots :
  keeps clock (EmailService.sendAppointmentNotification env slots).
Proof.
  unfold EmailService.sendAppointmentNotification. keeps_auto clock_addEvent.
Qed.

Lemma twilio_keeps {X} (obs : World -> X) env sid token :
  keeps obs (SmsService.twilio env sid token).
Proof.
  intros w. unfold SmsService.twilio. destruct (twilioClient env sid token); reflexivity.
Qed.

Lemma sms_keeps_logs env slots :
  keeps logs (SmsService.sendAppointmentNotification env slots).
Proof.
  unfold SmsService.sendAppointmentNotification, SmsService.messagesCreate.
  repeat first [apply twilio_keeps | keeps_step logs_addEvent].
Qed.

Lemma sms_keeps_clock env slots :
  keeps clock (SmsService.sendAppointmentNotification env slots).
Proof.
  unfold SmsService.sendAppointmentNotification, SmsService.messagesCreate.
  repeat first [apply twilio_keeps | keeps_step clock_addEvent].
Qed.

(** The console line the dispatcher writes after a channel's attempt. *)
Definition emailLine (r : Result unit) : Event :=
  match r with
  | Ok _ => ConsoleLog "Email notification sent successfully"
  | Throw e => ConsoleError "Failed to send email notification:" e
  end.

Definition smsLine (r : Result unit) : Event :=
  match r with
  | Ok _ => ConsoleLog "SMS notification sent successfully"
  | Throw e => ConsoleError "Failed to send SMS notification:" e
  end.

(** The channels whose send returned, as the dispatcher names them. *)
Definition succeeded (rEmail rSms : Result unit) : list string :=
  (if isOk rEmail then ["email"] else []) ++ (if isOk rSms then ["SMS"] else []).

(** What the dispatcher does, for every slot list: it runs the email
    send, and then -- whether that returned or threw -- the SMS send; it
    returns normally whatever the two outcomes are, both failing
    included; and it appends one [notification_sent] entry, naming the
    channels whose send returned, exactly when at least one of the two
    calls returned.  A call that returned need not have sent anything:
    the SMS send returns without sending when SMS is not configured. *)
Lemma dispatcher_runs_both_channels
        (env : Env) (slots : list AppointmentSlot) (w : World) :
  exists rEmail w1 rSms w2 wEnd,
    EmailService.sendAppointmentNotification env slots w = (rEmail, w1) /\
    SmsService.sendAppointmentNotification env slots
      (addEvent (emailLine rEmail) w1) = (rSms, w2) /\
    NotificationService.sendAppointmentNotification env slots w = (Ok tt, wEnd) /\
    trace wEnd = trace w2 ++ [smsLine rSms] /\
    logs wEnd =
      logs w ++
      (if isOk rEmail || isOk rSms
       then [stamp (clock w)
               (NotificationService.notificationLog
                  slots (succeeded rEmail rSms) (clock w))]
       else []) /\
    countType "notification_sent" wEnd =
      (countType "notification_sent" w +
       (if isOk rEmail || isOk rSms then 1 else 0))%nat.
Proof.
  pose proof (email_keeps_logs env slots w) as Hl1.
  pose proof (email_keeps_clock env slots w) as Hc1.
  destruct (EmailService.sendAppointmentNotification env slots w)
    as [rEmail w1] eqn:He.
  pose proof (sms_keeps_logs env slots (addEvent (emailLine rEmail) w1)) as Hl2.
  pose proof (sms_keeps_clock env slots (addEvent (emailLine rEmail) w1)) as Hc2.
  destruct (SmsService.sendAppointmentNotification env slots
              (addEvent (emailLine rEmail) w1)) as [rSms w2] eqn:Hs.
  cbn [snd] in *.
  assert (Hlogs : logs w2 = logs w) by (rewrite Hl2; exact Hl1).
  assert (Hclock : clock w2 = clock w) by (rewrite Hc2; exact Hc1).
  exists rEmail, w1, rSms, w2.
  unfold NotificationService.sendAppointmentNotification.
  set (email := EmailService.sendAppointmentNotification env slots) in *.
  set (sms := SmsService.sendAppointmentNotification env slots) in *.
  clearbody email sms.
  unfold bind, tryCatch, consoleLog, consoleError, emit, modify, ret, newDate,
    Storage.createActivityLog.
  rewrite He.
  destruct rEmail as [[]|eE]; cbn [emailLine] in Hs; rewrite Hs;
    destruct rSms as [[]|eS]; cbn;
    eexists; (split; [reflexivity|]); (split; [exact Hs|]);
    (split; [reflexivity|]);
    unfold countType, logs in *; cbn;
    rewrite ?Hlogs, ?Hclock, ?filter_app, ?length_app, ?app_nil_r; cbn;
    (repeat split; try reflexivity; try lia).
Qed.

(** C8: the dispatcher does attempt the second channel after the first
    has thrown and never throws itself, but its entry does not name the
    channels that succeeded.  With no configuration stored no mail and
    no message is sent, the email send throws and the SMS send is
    skipped -- yet a [notification_sent] entry "Sent SMS notifications"
    is appended, after the console lines "skipping SMS notification" and
    "SMS notification sent successfully".  With email delivered and SMS
    switched off the entry reads "Sent email and SMS notifications",
    though no message went to Twilio. *)
Theorem dispatcher_names_skipped_sms_as_sent :
  let slots := [ {| slot_location := "West Flamingo DMV (DL)";
                    slot_date := "2025-01-03";
                    slot_time := "10:15 AM";
                    slot_url := "https://westflamingodmv.waitwell.us/book/1228" |} ] in
  let summary := fun entry : ActivityLog =>
    (log_type (log_entry entry), log_description (log_entry entry),
     log_action (log_entry entry)) in
  let bare :=
    NotificationService.sendAppointmentNotification
      (Sample.calm []) slots (Sample.stopped None) in
  let emailOnly :=
    NotificationService.sendAppointmentNotification
      (Sample.calm []) slots (Sample.stopped (Some Sample.emailOnlyConfig)) in
  (fst bare = Ok tt /\
   mailCalls (snd bare) = [] /\ smsCalls (snd bare) = [] /\
   trace (snd bare)
   = [ConsoleError "Failed to send email notification:"
                   (newError "Email configuration not found");
      ConsoleLog "SMS not configured or disabled, skipping SMS notification";
      ConsoleLog "SMS notification sent successfully"] /\
   map summary (logs (snd bare))
   = [("notification_sent",
       Some "Sent SMS notifications for 1 appointment",
       Some "Notified via: SMS")]) /\
  (fst emailOnly = Ok tt /\
   List.length (mailCalls (snd emailOnly)) = 1%nat /\
   smsCalls (snd emailOnly) = [] /\
   map summary (logs (snd emailOnly))
   = [("notification_sent",
       Some "Sent email and SMS notifications for 1 appointment",
       Some "Notified via: email, SMS")]).
Proof. repeat split; vm_compute; reflexivity. Qed.

(** ** Appointment checker: one location at a time *)

Lemma append_assoc_string (a b c : string) : (a +++ b) +++ c = a +++ (b +++ c).
Proof. induction a as [|ch a IH]; cbn; [reflexivity|]. rewrite IH. reflexivity. Qed.

Lemma prefix_iff (a s : string) :
  String.prefix a s = true <-> exists post, s = a +++ post.
Proof.
  revert a. induction s as [|c s IH]; intros a; destruct a as [|ca a]; cbn.
  - split; [exists ""; reflexivity | reflexivity].
  - split; [discriminate | intros [post H]; discriminate].
  - split; [exists (String c s); reflexivity | reflexivity].
  - destruct (ascii_dec ca c) as [->|Hne].
    + rewrite IH. split; intros [post H]; exists post; congruence.
    + split; [discriminate | intros [post H]; congruence].
Qed.

(** [s.includes(x)]: [x] occurs somewhere in [s]. *)
Lemma includes_iff (s x : string) :
  Str.includes s x = true <-> exists pre post, s = pre +++ x +++ post.
Proof.
  induction s as [|c s IH]; cbn [Str.includes].
  - rewrite orb_false_r, prefix_iff. split.
    + intros [post H]. exists "", post. exact H.
    + intros (pre & post & H). destruct pre; [exists post; exact H | discriminate].
  - rewrite orb_true_iff, prefix_iff, IH. split.
    + intros [[post H] | (pre & post & H)].
      * exists "", post. exact H.
      * exists (String c pre), post. cbn. rewrite H. reflexivity.
    + intros (pre & post & H). destruct pre as [|c' pre].
      * left. exists post. exact H.
      * right. cbn in H. injection H as _ H. exists pre, post. exact H.
Qed.

Lemma includes_tail (s a b : string) :
  Str.includes s (a +++ b) = true -> Str.includes s b = true.
Proof.
  rewrite !includes_iff. intros (pre & post & H).
  exists (pre +++ a), post. rewrite H, !append_assoc_string. reflexivity.
Qed.

(** The five date strings end in the day of the month, so the date test
    comes down to the last of them. *)
Lemma matchesDate_day_digits env text targetDate :
  AppointmentChecker.matchesDate env text targetDate
  = Str.includes text (showZ (getDate (tz env) targetDate)).
Proof.
  unfold AppointmentChecker.matchesDate, AppointmentChecker.dateFormats,
    localeWeekdayMonthDay, localeMonthDay, localeNumeric.
  cbn [existsb]. rewrite orb_false_r.
  destruct (Str.includes text (showZ (getDate (tz env) targetDate))) eqn:Hday.
  - rewrite !orb_true_r. reflexivity.
  - rewrite !orb_false_r.
    repeat match goal with
           | |- context [Str.includes text (?a +++ ?b)] =>
               let E := fresh "E" in
               destruct (Str.includes text (a +++ b)) eqn:E;
               [ exfalso;
                 repeat (apply includes_tail in E);
                 congruence
               | ]
           end.
    reflexivity.
Qed.

Lemma textSlots_spec env location targetDates texts s :
  In s (AppointmentChecker.textSlots env location targetDates texts) <->
  exists text targetDate,
    In text texts /\ In targetDate targetDates /\
    Str.includes text (showZ (getDate (tz env) targetDate)) = true /\
    (AppointmentChecker.hasTime text ||
     Str.includes (Str.toLowerCase text) "available") = true /\
    s = {| slot_location := loc_name location;
           slot_date := isoDate targetDate;
           slot_time := text;
           slot_url := loc_url location |}.
Proof.
  unfold AppointmentChecker.textSlots.
  rewrite in_flat_map. split.
  - intros (text & Htext & Hin). apply in_flat_map in Hin as (d & Hd & Hin).
    rewrite matchesDate_day_digits in Hin.
    destruct (Str.includes text (showZ (getDate (tz env) d))) eqn:Hday;
      [|destruct Hin].
    destruct (AppointmentChecker.hasTime text
              || Str.includes (Str.toLowerCase text) "available") eqn:Htime;
      [|destruct Hin].
    destruct Hin as [<-|[]]. exists text, d. repeat split; assumption.
  - intros (text & d & Htext & Hd & Hday & Htime & ->).
    exists text. split; [exact Htext|]. apply in_flat_map. exists d.
    split; [exact Hd|]. rewrite matchesDate_day_digits, Hday, Htime.
    left. reflexivity.
Qed.

Module PerLocation.
Section WithEnv.
Variable env : Env.

(** What the visit of a location's page throws, if it throws: the
    navigation, or the wait after it. *)
Definition failure (location : DmvLocation) : option Thrown :=
  match goto env (loc_url location) with
  | Some e => Some e
  | None => waitForDelay env (loc_url location)
  end.

(** What an evaluation of a selector hands to the checker. *)
Definition selected (location : DmvLocation) (sel : Selector) : list Element :=
  match evalRejects env (loc_url location) sel with
  | Some _ => []
  | None => filter (matchesSelector sel) (dom env (loc_url location))
  end.

(** The slots both strategies find on a location's page. *)
Definition pageSlots (targetDates : list Date) (today : Date)
           (location : DmvLocation) : list AppointmentSlot :=
  AppointmentChecker.textSlots env location targetDates
    (map trimmedText (selected location AvailableMarkers))
  ++ AppointmentChecker.calendarSlotsToPush location today
       (AppointmentChecker.readCalendarSlots (selected location CalendarCells)).





Definition found (targetDates : list Date) (today : Date)
           (location : DmvLocation) : list AppointmentSlot :=
  match failure location with
  | Some _ => []
  | None => pageSlots targetDates today location
  end.

Definition errors (now : Date) (location : DmvLocation) : list ActivityLog :=
  match failure location with
  | Some e => [stamp now (AppointmentChecker.locationErrorLog location e)]
  | None => []
  end.

Lemma checkLocation_run targetDates location w :
  exists w',
    AppointmentChecker.checkLocation env targetDates location w =
      (Ok (found targetDates (clock w) location), w') /\
    clock w' = clock w /\
    logs w' = logs w ++ errors (clock w) location /\
    stats w' = stats w.
Proof.
  unfold found, errors, pageSlots, selected, failure.
  cbv beta iota zeta delta
      [AppointmentChecker.checkLocation AppointmentChecker.evalOrEmpty
       bind tryCatch external consoleLog consoleError emit modify ret newDate
       Storage.createActivityLog].
  destruct (goto env (loc_url location)) as [e1|].
  { eexists. split; [reflexivity|].
    unfold logs, stats. cbn. repeat split; reflexivity. }
  destruct (waitForDelay env (loc_url location)) as [e2|].
  { eexists. split; [reflexivity|].
    unfold logs, stats. cbn. repeat split; reflexivity. }
  destruct (evalRejects env (loc_url location) AvailableMarkers) as [e3|];
    destruct (evalRejects env (loc_url location) CalendarCells) as [e4|];
    (eexists; split; [reflexivity|]);
    unfold logs, stats; cbn; rewrite ?app_nil_r; repeat split; reflexivity.
Qed.

Lemma forEachPush_run targetDates locations :
  forall acc w,
  exists w',
    forEachPush locations acc (AppointmentChecker.checkLocation env targetDates) w =
      (Ok (acc ++ flat_map (found targetDates (clock w)) locations), w') /\
    clock w' = clock w /\
    logs w' = logs w ++ flat_map (errors (clock w)) locations /\
    stats w' = stats w.
Proof.
  induction locations as [|location rest IH]; intros acc w; cbn [forEachPush flat_map].
  - exists w. rewrite !app_nil_r. repeat split; reflexivity.
  - destruct (checkLocation_run targetDates location w)
      as (w1 & Hrun & Hclock & Hlogs & Hstats).
    destruct (IH (acc ++ found targetDates (clock w) location) w1)
      as (w2 & Hrun2 & Hclock2 & Hlogs2 & Hstats2).
    exists w2. unfold bind at 1. rewrite Hrun, Hrun2.
    rewrite Hclock in *. rewrite Hclock2, Hlogs2, Hlogs, Hstats2, Hstats.
    rewrite <- !app_assoc. repeat split; reflexivity.
Qed.

End WithEnv.
End PerLocation.

(** The enabled locations in the order the checker visits them. *)
Definition enabledLocations (w : World) : list DmvLocation :=
  filter loc_enabled (Storage.sortByCreatedAt (dmvLocations (storage w))).

(** The dates a check started in [w] searches for. *)
Definition targetDatesOf (env : Env) (w : World) (settings : MonitoringSettings)
  : list Date :=
  getNextWorkingDays (tz env) (clock w) (daysAhead settings)
                     (businessDaysOnly settings).

(** The browser is there or can be launched, a page can be opened and
    closed: nothing but a location's own page can fail. *)
Definition browserWorks (env : Env) (w : World) : Prop :=
  (browser w = true \/ launch env = None) /\
  newPage env = None /\ pageClose env = None.

Lemma checkAppointments_run env w settings :
  browserWorks env w ->
  monitoringSettings (storage w) = Some settings ->
  exists w',
    AppointmentChecker.checkAppointments env w =
      (Ok (flat_map (PerLocation.found env (targetDatesOf env w settings) (clock w))
                    (enabledLocations w)), w') /\
    clock w' = clock w /\
    logs w' = logs w ++ flat_map (PerLocation.errors env (clock w)) (enabledLocations w) /\
    stats w' = stats w.
Proof.
  intros (Hbrowser & Hnew & Hclose) Hsettings.
  unfold AppointmentChecker.checkAppointments, AppointmentChecker.initialize.
  unfold bind at 1. unfold bind at 1. unfold getWorld at 1.
  set (w1 := if browser w
             then w
             else setBrowser true (addEvent BrowserLaunch w)).
  assert (Hinit :
            (if negb (browser w)
             then external BrowserLaunch (launch env) ;; modify (setBrowser true)
             else ret tt) w = (Ok tt, w1)).
  { subst w1. destruct (browser w) eqn:Hb; cbn [negb]; [reflexivity|].
    destruct Hbrowser as [Hb'|Hl]; [discriminate|].
    unfold bind, external. rewrite Hl. reflexivity. }
  rewrite Hinit.
  assert (Hst : storage w1 = storage w) by (subst w1; destruct (browser w); reflexivity).
  assert (Hck : clock w1 = clock w) by (subst w1; destruct (browser w); reflexivity).
  clearbody w1. clear Hinit.
  unfold bind at 1. unfold Storage.getDmvLocations at 1.
  unfold bind at 1. unfold Storage.getMonitoringSettings at 1.
  rewrite Hst, Hsettings.
  unfold bind at 1. unfold newDate at 1.
  unfold bind at 1. unfold external at 1. rewrite Hnew.
  unfold bind at 1. unfold tryFinally.
  destruct (PerLocation.forEachPush_run env
              (getNextWorkingDays (tz env) (clock w1) (daysAhead settings)
                                  (businessDaysOnly settings))
              (filter loc_enabled (Storage.sortByCreatedAt (dmvLocations (storage w))))
              [] (addEvent NewPage w1))
    as (w2 & Hrun & Hclock & Hlogs & Hstats).
  rewrite Hrun. unfold external. rewrite Hclose. unfold ret.
  eexists. split.
  - unfold targetDatesOf, enabledLocations. cbn [clock addEvent] in *.
    rewrite Hck. reflexivity.
  - unfold logs, stats, enabledLocations in *. cbn in *.
    rewrite Hclock, Hlogs, Hstats, Hst, Hck. repeat split; reflexivity.
Qed.




(** The same check, run: Henderson's navigation times out, West
    Flamingo's booking cell is returned and Henderson's failure is the
    one entry logged. *)
Example flamingo_slot_found :
  let run := AppointmentChecker.checkAppointments
               (Sample.hendersonDown [Sample.timedCell]) (Sample.stopped None) in
  fst run
  = Ok [ {| slot_location := "West Flamingo DMV (DL)";
            slot_date := "2025-01-03";
            slot_time := "10:15 AM";
            slot_url := "https://westflamingodmv.waitwell.us/book/1228" |} ] /\
  map (fun entry => log_title (log_entry entry)) (logs (snd run))
  = ["Error checking Henderson DMV (All Services)"].
Proof. split; vm_compute; reflexivity. Qed.

(** ** One check cycle *)

(** The Checker call of a cycle started in [w] ([performCheck] writes its
    console line first). *)
Definition cycleChecker (env : Env) (w : World)
  : Result (list AppointmentSlot) * World :=
  AppointmentChecker.checkAppointments env
    (addEvent (ConsoleLog "Performing appointment check...") w).

Definition totalChecksOf (w : World) : option Z :=
  option_map totalChecks (stats w).

Section CheckerKeeps.

Context {X : Type}.
Variable obs : World -> X.

(** [obs] does not look at the activity log, the browser handle, or
    any event but calls of the SMS transport. *)
Hypothesis obs_event : forall e w, notSms e = true -> obs (addEvent e w) = obs w.
Hypothesis obs_browser : forall b w, obs (setBrowser b w) = obs w.
Hypothesis obs_log :
  forall entry w, obs (setStorage (Storage.appendLog entry (storage w)) w) = obs w.

Lemma createActivityLog_keeps log : keeps obs (Storage.createActivityLog log).
Proof. intros w. apply obs_log. Qed.

Lemma checkLocation_keeps env targetDates location :
  keeps obs (AppointmentChecker.checkLocation env targetDates location).
Proof.
  unfold AppointmentChecker.checkLocation, AppointmentChecker.evalOrEmpty.
  unfold consoleLog, consoleError.
  repeat first [apply createActivityLog_keeps | keeps_step obs_event].
Qed.

(** The checker writes activity entries, console lines and browser
    calls: such an observation is left as it was, whether the checker
    returns or throws. *)
Lemma checkAppointments_keeps env :
  keeps obs (AppointmentChecker.checkAppointments env).
Proof.
  unfold AppointmentChecker.checkAppointments, AppointmentChecker.initialize.
  repeat first
         [ apply checkLocation_keeps
         | (intros ?; apply obs_browser)
         | keeps_step obs_event ].
Qed.

End CheckerKeeps.

Lemma smsCalls_addEvent e w :
  notSms e = true -> smsCalls (addEvent e w) = smsCalls w.
Proof.
  unfold notSms, smsCalls. cbn [trace addEvent]. rewrite filter_app. cbn.
  destruct (isTwilioCreate e); [discriminate|]. intros _. apply app_nil_r.
Qed.

Lemma checkAppointments_keeps_stats env :
  keeps stats (AppointmentChecker.checkAppointments env).
Proof. apply checkAppointments_keeps; reflexivity. Qed.

Lemma checkAppointments_keeps_smsCalls env :
  keeps smsCalls (AppointmentChecker.checkAppointments env).
Proof.
  apply checkAppointments_keeps; try reflexivity. apply smsCalls_addEvent.
Qed.

Lemma email_keeps_smsCalls env slots :
  keeps smsCalls (EmailService.sendAppointmentNotification env slots).
Proof.
  unfold EmailService.sendAppointmentNotification.
  keeps_auto smsCalls_addEvent.
Qed.

Lemma email_keeps_totalChecks env slots :
  keeps totalChecksOf (EmailService.sendAppointmentNotification env slots).
Proof.
  intros w.
  cbv beta iota zeta delta
      [EmailService.sendAppointmentNotification bind throw ret external
       Storage.getEmailConfig Storage.getMonitoringStats
       Storage.upsertMonitoringStats].
  destruct (emailConfig (storage w)) as [cfg|]; [|reflexivity].
  destruct (sendMail env _); [reflexivity|].
  cbn [storage addEvent].
  destruct (monitoringStats (storage w)) as [st|] eqn:Hst;
    unfold totalChecksOf, stats; cbn; rewrite Hst; reflexivity.
Qed.

(** The state [updateStats] leaves. *)
Lemma updateStats_run found w :
  exists w',
    MonitoringService.updateStats found w = (Ok tt, w') /\
    logs w' = logs w /\ clock w' = clock w /\ trace w' = trace w /\
    stats w' =
      option_map
        (fun st =>
           Storage.mergeStats (Some st)
             (MonitoringService.checkedStats st found (clock w)
                (startTime (monitoringService w))))
        (stats w).
Proof.
  unfold MonitoringService.updateStats, bind, Storage.getMonitoringStats,
    newDate, getWorld, Storage.upsertMonitoringStats, ret, stats.
  destruct (monitoringStats (storage w)) as [st|] eqn:Hst.
  - eexists. split; [reflexivity|]. cbn. rewrite Hst. repeat split; reflexivity.
  - exists w. rewrite Hst. repeat split; reflexivity.
Qed.

Lemma updateStats_totalChecks found w :
  totalChecksOf (snd (MonitoringService.updateStats found w)) =
  option_map (fun n => n + 1) (totalChecksOf w).
Proof.
  destruct (updateStats_run found w) as (w' & Hrun & _ & _ & _ & Hstats).
  rewrite Hrun. unfold totalChecksOf. cbn [snd]. rewrite Hstats.
  destruct (stats w); reflexivity.
Qed.

(** How a cycle ends once its Checker call has thrown. *)
Lemma performCheck_after_throw env w e w1 :
  cycleChecker env w = (Throw e, w1) ->
  MonitoringService.performCheck env w =
    (Ok tt,
     setStorage
       (Storage.appendLog (stamp (clock w1) (MonitoringService.checkFailedLog e))
                          (storage w1))
       (addEvent (ConsoleError "Error during appointment check:" e) w1)).
Proof.
  unfold cycleChecker. intros Hrun.
  unfold MonitoringService.performCheck.
  unfold bind at 1. unfold consoleLog at 1, emit at 1, modify at 1.
  unfold tryCatch. unfold bind at 1. rewrite Hrun.
  reflexivity.
Qed.

(** How a cycle ends once its Checker call has returned slots: the
    statistics are updated, the email service is called, and the entry
    written depends on how that call ends. *)
Lemma performCheck_after_slots env w slots w1 :
  cycleChecker env w = (Ok slots, w1) ->
  slots <> [] ->
  MonitoringService.performCheck env w =
    let wStats := snd (MonitoringService.updateStats (List.length slots) w1) in
    match EmailService.sendAppointmentNotification env slots wStats with
    | (Ok _, w2) =>
        (Ok tt,
         addEvent
           (ConsoleLog ("Found " +++ showNat (List.length slots) +++
                        " appointments, email sent"))
           (setStorage
              (Storage.appendLog
                 (stamp (clock w2) (MonitoringService.foundLog slots))
                 (storage w2)) w2))
    | (Throw e, w2) =>
        (Ok tt,
         setStorage
           (Storage.appendLog
              (stamp (clock w2) (MonitoringService.checkFailedLog e))
              (storage w2))
           (addEvent (ConsoleError "Error during appointment check:" e) w2))
    end.
Proof.
  unfold cycleChecker. intros Hrun Hne. cbv zeta.
  unfold MonitoringService.performCheck.
  unfold bind at 1. unfold consoleLog at 1, emit at 1, modify at 1.
  unfold tryCatch. unfold bind at 1. rewrite Hrun.
  unfold bind at 1.
  destruct (updateStats_run (List.length slots) w1) as (wS & HrunS & _).
  rewrite HrunS. cbn [snd].
  assert (Hpos : (0 <? List.length slots)%nat = true).
  { destruct slots; [contradiction|reflexivity]. }
  rewrite Hpos.
  unfold bind at 1.
  destruct (EmailService.sendAppointmentNotification env slots wS)
    as [[[]|e] w2]; reflexivity.
Qed.

(** How a cycle ends once its Checker call has returned no slot. *)
Lemma performCheck_after_nothing env w w1 :
  cycleChecker env w = (Ok [], w1) ->
  MonitoringService.performCheck env w =
    let wStats := snd (MonitoringService.updateStats 0 w1) in
    (Ok tt,
     addEvent (ConsoleLog "No appointments found")
       (setStorage
          (Storage.appendLog
             (stamp (clock wStats)
                (MonitoringService.completedLog
                   (List.length (enabledLocations wStats))))
             (storage wStats)) wStats)).
Proof.
  unfold cycleChecker. intros Hrun. cbv zeta.
  unfold MonitoringService.performCheck.
  unfold bind at 1. unfold consoleLog at 1, emit at 1, modify at 1.
  unfold tryCatch. unfold bind at 1. rewrite Hrun.
  unfold bind at 1. cbn [List.length].
  destruct (updateStats_run 0 w1) as (wS & HrunS & _).
  rewrite HrunS. reflexivity.
Qed.

(** C2 as stated fails: when the browser cannot be launched the Checker
    call throws, the cycle logs one [error] entry, and [totalChecks] is
    still 0 afterwards -- the attempt is not counted. *)
Lemma cycle_checker_throw_not_counted :
  let env := Sample.noBrowser in
  let w := Sample.stopped None in
  let w' := snd (MonitoringService.performCheck env w) in
  fst (cycleChecker env w)
    = Throw (newError "Failed to launch the browser process") /\
  totalChecksOf w = Some 0 /\
  totalChecksOf w' = Some 0 /\
  countType "error" w' = 1%nat.
Proof. repeat split; vm_compute; reflexivity. Qed.

(** C2, amended. When the Checker call of a cycle throws, the cycle
    still ends normally and the scheduler appends exactly one activity
    entry, of kind [error], carrying the thrown message; the statistics
    are left as they were ([totalChecks] is not incremented). *)
Theorem cycle_checker_throw_logs_error
        (env : Env) (w : World) (e : Thrown) (w1 : World) :
  cycleChecker env w = (Throw e, w1) ->
  exists w',
    MonitoringService.performCheck env w = (Ok tt, w') /\
    logs w' = logs w1 ++ [stamp (clock w1) (MonitoringService.checkFailedLog e)] /\
    log_type (MonitoringService.checkFailedLog e) = "error" /\
    log_description (MonitoringService.checkFailedLog e)
      = Some ("Appointment check failed: " +++ messageOf e) /\
    countType "error" w' = S (countType "error" w1) /\
    stats w' = stats w /\
    totalChecksOf w' = totalChecksOf w.
Proof.
  intros Hrun.
  assert (Hstats : stats w1 = stats w).
  { pose proof (checkAppointments_keeps_stats env
                  (addEvent (ConsoleLog "Performing appointment check...") w)) as H.
    unfold cycleChecker in Hrun. rewrite Hrun in H. exact H. }
  eexists. split; [apply performCheck_after_throw; exact Hrun|].
  unfold countType, totalChecksOf, logs, stats in *. cbn.
  rewrite filter_app, length_app, Hstats. cbn.
  repeat split; try reflexivity. lia.
Qed.

Lemma cycle_checker_throw_logs_error_witness :
  let env := Sample.noBrowser in
  let w := Sample.stopped None in
  let e := newError "Failed to launch the browser process" in
  let w1 := addEvent BrowserLaunch
              (addEvent (ConsoleLog "Performing appointment check...") w) in
  exists w',
    MonitoringService.performCheck env w = (Ok tt, w') /\
    logs w' = logs w1 ++ [stamp (clock w1) (MonitoringService.checkFailedLog e)] /\
    log_type (MonitoringService.checkFailedLog e) = "error" /\
    log_description (MonitoringService.checkFailedLog e)
      = Some ("Appointment check failed: " +++ messageOf e) /\
    countType "error" w' = S (countType "error" w1) /\
    stats w' = stats w /\
    totalChecksOf w' = totalChecksOf w.
Proof.
  apply (@cycle_checker_throw_logs_error
           Sample.noBrowser (Sample.stopped None)
           (newError "Failed to launch the browser process")).
  vm_compute. reflexivity.
Defined.

(** C3, on the code.  With email and SMS both fully configured and a
    Checker that returns two slots, the cycle sends one mail and makes no
    call of the SMS transport: [performCheck] calls the email service
    itself and never the dispatcher, which, given the same slots, makes
    one SMS call.  And with no email configuration the cycle that found
    the slots appends no [appointment_found] entry but an [error] one. *)
Lemma cycle_found_slots_sms_not_attempted :
  let env := Sample.calm [Sample.timedCell] in
  let w := Sample.stopped (Some Sample.fullConfig) in
  let w' := snd (MonitoringService.performCheck env w) in
  let dispatched :=
    snd (NotificationService.sendAppointmentNotification env
           (match fst (cycleChecker env w) with Ok slots => slots | Throw _ => [] end)
           w) in
  let w'' := snd (MonitoringService.performCheck env (Sample.stopped None)) in
  option_map (@List.length _)
    (match fst (cycleChecker env w) with Ok slots => Some slots | Throw _ => None end)
    = Some 2%nat /\
  SmsService.notConfigured (emailConfig (storage w)) = false /\
  List.length (mailCalls w') = 1%nat /\
  List.length (smsCalls w') = 0%nat /\
  List.length (smsCalls dispatched) = 1%nat /\
  countType "appointment_found" w' = 1%nat /\
  countType "appointment_found" w'' = 0%nat /\
  countType "error" w'' = 1%nat.
Proof. repeat split; vm_compute; reflexivity. Qed.

(** What a cycle does once its Checker call has returned a non-empty
    slot list: it calls the email service alone (the SMS transport is not
    called during the cycle) and appends exactly one activity entry:
    [appointment_found], summarising the slots with the action
    "Email notification sent", when the email call returns; an [error]
    entry instead when it throws. *)
Lemma cycle_found_slots_email_only
        (env : Env) (w : World) (slots : list AppointmentSlot) (w1 : World) :
  cycleChecker env w = (Ok slots, w1) ->
  slots <> [] ->
  exists rEmail w2 w',
    EmailService.sendAppointmentNotification env slots
      (snd (MonitoringService.updateStats (List.length slots) w1))
      = (rEmail, w2) /\
    MonitoringService.performCheck env w = (Ok tt, w') /\
    smsCalls w' = smsCalls w /\
    logs w' =
      logs w1 ++
      [stamp (clock w1)
         (match rEmail with
          | Ok _ => MonitoringService.foundLog slots
          | Throw e => MonitoringService.checkFailedLog e
          end)] /\
    log_action (MonitoringService.foundLog slots) = Some "Email notification sent" /\
    countType "appointment_found" w' =
      (countType "appointment_found" w1 + (if isOk rEmail then 1 else 0))%nat.
Proof.
  intros Hrun Hne.
  pose proof (@performCheck_after_slots env w slots w1 Hrun Hne) as Hperform.
  cbv zeta in Hperform.
  pose proof (checkAppointments_keeps_smsCalls env
                (addEvent (ConsoleLog "Performing appointment check...") w)) as Hsms1.
  unfold cycleChecker in Hrun. rewrite Hrun in Hsms1. cbn [snd] in Hsms1.
  rewrite smsCalls_addEvent in Hsms1 by reflexivity.
  destruct (updateStats_run (List.length slots) w1)
    as (wS & HrunS & HlogsS & HclockS & HtraceS & _).
  rewrite HrunS in *. cbn [snd] in *.
  pose proof (email_keeps_logs env slots wS) as Hl.
  pose proof (email_keeps_clock env slots wS) as Hc.
  pose proof (email_keeps_smsCalls env slots wS) as Hs.
  destruct (EmailService.sendAppointmentNotification env slots wS)
    as [rEmail w2]. cbn [snd] in *.
  assert (HsmsS : smsCalls wS = smsCalls w1).
  { unfold smsCalls. rewrite HtraceS. reflexivity. }
  exists rEmail, w2.
  destruct rEmail as [[]|e]; (eexists; split; [reflexivity|]);
    (split; [exact Hperform|]);
    unfold countType, logs in *; cbn [storage setStorage addEvent activityLogs
                                     Storage.appendLog];
    rewrite Hl, Hc, HlogsS, HclockS, filter_app, length_app;
    (split; [|split; [reflexivity | split; [reflexivity | cbn; lia]]]).
  - rewrite smsCalls_addEvent by reflexivity.
    unfold smsCalls in *. cbn [trace setStorage]. congruence.
  - unfold smsCalls in *. cbn [trace setStorage addEvent].
    rewrite filter_app. cbn. rewrite app_nil_r. congruence.
Qed.

Example cycle_found_slots_email_only_sample :
  let env := Sample.calm [Sample.timedCell] in
  let w := Sample.stopped (Some Sample.fullConfig) in
  let slots :=
    [ {| slot_location := loc_name Sample.henderson;
         slot_date := "2025-01-03";
         slot_time := "10:15 AM";
         slot_url := loc_url Sample.henderson |};
      {| slot_location := loc_name Sample.flamingo;
         slot_date := "2025-01-03";
         slot_time := "10:15 AM";
         slot_url := loc_url Sample.flamingo |} ] in
  let w1 := snd (cycleChecker env w) in
  exists rEmail w2 w',
    EmailService.sendAppointmentNotification env slots
      (snd (MonitoringService.updateStats (List.length slots) w1))
      = (rEmail, w2) /\
    MonitoringService.performCheck env w = (Ok tt, w') /\
    smsCalls w' = smsCalls w /\
    logs w' =
      logs w1 ++
      [stamp (clock w1)
         (match rEmail with
          | Ok _ => MonitoringService.foundLog slots
          | Throw e => MonitoringService.checkFailedLog e
          end)] /\
    log_action (MonitoringService.foundLog slots) = Some "Email notification sent" /\
    countType "appointment_found" w' =
      (countType "appointment_found" w1 + (if isOk rEmail then 1 else 0))%nat.
Proof.
  apply (@cycle_found_slots_email_only
           (Sample.calm [Sample.timedCell])
           (Sample.stopped (Some Sample.fullConfig))).
  - vm_compute. reflexivity.
  - discriminate.
Qed.

(** ** Overlapping cycles *)

(** C1 as stated fails: with the scheduler running, a tick followed by
    a check-now request, before the tick's Checker call has settled,
    leaves two invocations in flight. *)
Lemma tick_and_check_now_overlap :
  let env := Sample.calm [] in
  let s0 := {| Cycles.world := Sample.running None; Cycles.inFlight := [] |} in
  Cycles.inFlight
    (Cycles.run env [Cycles.Fire Cycles.Tick; Cycles.Fire Cycles.CheckNow] s0)
  = [Cycles.Tick; Cycles.CheckNow].
Proof. vm_compute. reflexivity. Qed.

Lemma appendLog_keeps_totalChecks entry w :
  totalChecksOf (setStorage (Storage.appendLog entry (storage w)) w)
  = totalChecksOf w.
Proof. reflexivity. Qed.

(** C1, amended. The scheduler has no in-progress guard: a check-now
    request starts an invocation whatever is in flight already, so cycles
    are not mutually exclusive.  A cycle that runs with no other cycle in
    flight, whose Checker call returns and for which the statistics
    record exists, increments [totalChecks] by exactly 1. *)
Theorem cycle_alone_counts_one_check
        (env : Env) (w : World) (slots : list AppointmentSlot) (w1 : World)
        (st : MonitoringStats) :
  cycleChecker env w = (Ok slots, w1) ->
  stats w = Some st ->
  (forall s, Cycles.inFlight (Cycles.step env (Cycles.Fire Cycles.CheckNow) s)
             = Cycles.inFlight s ++ [Cycles.CheckNow]) /\
  let s' := Cycles.run env [Cycles.Fire Cycles.CheckNow; Cycles.Settle]
              {| Cycles.world := w; Cycles.inFlight := [] |} in
  Cycles.inFlight s' = [] /\
  totalChecksOf (Cycles.world s') = Some (totalChecks st + 1).
Proof.
  intros Hrun Hst. split; [intros s; reflexivity|]. cbv zeta.
  split; [reflexivity|].
  cbn [Cycles.run fold_left Cycles.step Cycles.fires Cycles.inFlight
       Cycles.world app].
  assert (Hstats1 : totalChecksOf w1 = Some (totalChecks st)).
  { pose proof (checkAppointments_keeps_stats env
                  (addEvent (ConsoleLog "Performing appointment check...") w)) as H.
    unfold cycleChecker in Hrun. rewrite Hrun in H. cbn [snd] in H.
    unfold totalChecksOf. rewrite H. change (stats (addEvent _ w)) with (stats w).
    rewrite Hst. reflexivity. }
  destruct slots as [|slot slots].
  - rewrite (@performCheck_after_nothing env w w1 Hrun). cbv zeta. cbn [snd].
    change (totalChecksOf (snd (MonitoringService.updateStats 0 w1))
            = Some (totalChecks st + 1)).
    rewrite updateStats_totalChecks, Hstats1. reflexivity.
  - rewrite (@performCheck_after_slots env w (slot :: slots) w1 Hrun)
      by discriminate.
    cbv zeta.
    pose proof (email_keeps_totalChecks env (slot :: slots)
                  (snd (MonitoringService.updateStats
                          (List.length (slot :: slots)) w1))) as Hemail.
    rewrite updateStats_totalChecks, Hstats1 in Hemail. cbn [option_map] in Hemail.
    destruct (EmailService.sendAppointmentNotification env (slot :: slots) _)
      as [[[]|e] w2]; cbn [snd] in *; exact Hemail.
Qed.

Lemma cycle_alone_counts_one_check_witness :
  let env := Sample.calm [Sample.timedCell] in
  let w := Sample.running (Some Sample.fullConfig) in
  (forall s, Cycles.inFlight (Cycles.step env (Cycles.Fire Cycles.CheckNow) s)
             = Cycles.inFlight s ++ [Cycles.CheckNow]) /\
  let s' := Cycles.run env [Cycles.Fire Cycles.CheckNow; Cycles.Settle]
              {| Cycles.world := w; Cycles.inFlight := [] |} in
  Cycles.inFlight s' = [] /\
  totalChecksOf (Cycles.world s') = Some (totalChecks Sample.zeroStats + 1).
Proof.
  apply (@cycle_alone_counts_one_check
           (Sample.calm [Sample.timedCell])
           (Sample.running (Some Sample.fullConfig))
           (match fst (cycleChecker (Sample.calm [Sample.timedCell])
                         (Sample.running (Some Sample.fullConfig))) with
            | Ok slots => slots
            | Throw _ => []
            end)
           (snd (cycleChecker (Sample.calm [Sample.timedCell])
                   (Sample.running (Some Sample.fullConfig))))
           Sample.zeroStats).
  - vm_compute. reflexivity.
  - reflexivity.
Defined.

(** * More of the engine

    The remaining operations of [MemStorage], the HTTP handlers that
    drive the scheduler and the dispatcher, and the process-shutdown
    handler, followed by properties of these and of the services above. *)

(** ** MemStorage: the location map and the activity log (server/storage.ts) *)

Module LocationMap.

(** [Map<string, DmvLocation>]: keys in insertion order, each once. *)
Definition t := list (string * DmvLocation).

(** [map.get(id)] *)
Fixpoint get (id : string) (m : t) : option DmvLocation :=
  match m with
  | [] => None
  | (k, v) :: rest => if String.eqb k id then Some v else get id rest
  end.

(** [map.set(id, v)]: an existing key keeps its place. *)
Fixpoint set (id : string) (v : DmvLocation) (m : t) : t :=
  match m with
  | [] => [(id, v)]
  | (k, old) :: rest =>
      if String.eqb k id then (k, v) :: rest else (k, old) :: set id v rest
  end.

(** [map.delete(id)]: whether the key was there, and the map without it. *)
Fixpoint delete (id : string) (m : t) : bool * t :=
  match m with
  | [] => (false, [])
  | (k, v) :: rest =>
      if String.eqb k id then (true, rest)
      else let '(found, rest') := delete id rest in (found, (k, v) :: rest')
  end.

(** [Array.from(map.values())] *)
Definition values (m : t) : list DmvLocation := map snd m.

Definition keys (m : t) : list string := map fst m.

(** [InsertDmvLocation]: [enabled] may be left out. *)
Record InsertDmvLocation := {
  ins_name : string;
  ins_url : string;
  ins_type : string;
  ins_enabled : option bool }.

(** [Partial<DmvLocation>] *)
Record PartialDmvLocation := {
  upd_id : option string;
  upd_name : option string;
  upd_url : option string;
  upd_type : option string;
  upd_enabled : option bool;
  upd_createdAt : option Date }.

Definition orKeep {A} (new : option A) (old : A) : A :=
  match new with Some v => v | None => old end.

(** [{ ...existing, ...updates }] *)
Definition merge (existing : DmvLocation) (updates : PartialDmvLocation)
  : DmvLocation :=
  {| loc_id := orKeep (upd_id updates) (loc_id existing);
     loc_name := orKeep (upd_name updates) (loc_name existing);
     loc_url := orKeep (upd_url updates) (loc_url existing);
     loc_type := orKeep (upd_type updates) (loc_type existing);
     loc_enabled := orKeep (upd_enabled updates) (loc_enabled existing);
     loc_createdAt := orKeep (upd_createdAt updates) (loc_createdAt existing) |}.

(** [getDmvLocations] *)
Definition getDmvLocations (m : t) : list DmvLocation :=
  Storage.sortByCreatedAt (values m).

(** [getDmvLocation] *)
Definition getDmvLocation (id : string) (m : t) : option DmvLocation :=
  get id m.

(** [createDmvLocation]; [id] is what [randomUUID()] answered and [now]
    what [new Date()] read.  A location created without [enabled] has no
    such property, which reads as falsy. *)
Definition createDmvLocation (id : string) (now : Date)
           (location : InsertDmvLocation) (m : t) : DmvLocation * t :=
  let newLocation :=
    {| loc_id := id;
       loc_name := ins_name location;
       loc_url := ins_url location;
       loc_type := ins_type location;
       loc_enabled := match ins_enabled location with
                      | Some b => b
                      | None => false
                      end;
       loc_createdAt := now |} in
  (newLocation, set id newLocation m).

(** [updateDmvLocation] *)
Definition updateDmvLocation (id : string) (updates : PartialDmvLocation)
           (m : t) : option DmvLocation * t :=
  match get id m with
  | None => (None, m)
  | Some existing =>
      let updated := merge existing updates in
      (Some updated, set id updated m)
  end.

(** [deleteDmvLocation] *)
Definition deleteDmvLocation (id : string) (m : t) : bool * t :=
  delete id m.

End LocationMap.

Module ActivityLogs.

(** Stable insertion, newest first: [sort((a, b) => b.createdAt - a.createdAt)]. *)
Fixpoint insertNewestFirst (x : ActivityLog) (l : list ActivityLog)
  : list ActivityLog :=
  match l with
  | [] => [x]
  | y :: rest =>
      if log_createdAt x <=? log_createdAt y
      then y :: insertNewestFirst x rest
      else x :: l
  end.

Definition sortNewestFirst (l : list ActivityLog) : list ActivityLog :=
  fold_left (fun sorted x => insertNewestFirst x sorted) l [].

(** [xs.slice(0, limit)] for an integer [limit]: a negative one counts
    from the end. *)
Definition sliceFromStart {A} (limit : Z) (xs : list A) : list A :=
  if limit <? 0
  then firstn (Z.to_nat (Z.of_nat (List.length xs) + limit)) xs
  else firstn (Z.to_nat limit) xs.

(** [getActivityLogs(limit)] on the log's values in insertion order. *)
Definition getActivityLogs (limit : Z) (entries : list ActivityLog)
  : list ActivityLog :=
  sliceFromStart limit (sortNewestFirst entries).

(** [clearActivityLogs] *)
Definition clearActivityLogs : M unit :=
  modify (fun w =>
            setStorage
              {| dmvLocations := dmvLocations (storage w);
                 emailConfig := emailConfig (storage w);
                 monitoringSettings := monitoringSettings (storage w);
                 activityLogs := [];
                 monitoringStats := monitoringStats (storage w) |} w).

End ActivityLogs.

(** ** HTTP handlers and process shutdown (server/routes.ts) *)

Module Routes.

(** What a handler answers: the status and the [message] of the body. *)
Record Response := {
  status : Z;
  message : string }.

(** [error instanceof Error ? error.message : fallback] *)
Definition errorMessage (e : Thrown) (fallback : string) : string :=
  match e with
  | ErrorObject m _ => m
  | OtherThrown _ => fallback
  end.

Section WithEnv.
Variable env : Env.

(** [POST /api/monitoring/check-now] *)
Definition checkNow (w : World) : Response * World :=
  match MonitoringService.performCheck env w with
  | (Ok _, w') => ({| status := 200; message := "Check completed" |}, w')
  | (Throw e, w') =>
      ({| status := 500; message := errorMessage e "Check failed" |}, w')
  end.

(** [POST /api/monitoring/start] *)
Definition start (w : World) : Response * World :=
  match MonitoringService.startMonitoring env w with
  | (Ok _, w') => ({| status := 200; message := "Monitoring started" |}, w')
  | (Throw e, w') =>
      ({| status := 400;
          message := errorMessage e "Failed to start monitoring" |}, w')
  end.

(** [POST /api/monitoring/stop] *)
Definition stop (w : World) : Response * World :=
  match MonitoringService.stopMonitoring w with
  | (Ok _, w') => ({| status := 200; message := "Monitoring stopped" |}, w')
  | (Throw _, w') =>
      ({| status := 500; message := "Failed to stop monitoring" |}, w')
  end.

(** [POST /api/notifications/test] *)
Definition testNotifications (w : World) : Response * World :=
  match NotificationService.sendTestNotifications env w with
  | (Ok (email, sms), w') =>
      let messages :=
        (if email then ["email"] else []) ++ (if sms then ["SMS"] else []) in
      if (List.length messages =? 0)%nat
      then ({| status := 400;
               message := "No notification methods are configured" |}, w')
      else ({| status := 200;
               message := "Test " +++ Str.join " and " messages +++
                          " sent successfully" |}, w')
  | (Throw e, w') =>
      let w'' := addEvent (ConsoleError "Test notifications error:" e) w' in
      ({| status := 500;
          message := errorMessage e "Failed to send test notifications" |}, w'')
  end.

(** [POST /api/sms-config/test] *)
Definition testSms (w : World) : Response * World :=
  match SmsService.sendTestSms env w with
  | (Ok _, w') =>
      ({| status := 200; message := "Test SMS sent successfully" |}, w')
  | (Throw e, w') =>
      let w'' := addEvent (ConsoleError "Test SMS error:" e) w' in
      ({| status := 500; message := errorMessage e "Failed to send test SMS" |},
       w'')
  end.

(** The [SIGTERM] / [SIGINT] handler:
    [await appointmentChecker.close(); await monitoringService.stopMonitoring()]. *)
Definition shutdown : M unit :=
  bind (AppointmentChecker.close env)
       (fun _ => MonitoringService.stopMonitoring).

End WithEnv.
End Routes.

(** ** Properties of the location map *)

Definition createdBefore (a b : DmvLocation) : Prop :=
  loc_createdAt a <= loc_createdAt b.

Lemma insertByCreatedAt_perm x l :
  Permutation (x :: l) (Storage.insertByCreatedAt x l).
Proof.
  induction l as [|y l IH]; cbn; [reflexivity|].
  destruct (loc_createdAt y <=? loc_createdAt x); [|reflexivity].
  rewrite perm_swap. constructor. exact IH.
Qed.

Lemma insertByCreatedAt_sorted x l :
  StronglySorted createdBefore l ->
  StronglySorted createdBefore (Storage.insertByCreatedAt x l).
Proof.
  induction 1 as [|y l Hs IH Hy]; cbn.
  - repeat constructor.
  - destruct (loc_createdAt y <=? loc_createdAt x) eqn:E.
    + constructor; [exact IH|].
      apply Z.leb_le in E.
      eapply Permutation_Forall; [apply insertByCreatedAt_perm|].
      constructor; assumption.
    + apply Z.leb_gt in E. constructor; [constructor; assumption|].
      constructor; [unfold createdBefore; lia|].
      eapply Forall_impl; [|exact Hy]. unfold createdBefore. intros; lia.
Qed.

(** Inserting an entry no older than all the others puts it last. *)
Lemma insertByCreatedAt_last x l :
  Forall (fun y => createdBefore y x) l ->
  Storage.insertByCreatedAt x l = l ++ [x].
Proof.
  induction 1 as [|y l Hy Hl IH]; cbn; [reflexivity|].
  unfold createdBefore in Hy. apply Z.leb_le in Hy. rewrite Hy, IH. reflexivity.
Qed.

Lemma sortByCreatedAt_fold acc l :
  let r := fold_left (fun sorted x => Storage.insertByCreatedAt x sorted) l acc in
  Permutation (acc ++ l) r /\
  (StronglySorted createdBefore acc -> StronglySorted createdBefore r) /\
  (StronglySorted createdBefore (acc ++ l) -> r = acc ++ l).
Proof.
  cbv zeta. revert acc. induction l as [|x l IH]; intros acc; cbn [fold_left].
  - rewrite app_nil_r. repeat split; auto.
  - destruct (IH (Storage.insertByCreatedAt x acc)) as (Hp & Hs & Hid).
    repeat split.
    + eapply Permutation_trans; [|exact Hp].
      eapply Permutation_trans; [symmetry; apply Permutation_middle|].
      apply (Permutation_app_tail l (insertByCreatedAt_perm x acc)).
    + intros Hacc. apply Hs. apply insertByCreatedAt_sorted. exact Hacc.
    + intros Hsorted.
      assert (Hlast : Storage.insertByCreatedAt x acc = acc ++ [x]).
      { apply insertByCreatedAt_last.
        clear -Hsorted. induction acc as [|a acc IHacc]; [constructor|].
        cbn in Hsorted. inversion Hsorted as [|? ? Hs' Ha]; subst.
        constructor; [|apply IHacc; exact Hs'].
        apply Forall_app in Ha as [_ Ha]. inversion Ha; subst. assumption. }
      rewrite Hlast in *. rewrite <- app_assoc in Hid. cbn [app] in Hid.
      apply Hid. exact Hsorted.
Qed.

(** X1. [getDmvLocations] answers every stored location exactly once
    (a permutation of the map's values), ordered by creation time; and
    when the values are already in that order -- in particular when all
    were created in the same millisecond -- it answers them in insertion
    order (the sort is stable). *)
Theorem getDmvLocations_sorted_permutation (m : LocationMap.t) :
  Permutation (LocationMap.values m) (LocationMap.getDmvLocations m) /\
  StronglySorted createdBefore (LocationMap.getDmvLocations m) /\
  (StronglySorted createdBefore (LocationMap.values m) ->
   LocationMap.getDmvLocations m = LocationMap.values m).
Proof.
  unfold LocationMap.getDmvLocations, Storage.sortByCreatedAt.
  destruct (sortByCreatedAt_fold [] (LocationMap.values m)) as (Hp & Hs & Hid).
  cbn [app] in *. repeat split.
  - exact Hp.
  - apply Hs. constructor.
  - exact Hid.
Qed.

Lemma get_set_same id v m : LocationMap.get id (LocationMap.set id v m) = Some v.
Proof.
  induction m as [|[k old] m IH]; cbn.
  - rewrite String.eqb_refl. reflexivity.
  - destruct (String.eqb k id) eqn:E; cbn; rewrite E; [reflexivity | exact IH].
Qed.

Lemma get_set_other id other v m :
  String.eqb other id = false ->
  LocationMap.get other (LocationMap.set id v m) = LocationMap.get other m.
Proof.
  intros Hne. induction m as [|[k old] m IH]; cbn.
  - rewrite String.eqb_sym, Hne. reflexivity.
  - destruct (String.eqb k id) eqn:E; cbn.
    + apply String.eqb_eq in E. subst k. rewrite String.eqb_sym, Hne.
      reflexivity.
    + destruct (String.eqb k other); [reflexivity | exact IH].
Qed.

Lemma set_fresh id v m :
  LocationMap.get id m = None -> LocationMap.set id v m = m ++ [(id, v)].
Proof.
  induction m as [|[k old] m IH]; cbn; [reflexivity|].
  destruct (String.eqb k id); [discriminate|].
  intros H. rewrite IH by exact H. reflexivity.
Qed.

Lemma set_present_keys id v m :
  LocationMap.get id m <> None ->
  LocationMap.keys (LocationMap.set id v m) = LocationMap.keys m.
Proof.
  unfold LocationMap.keys.
  induction m as [|[k old] m IH]; cbn; [congruence|].
  destruct (String.eqb k id) eqn:E; cbn; [reflexivity|].
  intros H. rewrite IH by exact H. reflexivity.
Qed.

Lemma get_none_keys id m :
  LocationMap.get id m = None <-> ~ In id (LocationMap.keys m).
Proof.
  unfold LocationMap.keys.
  induction m as [|[k v] m IH]; cbn; [tauto|].
  destruct (String.eqb k id) eqn:E.
  - apply String.eqb_eq in E. split; [discriminate | intros H; exfalso; auto].
  - apply String.eqb_neq in E. rewrite IH. tauto.
Qed.

(** X2. Insert and look up: after [createDmvLocation] the new id reads
    back the location just created, carrying that id and the creation
    time, every other id reads as before, and -- the id being new -- the
    location comes last in the map, which keeps its keys distinct. *)
Theorem createDmvLocation_then_get
        (id : string) (now : Date) (location : LocationMap.InsertDmvLocation)
        (m : LocationMap.t) :
  let created := fst (LocationMap.createDmvLocation id now location m) in
  let m' := snd (LocationMap.createDmvLocation id now location m) in
  LocationMap.getDmvLocation id m' = Some created /\
  loc_id created = id /\ loc_createdAt created = now /\
  (forall other, String.eqb other id = false ->
                 LocationMap.getDmvLocation other m'
                 = LocationMap.getDmvLocation other m) /\
  (LocationMap.getDmvLocation id m = None ->
   LocationMap.values m' = LocationMap.values m ++ [created] /\
   (NoDup (LocationMap.keys m) -> NoDup (LocationMap.keys m'))).
Proof.
  cbv zeta. unfold LocationMap.createDmvLocation, LocationMap.getDmvLocation.
  cbn [fst snd]. repeat split.
  - apply get_set_same.
  - intros other Hne. apply get_set_other. exact Hne.
  - rewrite set_fresh by assumption. unfold LocationMap.values.
    rewrite map_app. reflexivity.
  - intros Hnodup. rewrite set_fresh by assumption.
    unfold LocationMap.keys. rewrite map_app. cbn.
    apply NoDup_app_remove_l with (l := []). cbn.
    apply Permutation_NoDup with (l := id :: map fst m).
    + apply Permutation_cons_append.
    + constructor; [|exact Hnodup]. apply get_none_keys. assumption.
Qed.

(** X3. [updateDmvLocation] on an id that is not stored answers
    [undefined] and changes nothing; on a stored id it answers the
    stored location overlaid with the given fields, which is what the id
    reads back afterwards; either way the map keeps its keys and their
    order, so no location is added or lost (the key stays even when the
    update overwrites the location's own [id] field). *)
Theorem updateDmvLocation_result
        (id : string) (updates : LocationMap.PartialDmvLocation)
        (m : LocationMap.t) :
  let answer := fst (LocationMap.updateDmvLocation id updates m) in
  let m' := snd (LocationMap.updateDmvLocation id updates m) in
  answer = option_map (fun existing => LocationMap.merge existing updates)
                      (LocationMap.getDmvLocation id m) /\
  LocationMap.getDmvLocation id m' = answer /\
  LocationMap.keys m' = LocationMap.keys m /\
  (LocationMap.getDmvLocation id m = None -> m' = m) /\
  (forall other, String.eqb other id = false ->
                 LocationMap.getDmvLocation other m'
                 = LocationMap.getDmvLocation other m).
Proof.
  cbv zeta. unfold LocationMap.updateDmvLocation, LocationMap.getDmvLocation.
  destruct (LocationMap.get id m) as [existing|] eqn:Hget; cbn [fst snd option_map].
  - repeat split.
    + apply get_set_same.
    + apply set_present_keys. congruence.
    + discriminate.
    + intros other Hne. apply get_set_other. exact Hne.
  - repeat split; try assumption; reflexivity.
Qed.

Lemma delete_spec id m :
  fst (LocationMap.delete id m)
  = match LocationMap.get id m with Some _ => true | None => false end /\
  (LocationMap.get id m = None -> snd (LocationMap.delete id m) = m) /\
  (forall other, String.eqb other id = false ->
                 LocationMap.get other (snd (LocationMap.delete id m))
                 = LocationMap.get other m) /\
  (NoDup (LocationMap.keys m) ->
   LocationMap.get id (snd (LocationMap.delete id m)) = None /\
   NoDup (LocationMap.keys (snd (LocationMap.delete id m)))) /\
  incl (LocationMap.keys (snd (LocationMap.delete id m))) (LocationMap.keys m).
Proof.
  unfold LocationMap.keys.
  induction m as [|[k v] m IH];
    cbn [LocationMap.delete LocationMap.get map fst snd].
  - split; [reflexivity|]. split; [reflexivity|]. split; [reflexivity|].
    split; [intros _; split; [reflexivity | constructor]|].
    intros x Hx. exact Hx.
  - destruct IH as (Hfst & Hnone & Hother & Hnodup & Hincl).
    destruct (String.eqb k id) eqn:E.
    + apply String.eqb_eq in E. subst k. cbn [fst snd].
      split; [reflexivity|]. split; [discriminate|].
      split.
      { intros other Hne. cbn [LocationMap.get].
        rewrite String.eqb_sym, Hne. reflexivity. }
      split.
      { intros Hnd. inversion Hnd; subst.
        split; [apply (proj2 (get_none_keys id m)) | ]; assumption. }
      intros x Hx. right. exact Hx.
    + destruct (LocationMap.delete id m) as [found rest].
      cbn [fst snd] in *.
      split; [exact Hfst|].
      split. { intros H. rewrite (Hnone H). reflexivity. }
      split.
      { intros other Hne. cbn [LocationMap.get].
        destruct (String.eqb k other); [reflexivity|]. apply Hother, Hne. }
      split.
      { intros Hnd. inversion Hnd as [|? ? Hk Hnd']; subst.
        destruct (Hnodup Hnd') as [Hg Hn]. split.
        - cbn [LocationMap.get]. rewrite E. exact Hg.
        - cbn [map fst]. constructor; [|exact Hn].
          intros Hin. apply Hk. apply Hincl. exact Hin. }
      cbn [map fst].
      intros x [Hx|Hx]; [left; exact Hx | right; apply Hincl; exact Hx].
Qed.

(** X4. [deleteDmvLocation] answers [true] exactly when the id was
    stored; a missing id leaves the map as it was; afterwards the id
    reads as absent and every other id reads as before, the keys staying
    distinct. *)
Theorem deleteDmvLocation_result (id : string) (m : LocationMap.t) :
  NoDup (LocationMap.keys m) ->
  let answer := fst (LocationMap.deleteDmvLocation id m) in
  let m' := snd (LocationMap.deleteDmvLocation id m) in
  answer = match LocationMap.getDmvLocation id m with
           | Some _ => true
           | None => false
           end /\
  (LocationMap.getDmvLocation id m = None -> m' = m) /\
  LocationMap.getDmvLocation id m' = None /\
  NoDup (LocationMap.keys m') /\
  (forall other, String.eqb other id = false ->
                 LocationMap.getDmvLocation other m'
                 = LocationMap.getDmvLocation other m).
Proof.
  intros Hnodup. cbv zeta.
  unfold LocationMap.deleteDmvLocation, LocationMap.getDmvLocation.
  destruct (delete_spec id m) as (Hfst & Hnone & Hother & Hafter & _).
  destruct (Hafter Hnodup) as [Hgone Hnd].
  repeat split; assumption.
Qed.

Lemma deleteDmvLocation_result_witness :
  let m := [("loc-1", Sample.henderson); ("loc-2", Sample.flamingo)] in
  let answer := fst (LocationMap.deleteDmvLocation "loc-1" m) in
  let m' := snd (LocationMap.deleteDmvLocation "loc-1" m) in
  answer = match LocationMap.getDmvLocation "loc-1" m with
           | Some _ => true
           | None => false
           end /\
  (LocationMap.getDmvLocation "loc-1" m = None -> m' = m) /\
  LocationMap.getDmvLocation "loc-1" m' = None /\
  NoDup (LocationMap.keys m') /\
  (forall other, String.eqb other "loc-1" = false ->
                 LocationMap.getDmvLocation other m'
                 = LocationMap.getDmvLocation other m).
Proof.
  apply (@deleteDmvLocation_result
           "loc-1" [("loc-1", Sample.henderson); ("loc-2", Sample.flamingo)]).
  repeat constructor; cbn; intuition discriminate.
Defined.

(** ** Properties of the activity log's listing *)

Definition newerFirst (a b : ActivityLog) : Prop :=
  log_createdAt b <= log_createdAt a.

Lemma insertNewestFirst_perm x l :
  Permutation (x :: l) (ActivityLogs.insertNewestFirst x l).
Proof.
  induction l as [|y l IH]; cbn; [reflexivity|].
  destruct (log_createdAt x <=? log_createdAt y); [|reflexivity].
  rewrite perm_swap. constructor. exact IH.
Qed.

Lemma insertNewestFirst_sorted x l :
  StronglySorted newerFirst l ->
  StronglySorted newerFirst (ActivityLogs.insertNewestFirst x l).
Proof.
  induction 1 as [|y l Hs IH Hy]; cbn.
  - repeat constructor.
  - destruct (log_createdAt x <=? log_createdAt y) eqn:E.
    + constructor; [exact IH|].
      apply Z.leb_le in E.
      eapply Permutation_Forall; [apply insertNewestFirst_perm|].
      constructor; assumption.
    + apply Z.leb_gt in E. constructor; [constructor; assumption|].
      constructor; [unfold newerFirst; lia|].
      eapply Forall_impl; [|exact Hy]. unfold newerFirst. intros; lia.
Qed.

Lemma sortNewestFirst_fold acc l :
  let r := fold_left (fun sorted x => ActivityLogs.insertNewestFirst x sorted) l acc in
  Permutation (acc ++ l) r /\
  (StronglySorted newerFirst acc -> StronglySorted newerFirst r).
Proof.
  cbv zeta. revert acc. induction l as [|x l IH]; intros acc; cbn [fold_left].
  - rewrite app_nil_r. split; auto.
  - destruct (IH (ActivityLogs.insertNewestFirst x acc)) as (Hp & Hs). split.
    + eapply Permutation_trans; [|exact Hp].
      eapply Permutation_trans; [symmetry; apply Permutation_middle|].
      apply (Permutation_app_tail l (insertNewestFirst_perm x acc)).
    + intros Hacc. apply Hs. apply insertNewestFirst_sorted. exact Hacc.
Qed.

Lemma StronglySorted_app_inv {A} (R : A -> A -> Prop) (l1 l2 : list A) :
  StronglySorted R (l1 ++ l2) ->
  StronglySorted R l1 /\ Forall (fun a => Forall (R a) l2) l1.
Proof.
  induction l1 as [|a l1 IH]; cbn; intros H.
  - split; constructor.
  - inversion H as [|? ? Hs Ha]; subst. destruct (IH Hs) as [Hs1 Hall].
    apply Forall_app in Ha as [Ha1 Ha2].
    split; constructor; assumption.
Qed.

(** X5. [getActivityLogs(limit)] answers entries of the log, newest
    first, and they are the newest ones: the log is the answer together
    with entries none of which is newer than any answered one.  For
    [limit >= 0] it answers [min(limit, size)] entries (none for 0); a
    negative [limit] is not rejected: it drops that many of the oldest
    entries instead. *)
Theorem getActivityLogs_newest_first_bounded
        (limit : Z) (entries : list ActivityLog) :
  let answer := ActivityLogs.getActivityLogs limit entries in
  StronglySorted newerFirst answer /\
  (exists older,
      Permutation entries (answer ++ older) /\
      Forall (fun kept => Forall (newerFirst kept) older) answer) /\
  (0 <= limit ->
   List.length answer = Nat.min (Z.to_nat limit) (List.length entries)) /\
  (limit < 0 ->
   List.length answer = (List.length entries - Z.to_nat (- limit))%nat).
Proof.
  cbv zeta. unfold ActivityLogs.getActivityLogs, ActivityLogs.sortNewestFirst.
  destruct (sortNewestFirst_fold [] entries) as (Hp & Hs). cbn [app] in Hp.
  specialize (Hs (SSorted_nil _)).
  set (sorted := fold_left _ entries []) in *.
  assert (Hlen : List.length sorted = List.length entries).
  { symmetry. apply Permutation_length. exact Hp. }
  unfold ActivityLogs.sliceFromStart. rewrite Hlen.
  set (n := if limit <? 0
            then Z.to_nat (Z.of_nat (List.length entries) + limit)
            else Z.to_nat limit).
  assert (Hn : (if limit <? 0
                then firstn (Z.to_nat (Z.of_nat (List.length entries) + limit)) sorted
                else firstn (Z.to_nat limit) sorted) = firstn n sorted).
  { subst n. destruct (limit <? 0); reflexivity. }
  rewrite Hn.
  pose proof (firstn_skipn n sorted) as Hsplit.
  rewrite <- Hsplit in Hs. apply StronglySorted_app_inv in Hs as [Hs1 Hs2].
  split; [exact Hs1|]. split.
  - exists (skipn n sorted). split; [|exact Hs2]. rewrite Hsplit. exact Hp.
  - rewrite length_firstn, Hlen. subst n. split; intros Hl.
    + replace (limit <? 0) with false by (symmetry; apply Z.ltb_ge; lia).
      reflexivity.
    + replace (limit <? 0) with true by (symmetry; apply Z.ltb_lt; lia). lia.
Qed.

(** ** Sample data for the scheduler's edge cases *)

Module Scenario.

Definition disabledSettings : MonitoringSettings :=
  {| checkInterval := 300; daysAhead := 5;
     businessDaysOnly := true; isEnabled := false |}.

Definition withSettings (s : option MonitoringSettings) (w : World) : World :=
  setStorage
    {| dmvLocations := dmvLocations (storage w);
       emailConfig := emailConfig (storage w);
       monitoringSettings := s;
       activityLogs := activityLogs (storage w);
       monitoringStats := monitoringStats (storage w) |} w.

(** As [Sample.calm], but node-cron refuses every expression. *)
Definition cronRefuses : Env :=
  {| tz := fixedOffset 0;
     launch := None;
     browserClose := None;
     newPage := None;
     pageClose := None;
     goto := fun _ => None;
     waitForDelay := fun _ => None;
     dom := fun _ => [];
     evalRejects := fun _ _ => None;
     sendMail := fun _ => None;
     twilioClient := fun _ _ => None;
     twilioCreate := fun _ _ _ => None;
     cronSchedule := fun _ => Some (newError "Invalid cron expression") |}.

(** As [Sample.calm], but the mail transport and Twilio both fail. *)
Definition transportsDown (page : list Element) : Env :=
  {| tz := fixedOffset 0;
     launch := None;
     browserClose := None;
     newPage := None;
     pageClose := None;
     goto := fun _ => None;
     waitForDelay := fun _ => None;
     dom := fun _ => page;
     evalRejects := fun _ _ => None;
     sendMail := fun _ => Some (newError "Connection refused");
     twilioClient := fun _ _ => None;
     twilioCreate := fun _ _ _ => Some (newError "Authentication failed");
     cronSchedule := fun _ => None |}.

(** As [Sample.calm], but every page visit times out. *)
Definition allDown : Env :=
  {| tz := fixedOffset 0;
     launch := None;
     browserClose := None;
     newPage := None;
     pageClose := None;
     goto := fun _ => Some (newError "Navigation timeout of 30000 ms exceeded");
     waitForDelay := fun _ => None;
     dom := fun _ => [];
     evalRejects := fun _ _ => None;
     sendMail := fun _ => None;
     twilioClient := fun _ _ => None;
     twilioCreate := fun _ _ _ => None;
     cronSchedule := fun _ => None |}.

(** As [Sample.calm], but the browser cannot be closed. *)
Definition closeFails : Env :=
  {| tz := fixedOffset 0;
     launch := None;
     browserClose := Some (newError "Protocol error: Target closed");
     newPage := None;
     pageClose := None;
     goto := fun _ => None;
     waitForDelay := fun _ => None;
     dom := fun _ => [];
     evalRejects := fun _ _ => None;
     sendMail := fun _ => None;
     twilioClient := fun _ _ => None;
     twilioCreate := fun _ _ _ => None;
     cronSchedule := fun _ => None |}.

End Scenario.

(** ** The scheduler's transitions *)

(** The cron expression [startMonitoring] builds from the settings. *)
Definition cronExpressionOf (settings : MonitoringSettings) : string :=
  "*/" +++ showZ (checkInterval settings / 60) +++ " * * * *".

(** The stored settings do not allow monitoring: none, or not enabled. *)
Definition monitoringDisabled (w : World) : Prop :=
  match monitoringSettings (storage w) with
  | Some settings => isEnabled settings = false
  | None => True
  end.

(** X6. [startMonitoring] on a scheduler that is not running, when the
    settings are missing or not enabled, throws
    "Monitoring is not enabled" and changes nothing: the scheduler stays
    stopped, no task is scheduled and no activity entry is written; the
    start route answers 400 with that message. *)
Theorem startMonitoring_not_enabled (env : Env) (w : World) :
  isRunning (monitoringService w) = false ->
  monitoringDisabled w ->
  MonitoringService.startMonitoring env w
    = (Throw (newError "Monitoring is not enabled"), w) /\
  Routes.start env w
    = ({| Routes.status := 400; Routes.message := "Monitoring is not enabled" |},
       w).
Proof.
  intros Hrun Hdis. unfold monitoringDisabled in Hdis.
  assert (H : MonitoringService.startMonitoring env w
              = (Throw (newError "Monitoring is not enabled"), w)).
  { unfold MonitoringService.startMonitoring, bind, getWorld,
      Storage.getMonitoringSettings.
    rewrite Hrun.
    destruct (monitoringSettings (storage w)) as [settings|]; [|reflexivity].
    rewrite Hdis. reflexivity. }
  split; [exact H|]. unfold Routes.start. rewrite H. reflexivity.
Qed.

Lemma startMonitoring_not_enabled_witness :
  let env := Sample.calm [] in
  let w := Scenario.withSettings (Some Scenario.disabledSettings)
                                 (Sample.stopped None) in
  MonitoringService.startMonitoring env w
    = (Throw (newError "Monitoring is not enabled"), w) /\
  Routes.start env w
    = ({| Routes.status := 400; Routes.message := "Monitoring is not enabled" |},
       w).
Proof.
  apply (@startMonitoring_not_enabled
           (Sample.calm [])
           (Scenario.withSettings (Some Scenario.disabledSettings)
                                  (Sample.stopped None))).
  - reflexivity.
  - reflexivity.
Defined.

(** X7. [startMonitoring] on a stopped scheduler with enabled settings,
    when node-cron accepts the expression: the scheduler is running on
    the expression [*/m * * * *] with [m] the check interval in whole
    minutes (seconds divided by 60, rounded down), the session starts
    now, one [monitoring_started] entry is appended, and [getStatus]
    reads running with zero uptime. *)
Theorem startMonitoring_starts
        (env : Env) (w : World) (settings : MonitoringSettings) :
  isRunning (monitoringService w) = false ->
  task (monitoringService w) = None ->
  monitoringSettings (storage w) = Some settings ->
  isEnabled settings = true ->
  cronSchedule env (cronExpressionOf settings) = None ->
  exists w',
    MonitoringService.startMonitoring env w = (Ok tt, w') /\
    monitoringService w' =
      {| task := Some (cronExpressionOf settings);
         isRunning := true;
         startTime := Some (clock w) |} /\
    logs w' = logs w ++ [stamp (clock w)
                           (MonitoringService.startedLog (checkInterval settings / 60))] /\
    trace w' = trace w ++
               [CronSchedule (cronExpressionOf settings); CronStart;
                ConsoleLog ("DMV monitoring started with " +++
                            showZ (checkInterval settings / 60) +++
                            " minute intervals")] /\
    MonitoringService.getStatus w' = (true, Some (clock w), 0).
Proof.
  intros Hrun Htask Hsettings Henabled Hcron.
  destruct w as [st br [tk run t0] ck tr]. cbn in Hrun, Htask, Hsettings. subst.
  unfold cronExpressionOf in *.
  eexists. split.
  - cbv beta iota zeta delta
        [MonitoringService.startMonitoring bind getWorld
         Storage.getMonitoringSettings storage monitoringService isRunning task].
    rewrite Hsettings, Henabled.
    cbv beta iota zeta delta [ret emit modify external addEvent trace].
    rewrite Hcron. reflexivity.
  - unfold logs, MonitoringService.getStatus. cbn.
    rewrite <- !app_assoc, Z.sub_diag. cbn. repeat split; reflexivity.
Qed.

Lemma startMonitoring_starts_witness :
  let env := Sample.calm [] in
  let w := Sample.stopped None in
  exists w',
    MonitoringService.startMonitoring env w = (Ok tt, w') /\
    monitoringService w' =
      {| task := Some (cronExpressionOf Sample.settings);
         isRunning := true;
         startTime := Some (clock w) |} /\
    logs w' = logs w ++ [stamp (clock w)
                           (MonitoringService.startedLog
                              (checkInterval Sample.settings / 60))] /\
    trace w' = trace w ++
               [CronSchedule (cronExpressionOf Sample.settings); CronStart;
                ConsoleLog ("DMV monitoring started with " +++
                            showZ (checkInterval Sample.settings / 60) +++
                            " minute intervals")] /\
    MonitoringService.getStatus w' = (true, Some (clock w), 0).
Proof.
  apply (@startMonitoring_starts (Sample.calm []) (Sample.stopped None)
                                 Sample.settings); reflexivity.
Defined.

(** X8. When [cron.schedule] throws (the expression is built without
    validation: an interval under 60 seconds gives [*/0]),
    [startMonitoring] throws the same error and the scheduler is left as
    it was -- not running, no start time set -- with no activity entry
    written. *)
Theorem startMonitoring_cron_refuses
        (env : Env) (w : World) (settings : MonitoringSettings) (e : Thrown) :
  isRunning (monitoringService w) = false ->
  monitoringSettings (storage w) = Some settings ->
  isEnabled settings = true ->
  cronSchedule env (cronExpressionOf settings) = Some e ->
  exists w',
    MonitoringService.startMonitoring env w = (Throw e, w') /\
    monitoringService w' = monitoringService w /\
    storage w' = storage w /\
    MonitoringService.getStatus w' = MonitoringService.getStatus w.
Proof.
  intros Hrun Hsettings Henabled Hcron.
  destruct w as [st br [tk run t0] ck tr]. cbn in Hrun, Hsettings. subst.
  unfold cronExpressionOf in *.
  destruct tk; (eexists; split;
    [ cbv beta iota zeta delta
          [MonitoringService.startMonitoring bind getWorld
           Storage.getMonitoringSettings storage monitoringService isRunning task];
      rewrite Hsettings, Henabled;
      cbv beta iota zeta delta [ret emit modify external addEvent trace];
      rewrite Hcron; reflexivity
    | repeat split; reflexivity ]).
Qed.

Lemma startMonitoring_cron_refuses_witness :
  let env := Scenario.cronRefuses in
  let w := Scenario.withSettings
             (Some {| checkInterval := 30; daysAhead := 5;
                      businessDaysOnly := true; isEnabled := true |})
             (Sample.stopped None) in
  exists w',
    MonitoringService.startMonitoring env w
      = (Throw (newError "Invalid cron expression"), w') /\
    monitoringService w' = monitoringService w /\
    storage w' = storage w /\
    MonitoringService.getStatus w' = MonitoringService.getStatus w.
Proof.
  apply (@startMonitoring_cron_refuses
           Scenario.cronRefuses
           (Scenario.withSettings
              (Some {| checkInterval := 30; daysAhead := 5;
                       businessDaysOnly := true; isEnabled := true |})
              (Sample.stopped None))
           {| checkInterval := 30; daysAhead := 5;
              businessDaysOnly := true; isEnabled := true |}
           (newError "Invalid cron expression")); reflexivity.
Defined.

(** X9. [stopMonitoring] never throws and always leaves the scheduler
    stopped with no task, stopping the cron task if there was one and
    appending one [monitoring_stopped] entry.  It never clears the
    session start time: after a stop [getStatus] reads not running, yet
    still reports the old start time and an uptime counted from it. *)
Theorem stopMonitoring_stops_keeps_startTime (w : World) :
  exists w',
    MonitoringService.stopMonitoring w = (Ok tt, w') /\
    task (monitoringService w') = None /\
    isRunning (monitoringService w') = false /\
    startTime (monitoringService w') = startTime (monitoringService w) /\
    logs w' = logs w ++ [stamp (clock w) MonitoringService.stoppedLog] /\
    trace w' = trace w ++
               (match task (monitoringService w) with
                | Some _ => [CronStop]
                | None => []
                end) ++ [ConsoleLog "DMV monitoring stopped"] /\
    MonitoringService.getStatus w' =
      (false, startTime (monitoringService w),
       snd (MonitoringService.getStatus w)).
Proof.
  destruct w as [st br [tk run t0] ck tr].
  destruct tk; (eexists; split; [reflexivity|]);
    unfold logs, MonitoringService.getStatus; cbn;
    rewrite <- ?app_assoc; repeat split; reflexivity.
Qed.

(** X10. [updateSettings] while the scheduler runs and the stored
    settings are enabled (node-cron accepting the new expression)
    restarts it: the old task is stopped, a task on the new interval is
    started, the session start time is reset to now, and the log gains a
    [monitoring_stopped] and then a [monitoring_started] entry. *)
Theorem updateSettings_restarts
        (env : Env) (w : World) (settings : MonitoringSettings) :
  isRunning (monitoringService w) = true ->
  monitoringSettings (storage w) = Some settings ->
  isEnabled settings = true ->
  cronSchedule env (cronExpressionOf settings) = None ->
  exists w',
    MonitoringService.updateSettings env w = (Ok tt, w') /\
    monitoringService w' =
      {| task := Some (cronExpressionOf settings);
         isRunning := true;
         startTime := Some (clock w) |} /\
    logs w' =
      logs w ++
      [stamp (clock w) MonitoringService.stoppedLog;
       stamp (clock w)
         (MonitoringService.startedLog (checkInterval settings / 60))] /\
    filter (fun ev => match ev with
                      | CronStop | CronStart | CronSchedule _ => true
                      | _ => false
                      end) (trace w')
    = filter (fun ev => match ev with
                        | CronStop | CronStart | CronSchedule _ => true
                        | _ => false
                        end) (trace w)
      ++ (match task (monitoringService w) with
          | Some _ => [CronStop]
          | None => []
          end)
      ++ [CronSchedule (cronExpressionOf settings); CronStart].
Proof.
  intros Hrun Hsettings Henabled Hcron.
  destruct w as [st br [tk run t0] ck tr]. cbn in Hrun, Hsettings. subst.
  unfold cronExpressionOf in *.
  destruct tk; (eexists; split;
    [ cbv beta iota zeta delta
          [MonitoringService.updateSettings MonitoringService.stopMonitoring
           MonitoringService.startMonitoring bind getWorld
           Storage.getMonitoringSettings Storage.createActivityLog
           consoleLog emit modify ret
           MonitoringService.setTask MonitoringService.setIsRunning
           setMonitoringService setStorage addEvent Storage.appendLog
           storage monitoringService isRunning task startTime clock trace];
      cbn [monitoringSettings];
      rewrite Hsettings, Henabled;
      cbv beta iota zeta delta [external addEvent trace];
      rewrite Hcron; reflexivity
    | unfold logs; cbn;
      rewrite ?filter_app, <- ?app_assoc; cbn; repeat split; reflexivity ]).
Qed.

Lemma updateSettings_restarts_witness :
  let env := Sample.calm [] in
  let w := Sample.running None in
  exists w',
    MonitoringService.updateSettings env w = (Ok tt, w') /\
    monitoringService w' =
      {| task := Some (cronExpressionOf Sample.settings);
         isRunning := true;
         startTime := Some (clock w) |} /\
    logs w' =
      logs w ++
      [stamp (clock w) MonitoringService.stoppedLog;
       stamp (clock w)
         (MonitoringService.startedLog (checkInterval Sample.settings / 60))] /\
    filter (fun ev => match ev with
                      | CronStop | CronStart | CronSchedule _ => true
                      | _ => false
                      end) (trace w')
    = filter (fun ev => match ev with
                        | CronStop | CronStart | CronSchedule _ => true
                        | _ => false
                        end) (trace w)
      ++ (match task (monitoringService w) with
          | Some _ => [CronStop]
          | None => []
          end)
      ++ [CronSchedule (cronExpressionOf Sample.settings); CronStart].
Proof.
  apply (@updateSettings_restarts (Sample.calm []) (Sample.running None)
                                  Sample.settings); reflexivity.
Defined.

(** X11. [updateSettings] while the scheduler runs and the stored
    settings are missing or no longer enabled stops the scheduler and
    then throws "Monitoring is not enabled": the scheduler ends stopped
    with no task, and the log gains a [monitoring_stopped] entry and no
    [monitoring_started] one.  On a scheduler that is not running it
    does nothing at all. *)
Theorem updateSettings_disabled_stops_and_throws (env : Env) (w : World) :
  isRunning (monitoringService w) = true ->
  monitoringDisabled w ->
  (forall idle, isRunning (monitoringService idle) = false ->
                MonitoringService.updateSettings env idle = (Ok tt, idle)) /\
  exists w',
    MonitoringService.updateSettings env w
      = (Throw (newError "Monitoring is not enabled"), w') /\
    isRunning (monitoringService w') = false /\
    task (monitoringService w') = None /\
    logs w' = logs w ++ [stamp (clock w) MonitoringService.stoppedLog].
Proof.
  intros Hrun Hdis. split.
  { intros idle Hidle. unfold MonitoringService.updateSettings, bind, getWorld.
    rewrite Hidle. reflexivity. }
  unfold monitoringDisabled in Hdis.
  destruct w as [st br [tk run t0] ck tr]. cbn in Hrun, Hdis. subst.
  destruct (monitoringSettings st) as [settings|] eqn:Hsettings; destruct tk;
    (eexists; split;
     [ cbv beta iota zeta delta
           [MonitoringService.updateSettings MonitoringService.stopMonitoring
            MonitoringService.startMonitoring bind getWorld
            Storage.getMonitoringSettings Storage.createActivityLog
            consoleLog emit modify ret throw
            MonitoringService.setTask MonitoringService.setIsRunning
            setMonitoringService setStorage addEvent Storage.appendLog
            storage monitoringService isRunning task startTime clock trace];
       cbn [monitoringSettings];
       rewrite Hsettings, ?Hdis; reflexivity
     | repeat split; reflexivity ]).
Qed.

Lemma updateSettings_disabled_stops_and_throws_witness :
  let env := Sample.calm [] in
  let w := Scenario.withSettings (Some Scenario.disabledSettings)
                                 (Sample.running None) in
  (forall idle, isRunning (monitoringService idle) = false ->
                MonitoringService.updateSettings env idle = (Ok tt, idle)) /\
  exists w',
    MonitoringService.updateSettings env w
      = (Throw (newError "Monitoring is not enabled"), w') /\
    isRunning (monitoringService w') = false /\
    task (monitoringService w') = None /\
    logs w' = logs w ++ [stamp (clock w) MonitoringService.stoppedLog].
Proof.
  apply (@updateSettings_disabled_stops_and_throws
           (Sample.calm [])
           (Scenario.withSettings (Some Scenario.disabledSettings)
                                  (Sample.running None))); reflexivity.
Defined.

(** ** The channels' own bookkeeping *)

Lemma storage_addEvent e w :
  anyEvent e = true -> storage (addEvent e w) = storage w.
Proof. reflexivity. Qed.

Lemma sendTestEmail_keeps_storage env :
  keeps storage (EmailService.sendTestEmail env).
Proof. unfold EmailService.sendTestEmail. keeps_auto storage_addEvent. Qed.

Lemma sendTestSms_keeps_storage env :
  keeps storage (SmsService.sendTestSms env).
Proof.
  unfold SmsService.sendTestSms, SmsService.messagesCreate.
  repeat first [apply twilio_keeps | keeps_step storage_addEvent].
Qed.

(** X12. [sendTestNotifications] never throws, whatever the two
    transports do, and leaves the storage as it was (no activity entry,
    no statistics).  It answers, per channel, whether the test send
    returned; the SMS flag is [false] whenever SMS is not configured and
    the email flag is [false] without an email configuration.  The test
    route answers 400 "No notification methods are configured" exactly
    when both flags are [false], and 200 otherwise -- never 500. *)
Theorem sendTestNotifications_never_throws (env : Env) (w : World) :
  exists email sms w',
    NotificationService.sendTestNotifications env w = (Ok (email, sms), w') /\
    storage w' = storage w /\
    email = isOk (fst (EmailService.sendTestEmail env w)) /\
    (emailConfig (storage w) = None -> email = false) /\
    (smsUnconfigured (emailConfig (storage w)) -> sms = false) /\
    Routes.status (fst (Routes.testNotifications env w))
      = (if email || sms then 200 else 400) /\
    (email || sms = false ->
     Routes.message (fst (Routes.testNotifications env w))
       = "No notification methods are configured").
Proof.
  pose proof (sendTestEmail_keeps_storage env w) as Hst1.
  assert (Hnone : emailConfig (storage w) = None ->
                  isOk (fst (EmailService.sendTestEmail env w)) = false).
  { intros H. unfold EmailService.sendTestEmail, bind, Storage.getEmailConfig.
    rewrite H. reflexivity. }
  destruct (EmailService.sendTestEmail env w) as [rE w1] eqn:He.
  cbn [fst snd] in *.
  set (w1' := match rE with
              | Ok _ => w1
              | Throw e => addEvent (ConsoleError "Email test failed:" e) w1
              end).
  assert (Hst1' : storage w1' = storage w).
  { subst w1'. destruct rE; exact Hst1. }
  pose proof (sendTestSms_keeps_storage env w1') as Hst2.
  assert (Hsms : smsUnconfigured (emailConfig (storage w)) ->
                 isOk (fst (SmsService.sendTestSms env w1')) = false).
  { intros H. rewrite <- Hst1' in H. apply notConfigured_iff in H.
    unfold SmsService.sendTestSms, bind, Storage.getEmailConfig.
    rewrite H. reflexivity. }
  destruct (SmsService.sendTestSms env w1') as [rS w2] eqn:Hs.
  cbn [fst snd] in *.
  set (w2' := match rS with
              | Ok _ => w2
              | Throw e => addEvent (ConsoleError "SMS test failed:" e) w2
              end).
  assert (Hrun : NotificationService.sendTestNotifications env w
                 = (Ok (isOk rE, isOk rS), w2')).
  { unfold NotificationService.sendTestNotifications.
    set (testEmail := EmailService.sendTestEmail env) in *.
    set (testSms := SmsService.sendTestSms env) in *.
    clearbody testEmail testSms.
    unfold bind, tryCatch, consoleError, emit, modify, ret.
    rewrite He. subst w1' w2'.
    destruct rE as [[]|eE]; cbn beta iota in *; rewrite Hs;
      destruct rS as [[]|eS]; reflexivity. }
  exists (isOk rE), (isOk rS), w2'.
  split; [exact Hrun|].
  split. { subst w2'. destruct rS; cbn; congruence. }
  split; [reflexivity|].
  split; [exact Hnone|].
  split; [exact Hsms|].
  unfold Routes.testNotifications. rewrite Hrun.
  destruct (isOk rE), (isOk rS); cbn; split; (reflexivity || discriminate).
Qed.

(** The mail [EmailService.sendAppointmentNotification] hands to the
    transport. *)
Definition notificationMail (cfg : EmailConfig) (slots : list AppointmentSlot)
  : MailOptions :=
  {| mail_from := EmailService.mailFrom cfg;
     mail_to := notificationEmail cfg;
     mail_subject := EmailService.subject slots;
     mail_text := EmailService.body slots |}.

Lemma mergeStats_same st new :
  smsSent new = smsSent st ->
  Storage.mergeStats (Some st) new = new.
Proof.
  intros H. unfold Storage.mergeStats. destruct new as [a b c d e f].
  cbn in *. subst d. destruct (smsSent st); reflexivity.
Qed.

(** How the email send ends, by what the transport answers. *)
Lemma email_send_run env slots w cfg :
  emailConfig (storage w) = Some cfg ->
  let sent := addEvent (SendMail (smtpServer cfg) (smtpPort cfg)
                                 (notificationMail cfg slots)) w in
  EmailService.sendAppointmentNotification env slots w =
    match sendMail env (notificationMail cfg slots) with
    | Some e => (Throw e, sent)
    | None =>
        (Ok tt,
         match stats w with
         | Some st =>
             setStorage
               (Storage.putStats (withEmailsSent (emailsSent st + 1) st)
                                 (storage sent)) sent
         | None => sent
         end)
    end.
Proof.
  intros Hcfg. cbv zeta.
  cbv beta iota zeta delta
      [EmailService.sendAppointmentNotification bind throw ret external
       Storage.getEmailConfig Storage.getMonitoringStats
       Storage.upsertMonitoringStats notificationMail].
  rewrite Hcfg.
  destruct (sendMail env _); [reflexivity|].
  unfold stats. cbn [storage addEvent].
  destruct (monitoringStats (storage w)) as [st|] eqn:Hst; [|reflexivity].
  rewrite !storage_addEvent by reflexivity.
  rewrite Hst, mergeStats_same by reflexivity. reflexivity.
Qed.

(** X13. The email channel counts what it sends.  Without an email
    configuration [sendAppointmentNotification] throws
    "Email configuration not found" and does nothing.  With one it hands
    the transport exactly one mail, addressed to the notification
    address; when the transport accepts it [emailsSent] goes up by one
    and every other counter stays, and when the transport throws the
    same error is thrown on and the statistics stay as they were. *)
Theorem email_send_counts_deliveries
        (env : Env) (slots : list AppointmentSlot) (w : World) :
  (emailConfig (storage w) = None ->
   EmailService.sendAppointmentNotification env slots w
     = (Throw (newError "Email configuration not found"), w)) /\
  (forall cfg,
      emailConfig (storage w) = Some cfg ->
      exists w',
        EmailService.sendAppointmentNotification env slots w
          = (match sendMail env (notificationMail cfg slots) with
             | Some e => Throw e
             | None => Ok tt
             end, w') /\
        trace w' = trace w ++ [SendMail (smtpServer cfg) (smtpPort cfg)
                                        (notificationMail cfg slots)] /\
        mail_to (notificationMail cfg slots) = notificationEmail cfg /\
        logs w' = logs w /\
        stats w' =
          match sendMail env (notificationMail cfg slots) with
          | Some _ => stats w
          | None => option_map (fun st => withEmailsSent (emailsSent st + 1) st)
                               (stats w)
          end).
Proof.
  split.
  - intros Hnone.
    unfold EmailService.sendAppointmentNotification, bind, Storage.getEmailConfig.
    rewrite Hnone. reflexivity.
  - intros cfg Hcfg. rewrite (@email_send_run env slots w cfg Hcfg). cbv zeta.
    destruct (sendMail env (notificationMail cfg slots)) as [e|].
    + eexists. split; [reflexivity|]. repeat split; reflexivity.
    + eexists. split; [reflexivity|].
      unfold stats, logs.
      destruct (monitoringStats (storage w)) as [st|] eqn:Hst;
        cbn; rewrite ?Hst; repeat split; reflexivity.
Qed.

(** X14. The SMS channel, once configured, counts what it sends.  When
    Twilio accepts the message [sendAppointmentNotification] returns and
    [smsSent] goes up by one (from nothing to 1 the first time), the
    other counters staying; when Twilio refuses it, the same error is
    thrown on and the statistics stay as they were.  Either way exactly
    one message is handed to Twilio, from the configured Twilio number
    to the recipient's number. *)
Theorem sms_send_counts_deliveries
        (env : Env) (slots : list AppointmentSlot) (w : World) (cfg : EmailConfig) :
  emailConfig (storage w) = Some cfg ->
  SmsService.notConfigured (Some cfg) = false ->
  twilioClient env (SmsService.valueOf (twilioAccountSid cfg))
               (SmsService.valueOf (twilioAuthToken cfg)) = None ->
  let answer := twilioCreate env (SmsService.buildSmsMessage slots)
                             (SmsService.valueOf (twilioPhoneNumber cfg))
                             (SmsService.valueOf (phoneNumber cfg)) in
  exists w',
    SmsService.sendAppointmentNotification env slots w
      = (match answer with Some e => Throw e | None => Ok tt end, w') /\
    smsCalls w' =
      smsCalls w ++
      [TwilioCreate (SmsService.valueOf (twilioAccountSid cfg))
                    (SmsService.buildSmsMessage slots)
                    (SmsService.valueOf (twilioPhoneNumber cfg))
                    (SmsService.valueOf (phoneNumber cfg))] /\
    logs w' = logs w /\
    stats w' =
      match answer with
      | Some _ => stats w
      | None =>
          option_map
            (fun st =>
               withSmsSent (match smsSent st with Some n => n | None => 0 end + 1)
                           st)
            (stats w)
      end.
Proof.
  intros Hcfg Hconf Hclient. cbv zeta.
  cbv beta iota zeta delta
      [SmsService.sendAppointmentNotification SmsService.messagesCreate
       SmsService.twilio bind tryCatch throw ret external
       consoleLog consoleError emit modify
       Storage.getEmailConfig Storage.getMonitoringStats
       Storage.upsertMonitoringStats].
  rewrite Hcfg, Hconf, Hclient.
  destruct (twilioCreate env _ _ _) as [e|].
  - eexists. split; [reflexivity|]. unfold smsCalls, logs, stats. cbn.
    rewrite !filter_app. cbn. rewrite app_nil_r. repeat split; reflexivity.
  - cbn [storage addEvent].
    destruct (monitoringStats (storage w)) as [st|] eqn:Hst.
    + eexists. split; [reflexivity|]. unfold smsCalls, logs, stats. cbn.
      rewrite !filter_app, Hst. cbn. rewrite app_nil_r.
      repeat split; try reflexivity.
    + eexists. split; [reflexivity|]. unfold smsCalls, logs, stats. cbn.
      rewrite !filter_app, Hst. cbn. rewrite app_nil_r.
      repeat split; reflexivity.
Qed.

Lemma sms_send_counts_deliveries_witness :
  let env := Sample.calm [] in
  let w := Sample.stopped (Some Sample.fullConfig) in
  let cfg := Sample.fullConfig in
  let slots : list AppointmentSlot := [] in
  let answer := twilioCreate env (SmsService.buildSmsMessage slots)
                             (SmsService.valueOf (twilioPhoneNumber cfg))
                             (SmsService.valueOf (phoneNumber cfg)) in
  exists w',
    SmsService.sendAppointmentNotification env slots w
      = (match answer with Some e => Throw e | None => Ok tt end, w') /\
    smsCalls w' =
      smsCalls w ++
      [TwilioCreate (SmsService.valueOf (twilioAccountSid cfg))
                    (SmsService.buildSmsMessage slots)
                    (SmsService.valueOf (twilioPhoneNumber cfg))
                    (SmsService.valueOf (phoneNumber cfg))] /\
    logs w' = logs w /\
    stats w' =
      match answer with
      | Some _ => stats w
      | None =>
          option_map
            (fun st =>
               withSmsSent (match smsSent st with Some n => n | None => 0 end + 1)
                           st)
            (stats w)
      end.
Proof.
  apply (@sms_send_counts_deliveries
           (Sample.calm []) [] (Sample.stopped (Some Sample.fullConfig))
           Sample.fullConfig); reflexivity.
Defined.

(** ** What a cycle and the checker leave alone *)

(** The scheduler's own state and the configuration a user maintains. *)
Definition configurationOf (w : World)
  : MonitoringServiceState * list DmvLocation * option EmailConfig *
    option MonitoringSettings * Date :=
  (monitoringService w, dmvLocations (storage w), emailConfig (storage w),
   monitoringSettings (storage w), clock w).

Lemma configurationOf_addEvent e w :
  anyEvent e = true -> configurationOf (addEvent e w) = configurationOf w.
Proof. reflexivity. Qed.

Lemma checkAppointments_keeps_configuration env :
  keeps configurationOf (AppointmentChecker.checkAppointments env).
Proof.
  apply checkAppointments_keeps; reflexivity.
Qed.

Lemma performCheck_keeps_configuration env :
  keeps configurationOf (MonitoringService.performCheck env).
Proof.
  unfold MonitoringService.performCheck, MonitoringService.updateStats,
    EmailService.sendAppointmentNotification.
  unfold consoleLog, consoleError.
  repeat first [ apply checkAppointments_keeps_configuration
               | keeps_step configurationOf_addEvent ].
Qed.

(** X15. [checkAppointments], whether it returns or throws, changes
    nothing but the activity log, the browser handle and the trace of
    calls: the locations, both configurations, the statistics and the
    scheduler's state are as before. *)
Theorem checkAppointments_touches_only_log (env : Env) (w : World) :
  let w' := snd (AppointmentChecker.checkAppointments env w) in
  monitoringService w' = monitoringService w /\
  dmvLocations (storage w') = dmvLocations (storage w) /\
  emailConfig (storage w') = emailConfig (storage w) /\
  monitoringSettings (storage w') = monitoringSettings (storage w) /\
  monitoringStats (storage w') = monitoringStats (storage w).
Proof.
  cbv zeta.
  pose proof (checkAppointments_keeps_configuration env w) as Hc.
  pose proof (checkAppointments_keeps_stats env w) as Hs.
  unfold configurationOf, stats in *.
  injection Hc as H1 H2 H3 H4 _. repeat split; assumption.
Qed.

(** The entry a cycle writes last is one of the three a cycle can end
    with. *)
Definition cycleEntry (entry : ActivityLog) : Prop :=
  log_type (log_entry entry) = "appointment_found" \/
  log_type (log_entry entry) = "check_completed" \/
  log_type (log_entry entry) = "error".

(** X16. [performCheck] never throws: whatever the browser, the pages
    and the mail transport do, it returns, so the check-now route always
    answers 200 "Check completed" -- also for a check that failed.  Every
    cycle appends, after whatever the checker logged, exactly one entry
    of its own ([appointment_found], [check_completed] or [error]), and
    leaves the scheduler's state, the locations and both configurations
    as they were. *)
Theorem performCheck_never_throws (env : Env) (w : World) :
  exists w' entry,
    MonitoringService.performCheck env w = (Ok tt, w') /\
    Routes.checkNow env w
      = ({| Routes.status := 200; Routes.message := "Check completed" |}, w') /\
    logs w' = logs (snd (cycleChecker env w)) ++ [entry] /\
    cycleEntry entry /\
    configurationOf w' = configurationOf w.
Proof.
  pose proof (performCheck_keeps_configuration env w) as Hconf.
  assert (Hmain : exists w' entry,
             MonitoringService.performCheck env w = (Ok tt, w') /\
             logs w' = logs (snd (cycleChecker env w)) ++ [entry] /\
             cycleEntry entry).
  { destruct (cycleChecker env w) as [[slots|e] w1] eqn:Hrun; cbn [snd].
    - destruct slots as [|slot slots].
      + rewrite (@performCheck_after_nothing env w w1 Hrun). cbv zeta.
        destruct (updateStats_run 0 w1) as (wS & HrunS & HlogsS & _).
        rewrite HrunS. cbn [snd].
        eexists. eexists. split; [reflexivity|]. split.
        * unfold logs in *. cbn. rewrite HlogsS. reflexivity.
        * right. left. reflexivity.
      + rewrite (@performCheck_after_slots env w (slot :: slots) w1 Hrun)
          by discriminate.
        cbv zeta.
        destruct (updateStats_run (List.length (slot :: slots)) w1)
          as (wS & HrunS & HlogsS & _).
        rewrite HrunS. cbn [snd].
        pose proof (email_keeps_logs env (slot :: slots) wS) as Hl.
        destruct (EmailService.sendAppointmentNotification env (slot :: slots) wS)
          as [[[]|e] w2]; cbn [snd] in Hl;
          (eexists; eexists; split; [reflexivity|]; split;
           [ unfold logs in *; cbn; rewrite Hl, HlogsS; reflexivity | ]).
        * left. reflexivity.
        * right. right. reflexivity.
    - rewrite (@performCheck_after_throw env w e w1 Hrun).
      eexists. eexists. split; [reflexivity|]. split; [reflexivity|].
      right. right. reflexivity. }
  destruct Hmain as (w' & entry & Hrun & Hlogs & Hentry).
  exists w', entry. rewrite Hrun in Hconf. cbn [snd] in Hconf.
  split; [exact Hrun|]. split.
  - unfold Routes.checkNow. rewrite Hrun. reflexivity.
  - repeat split; assumption.
Qed.

Lemma updateStats_keeps_configuration found :
  keeps configurationOf (MonitoringService.updateStats found).
Proof.
  unfold MonitoringService.updateStats. keeps_auto configurationOf_addEvent.
Qed.

(** What the email send does to the statistics: nothing, or one more
    email sent. *)
Lemma email_stats_cases env slots w :
  let w' := snd (EmailService.sendAppointmentNotification env slots w) in
  stats w' = stats w \/
  stats w' = option_map (fun st => withEmailsSent (emailsSent st + 1) st) (stats w).
Proof.
  cbv zeta. destruct (emailConfig (storage w)) as [cfg|] eqn:Hcfg.
  - rewrite (@email_send_run env slots w cfg Hcfg). cbv zeta.
    destruct (sendMail env _); [left; reflexivity|].
    right. unfold stats.
    destruct (monitoringStats (storage w)) as [st|] eqn:Hst; cbn;
      rewrite ?Hst; reflexivity.
  - left. unfold EmailService.sendAppointmentNotification, bind,
      Storage.getEmailConfig. rewrite Hcfg. reflexivity.
Qed.

Lemma stats_after_entry entry ev w :
  stats (addEvent ev (setStorage (Storage.appendLog entry (storage w)) w))
  = stats w.
Proof. reflexivity. Qed.

Lemma stats_after_error entry ev w :
  stats (setStorage (Storage.appendLog entry (storage w)) (addEvent ev w))
  = stats w.
Proof. reflexivity. Qed.

(** The state a cycle's Checker call leaves, seen from the cycle's
    start. *)
Lemma cycleChecker_frame env w :
  let w1 := snd (cycleChecker env w) in
  stats w1 = stats w /\ configurationOf w1 = configurationOf w.
Proof.
  cbv zeta. unfold cycleChecker. split.
  - apply (checkAppointments_keeps_stats env
             (addEvent (ConsoleLog "Performing appointment check...") w)).
  - apply (checkAppointments_keeps_configuration env
             (addEvent (ConsoleLog "Performing appointment check...") w)).
Qed.

(** X17. A cycle whose Checker call returns records what was found
    before it notifies, and a failing notification does not undo it:
    [appointmentsFound] grows by the number of slots, [lastCheckTime]
    becomes now and [uptime] the whole minutes since the session start
    (unchanged without one), however the email call ends.  [emailsSent]
    grows by at most one, and not at all when nothing was found. *)
Theorem cycle_records_found_count
        (env : Env) (w : World) (slots : list AppointmentSlot) (w1 : World)
        (st : MonitoringStats) :
  cycleChecker env w = (Ok slots, w1) ->
  stats w = Some st ->
  exists st',
    stats (snd (MonitoringService.performCheck env w)) = Some st' /\
    appointmentsFound st' = appointmentsFound st + Z.of_nat (List.length slots) /\
    lastCheckTime st' = Some (clock w) /\
    uptime st' = match startTime (monitoringService w) with
                 | Some t0 => (clock w - t0) / 60000
                 | None => uptime st
                 end /\
    emailsSent st <= emailsSent st' <= emailsSent st + 1 /\
    (slots = [] -> emailsSent st' = emailsSent st) /\
    smsSent st' = smsSent st.
Proof.
  intros Hrun Hst.
  destruct (cycleChecker_frame env w) as [Hs1 Hc1].
  rewrite Hrun in Hs1, Hc1. cbn [snd] in Hs1, Hc1.
  unfold configurationOf in Hc1. injection Hc1 as Hms _ _ _ Hck.
  set (checked := MonitoringService.checkedStats st (List.length slots) (clock w)
                    (startTime (monitoringService w))).
  assert (HS : forall found,
             stats (snd (MonitoringService.updateStats found w1))
             = Some (MonitoringService.checkedStats st found (clock w)
                       (startTime (monitoringService w)))).
  { intros found.
    destruct (updateStats_run found w1) as (wS & HrunS & _ & _ & _ & HstatsS).
    rewrite HrunS. cbn [snd]. rewrite HstatsS, Hs1, Hst, Hck, Hms. cbn [option_map].
    rewrite mergeStats_same by reflexivity. reflexivity. }
  destruct slots as [|slot slots].
  - rewrite (@performCheck_after_nothing env w w1 Hrun). cbv zeta. cbn [snd].
    exists (MonitoringService.checkedStats st 0 (clock w)
              (startTime (monitoringService w))).
    split; [apply (HS 0%nat)|]. cbn. repeat split; try reflexivity; lia.
  - rewrite (@performCheck_after_slots env w (slot :: slots) w1 Hrun)
      by discriminate.
    cbv zeta.
    pose proof (email_stats_cases env (slot :: slots)
                  (snd (MonitoringService.updateStats
                          (List.length (slot :: slots)) w1))) as Hemail.
    cbv zeta in Hemail. rewrite HS in Hemail. cbn [option_map] in Hemail.
    destruct (EmailService.sendAppointmentNotification env (slot :: slots) _)
      as [[[]|e] w2]; cbn [snd] in *;
      rewrite ?stats_after_entry, ?stats_after_error;
      (destruct Hemail as [Hemail|Hemail]; rewrite Hemail;
       eexists; (split; [reflexivity|]); cbn;
       repeat split; try reflexivity; try lia; try discriminate).
Qed.

Lemma cycle_records_found_count_witness :
  let env := Scenario.transportsDown [Sample.timedCell] in
  let w := Sample.running (Some Sample.fullConfig) in
  let slots :=
    match fst (cycleChecker env w) with Ok slots => slots | Throw _ => [] end in
  let st := Sample.zeroStats in
  exists st',
    stats (snd (MonitoringService.performCheck env w)) = Some st' /\
    appointmentsFound st' = appointmentsFound st + Z.of_nat (List.length slots) /\
    lastCheckTime st' = Some (clock w) /\
    uptime st' = match startTime (monitoringService w) with
                 | Some t0 => (clock w - t0) / 60000
                 | None => uptime st
                 end /\
    emailsSent st <= emailsSent st' <= emailsSent st + 1 /\
    (slots = [] -> emailsSent st' = emailsSent st) /\
    smsSent st' = smsSent st.
Proof.
  apply (@cycle_records_found_count
           (Scenario.transportsDown [Sample.timedCell])
           (Sample.running (Some Sample.fullConfig))
           (match fst (cycleChecker (Scenario.transportsDown [Sample.timedCell])
                         (Sample.running (Some Sample.fullConfig))) with
            | Ok slots => slots
            | Throw _ => []
            end)
           (snd (cycleChecker (Scenario.transportsDown [Sample.timedCell])
                   (Sample.running (Some Sample.fullConfig))))
           Sample.zeroStats).
  - vm_compute. reflexivity.
  - reflexivity.
Defined.

Example cycle_failed_mail_still_counts_found :
  option_map appointmentsFound
    (stats (snd (MonitoringService.performCheck
                   (Scenario.transportsDown [Sample.timedCell])
                   (Sample.running (Some Sample.fullConfig)))))
  = Some 2.
Proof. vm_compute. reflexivity. Qed.

Lemma found_nothing_when_all_fail env targetDates today locations :
  (forall l, In l locations -> PerLocation.failure env l <> None) ->
  flat_map (PerLocation.found env targetDates today) locations = [] /\
  List.length (flat_map (PerLocation.errors env today) locations)
    = List.length locations /\
  Forall (fun entry => log_type (log_entry entry) = "error")
         (flat_map (PerLocation.errors env today) locations).
Proof.
  induction locations as [|l ls IH]; intros Hfail; cbn [flat_map].
  - repeat split; constructor.
  - destruct IH as (Hfound & Hlen & Htypes).
    { intros l' Hl'. apply Hfail. right. exact Hl'. }
    specialize (Hfail l (or_introl eq_refl)).
    unfold PerLocation.found at 1, PerLocation.errors at 1 3.
    destruct (PerLocation.failure env l) as [e|]; [|congruence].
    cbn [app List.length]. rewrite Hfound, Hlen. repeat split.
    constructor; [reflexivity | exact Htypes].
Qed.

(** X18. When the visit of every enabled location fails, the checker
    still returns (with no slot) and the cycle counts as a completed
    check: the log gains one [error] entry per enabled location, in
    visiting order, followed by a [check_completed] entry that reads
    "Checked n locations - No appointments available", and
    [totalChecks] goes up by one. *)
Theorem cycle_all_locations_fail
        (env : Env) (w : World) (settings : MonitoringSettings) :
  browserWorks env w ->
  monitoringSettings (storage w) = Some settings ->
  (forall l, In l (enabledLocations w) -> PerLocation.failure env l <> None) ->
  let n := List.length (enabledLocations w) in
  let errorEntries :=
    flat_map (PerLocation.errors env (clock w)) (enabledLocations w) in
  exists w',
    MonitoringService.performCheck env w = (Ok tt, w') /\
    fst (cycleChecker env w) = Ok [] /\
    logs w' = logs w ++ errorEntries
              ++ [stamp (clock w) (MonitoringService.completedLog n)] /\
    List.length errorEntries = n /\
    Forall (fun entry => log_type (log_entry entry) = "error") errorEntries /\
    totalChecksOf w' = option_map (fun k => k + 1) (totalChecksOf w).
Proof.
  intros Hbrowser Hsettings Hfail. cbv zeta.
  set (w0 := addEvent (ConsoleLog "Performing appointment check...") w).
  assert (Hbrowser0 : browserWorks env w0) by exact Hbrowser.
  assert (Hsettings0 : monitoringSettings (storage w0) = Some settings)
    by exact Hsettings.
  destruct (@checkAppointments_run env w0 settings Hbrowser0 Hsettings0)
    as (w1 & Hrun & Hclock & Hlogs & Hstats).
  change (enabledLocations w0) with (enabledLocations w) in *.
  change (clock w0) with (clock w) in *.
  change (logs w0) with (logs w) in *.
  change (stats w0) with (stats w) in *.
  destruct (@found_nothing_when_all_fail env (targetDatesOf env w0 settings)
              (clock w) (enabledLocations w) Hfail) as (Hfound & Hlen & Htypes).
  rewrite Hfound in Hrun.
  assert (Hcycle : cycleChecker env w = (Ok [], w1)) by exact Hrun.
  pose proof (cycleChecker_frame env w) as [_ Hconf].
  rewrite Hcycle in Hconf. cbn [snd] in Hconf.
  pose proof (updateStats_keeps_configuration 0 w1) as HconfS.
  pose proof (updateStats_totalChecks 0 w1) as Htotal.
  destruct (updateStats_run 0 w1) as (wS & HrunS & HlogsS & HclockS & _).
  rewrite HrunS in HconfS, Htotal. cbn [snd] in HconfS, Htotal.
  assert (Henabled : enabledLocations wS = enabledLocations w).
  { rewrite Hconf in HconfS. unfold configurationOf in HconfS.
    injection HconfS as _ Hloc _ _ _. unfold enabledLocations. rewrite Hloc.
    reflexivity. }
  eexists. split.
  { rewrite (@performCheck_after_nothing env w w1 Hcycle). cbv zeta.
    rewrite HrunS. cbn [snd]. reflexivity. }
  split; [rewrite Hcycle; reflexivity|].
  split.
  { unfold logs in *. cbn. rewrite HlogsS, Hlogs, HclockS, Hclock, Henabled.
    rewrite <- app_assoc. reflexivity. }
  split; [exact Hlen|]. split; [exact Htypes|].
  change (totalChecksOf wS = option_map (fun k => k + 1) (totalChecksOf w)).
  rewrite Htotal. unfold totalChecksOf. rewrite Hstats. reflexivity.
Qed.

Lemma cycle_all_locations_fail_witness :
  let env := Scenario.allDown in
  let w := Sample.stopped None in
  let n := List.length (enabledLocations w) in
  let errorEntries :=
    flat_map (PerLocation.errors env (clock w)) (enabledLocations w) in
  exists w',
    MonitoringService.performCheck env w = (Ok tt, w') /\
    fst (cycleChecker env w) = Ok [] /\
    logs w' = logs w ++ errorEntries
              ++ [stamp (clock w) (MonitoringService.completedLog n)] /\
    List.length errorEntries = n /\
    Forall (fun entry => log_type (log_entry entry) = "error") errorEntries /\
    totalChecksOf w' = option_map (fun k => k + 1) (totalChecksOf w).
Proof.
  apply (@cycle_all_locations_fail Scenario.allDown (Sample.stopped None)
                                   Sample.settings).
  - split; [right; reflexivity | split; reflexivity].
  - reflexivity.
  - intros l Hl. vm_compute. discriminate.
Defined.

(** X19. When closing the page fails, [checkAppointments] throws that
    error even though every location was visited: whatever slots were
    found are lost.  The page was still closed last, the browser stays
    for the next cycle, and the cycle ends with a "Check Failed" entry
    and the statistics untouched. *)
Theorem checker_page_close_fails
        (env : Env) (w : World) (settings : MonitoringSettings) (e : Thrown) :
  (browser w = true \/ launch env = None) ->
  newPage env = None ->
  pageClose env = Some e ->
  monitoringSettings (storage w) = Some settings ->
  exists w1,
    AppointmentChecker.checkAppointments env w = (Throw e, w1) /\
    browser w1 = true /\
    (exists before, trace w1 = before ++ [PageClose]) /\
    exists w',
      MonitoringService.performCheck env w = (Ok tt, w') /\
      stats w' = stats w /\
      countType "appointment_found" w' = countType "appointment_found" (snd (cycleChecker env w)) /\
      exists earlier,
        logs w' = earlier ++ [stamp (clock w) (MonitoringService.checkFailedLog e)].
Proof.
  intros Hbrowser Hnew Hclose Hsettings.
  assert (Hgen : forall v, browser v = browser w -> storage v = storage w ->
                           clock v = clock w ->
            exists v1,
              AppointmentChecker.checkAppointments env v = (Throw e, v1) /\
              browser v1 = true /\ clock v1 = clock w /\
              (exists before, trace v1 = before ++ [PageClose])).
  { intros v Hb Hs Hc.
    unfold AppointmentChecker.checkAppointments, AppointmentChecker.initialize.
    unfold bind at 1. unfold bind at 1. unfold getWorld at 1.
    set (v0 := if browser v then v else setBrowser true (addEvent BrowserLaunch v)).
    assert (Hinit :
              (if negb (browser v)
               then external BrowserLaunch (launch env) ;; modify (setBrowser true)
               else ret tt) v = (Ok tt, v0)).
    { subst v0. destruct (browser v) eqn:Hbv; cbn [negb]; [reflexivity|].
      destruct Hbrowser as [Hb'|Hl]; [congruence|].
      unfold bind, external. rewrite Hl. reflexivity. }
    rewrite Hinit.
    assert (Hst : storage v0 = storage w)
      by (subst v0; destruct (browser v); exact Hs).
    assert (Hck : clock v0 = clock w)
      by (subst v0; destruct (browser v); exact Hc).
    assert (Hbr : browser v0 = true)
      by (subst v0; destruct (browser v) eqn:Hbv; [exact Hbv | reflexivity]).
    clearbody v0. clear Hinit.
    unfold bind at 1. unfold Storage.getDmvLocations at 1.
    unfold bind at 1. unfold Storage.getMonitoringSettings at 1.
    rewrite Hst, Hsettings.
    unfold bind at 1. unfold newDate at 1.
    unfold bind at 1. unfold external at 1. rewrite Hnew.
    unfold bind at 1. unfold tryFinally.
    pose proof (@checkLocation_keeps _ browser) as Hkeep.
    assert (Hloop : keeps browser
              (forEachPush
                 (filter loc_enabled (Storage.sortByCreatedAt (dmvLocations (storage w))))
                 [] (AppointmentChecker.checkLocation env
                       (getNextWorkingDays (tz env) (clock v0) (daysAhead settings)
                          (businessDaysOnly settings))))).
    { apply keeps_forEachPush. intros l. apply Hkeep; reflexivity. }
    specialize (Hloop (addEvent NewPage v0)).
    destruct (PerLocation.forEachPush_run env
                (getNextWorkingDays (tz env) (clock v0) (daysAhead settings)
                                    (businessDaysOnly settings))
                (filter loc_enabled (Storage.sortByCreatedAt (dmvLocations (storage w))))
                [] (addEvent NewPage v0))
      as (v2 & Hrun & Hclock & _).
    rewrite Hrun in *. cbn [snd] in Hloop.
    unfold external. rewrite Hclose.
    eexists. split; [reflexivity|]. cbn.
    split; [rewrite Hloop; exact Hbr|].
    split; [rewrite Hclock; exact Hck|].
    exists (trace v2). reflexivity. }
  destruct (Hgen w eq_refl eq_refl eq_refl) as (w1 & Hrun1 & Hbr1 & _ & Htr1).
  exists w1. split; [exact Hrun1|]. split; [exact Hbr1|]. split; [exact Htr1|].
  destruct (Hgen (addEvent (ConsoleLog "Performing appointment check...") w)
                 eq_refl eq_refl eq_refl) as (v1 & Hrunv & _ & Hckv & _).
  assert (Hcycle : cycleChecker env w = (Throw e, v1)) by exact Hrunv.
  pose proof (cycleChecker_frame env w) as [Hstats _].
  rewrite Hcycle in Hstats. cbn [snd] in Hstats.
  eexists. split; [apply (@performCheck_after_throw env w e v1 Hcycle)|].
  rewrite Hcycle. cbn [snd].
  split; [exact Hstats|]. split.
  - unfold countType, logs. cbn. rewrite filter_app, length_app. cbn. lia.
  - exists (logs v1). unfold logs. cbn. rewrite Hckv. reflexivity.
Qed.

(** As [Sample.calm], but the page cannot be closed. *)
Definition pageCloseFails (page : list Element) : Env :=
  {| tz := fixedOffset 0;
     launch := None;
     browserClose := None;
     newPage := None;
     pageClose := Some (newError "Protocol error: Session closed");
     goto := fun _ => None;
     waitForDelay := fun _ => None;
     dom := fun _ => page;
     evalRejects := fun _ _ => None;
     sendMail := fun _ => None;
     twilioClient := fun _ _ => None;
     twilioCreate := fun _ _ _ => None;
     cronSchedule := fun _ => None |}.

Lemma checker_page_close_fails_witness :
  let env := pageCloseFails [Sample.timedCell] in
  let w := Sample.stopped (Some Sample.fullConfig) in
  let e := newError "Protocol error: Session closed" in
  exists w1,
    AppointmentChecker.checkAppointments env w = (Throw e, w1) /\
    browser w1 = true /\
    (exists before, trace w1 = before ++ [PageClose]) /\
    exists w',
      MonitoringService.performCheck env w = (Ok tt, w') /\
      stats w' = stats w /\
      countType "appointment_found" w' = countType "appointment_found" (snd (cycleChecker env w)) /\
      exists earlier,
        logs w' = earlier ++ [stamp (clock w) (MonitoringService.checkFailedLog e)].
Proof.
  apply (@checker_page_close_fails
           (pageCloseFails [Sample.timedCell])
           (Sample.stopped (Some Sample.fullConfig))
           Sample.settings
           (newError "Protocol error: Session closed")).
  - right. reflexivity.
  - reflexivity.
  - reflexivity.
  - reflexivity.
Defined.

(** X20. Process shutdown closes the browser first and stops the
    scheduler second.  When the browser closes (or none was open) the
    handler ends with the browser handle cleared and the scheduler
    stopped; when closing the browser throws, the handler throws at once
    and the scheduler is never stopped: its task and running flag stay
    as they were, and so does the browser handle. *)
Theorem shutdown_close_failure_skips_stop (env : Env) (w : World) (e : Thrown) :
  browser w = true ->
  browserClose env = Some e ->
  Routes.shutdown env w = (Throw e, addEvent BrowserClose w) /\
  monitoringService (snd (Routes.shutdown env w)) = monitoringService w /\
  browser (snd (Routes.shutdown env w)) = true /\
  logs (snd (Routes.shutdown env w)) = logs w /\
  forall env' w',
    (browser w' = false \/ browserClose env' = None) ->
    exists w'',
      Routes.shutdown env' w' = (Ok tt, w'') /\
      browser w'' = false /\
      isRunning (monitoringService w'') = false /\
      task (monitoringService w'') = None.
Proof.
  intros Hbrowser Hclose.
  assert (Hrun : Routes.shutdown env w = (Throw e, addEvent BrowserClose w)).
  { unfold Routes.shutdown, AppointmentChecker.close, bind, getWorld, external.
    rewrite Hbrowser, Hclose. reflexivity. }
  rewrite Hrun. cbn [snd].
  split; [reflexivity|]. split; [reflexivity|]. split; [exact Hbrowser|].
  split; [reflexivity|].
  intros env' w' Hok.
  destruct w' as [st br [tk run t0] ck tr]. cbn [browser] in Hok.
  unfold Routes.shutdown, AppointmentChecker.close.
  destruct br.
  - destruct Hok as [Hb|Hc]; [discriminate|].
    destruct tk;
      (eexists; split;
       [ cbv beta iota zeta delta
             [bind getWorld external modify browser
              MonitoringService.stopMonitoring];
         rewrite Hc; reflexivity
       | repeat split; reflexivity ]).
  - destruct tk; (eexists; split; [reflexivity | repeat split; reflexivity]).
Qed.

Lemma shutdown_close_failure_skips_stop_witness :
  let env := Scenario.closeFails in
  let w := setBrowser true (Sample.running None) in
  let e := newError "Protocol error: Target closed" in
  Routes.shutdown env w = (Throw e, addEvent BrowserClose w) /\
  monitoringService (snd (Routes.shutdown env w)) = monitoringService w /\
  browser (snd (Routes.shutdown env w)) = true /\
  logs (snd (Routes.shutdown env w)) = logs w /\
  forall env' w',
    (browser w' = false \/ browserClose env' = None) ->
    exists w'',
      Routes.shutdown env' w' = (Ok tt, w'') /\
      browser w'' = false /\
      isRunning (monitoringService w'') = false /\
      task (monitoringService w'') = None.
Proof.
  apply (@shutdown_close_failure_skips_stop
           Scenario.closeFails (setBrowser true (Sample.running None))
           (newError "Protocol error: Target closed")); reflexivity.
Defined.

(** ** More on the target dates *)

Lemma map_seq_shift {A} (f : nat -> A) (m : nat) :
  map f (seq 1 m) = map (fun i => f (S i)) (seq 0 m).
Proof. rewrite <- seq_shift, map_map. reflexivity. Qed.

Lemma seq_sorted (start len : nat) : StronglySorted lt (seq start len).
Proof.
  revert start. induction len as [|len IH]; intros start; cbn [seq]; constructor.
  - apply IH.
  - apply Forall_forall. intros i Hi. apply in_seq in Hi. lia.
Qed.

Section WalkOfDays.

Variable tz : TimeZone.

(** The day the loop looks at in its iteration number [i], counted from
    0, when it starts at [day]. *)
Definition dayOfWalk (day : Date) (i : nat) : Date :=
  Nat.iter i (setDateNext tz) day.

Lemma dayOfWalk_shift day i :
  dayOfWalk day (S i) = dayOfWalk (setDateNext tz day) i.
Proof. unfold dayOfWalk. apply Nat.iter_succ_r. Qed.

Lemma localDay_dayOfWalk day i :
  localDay tz (dayOfWalk day i) = localDay tz day + Z.of_nat i.
Proof.
  induction i as [|i IH].
  - cbn. lia.
  - change (dayOfWalk day (S i)) with (setDateNext tz (dayOfWalk day i)).
    rewrite localDay_next, IH. lia.
Qed.

(** The loop keeps, of the days it walks through, those that pass the
    filter. *)
Lemma workingDaysLoop_walk count b days day :
  exists n,
    workingDaysLoop tz count b days day =
    days ++ filter (keepsDay tz b) (map (dayOfWalk day) (seq 0 n)).
Proof.
  apply (workingDaysLoop_ind tz
           (fun days day r =>
              exists n, r = days ++ filter (keepsDay tz b)
                                           (map (dayOfWalk day) (seq 0 n)))).
  - intros ds d _. exists 0%nat. cbn. rewrite app_nil_r. reflexivity.
  - intros ds d r _ [n ->]. exists (S n).
    cbn [seq map filter]. rewrite map_seq_shift.
    rewrite (map_ext _ _ (dayOfWalk_shift d)).
    change (dayOfWalk d 0) with d.
    destruct (keepsDay tz b d); [rewrite <- app_assoc|]; reflexivity.
Qed.

Lemma filter_keeps_all (l : list Date) : filter (keepsDay tz false) l = l.
Proof.
  induction l as [|d l IH]; [reflexivity|].
  cbn [filter]. change (keepsDay tz false d) with true. cbv iota.
  rewrite IH. reflexivity.
Qed.

Lemma getNextWorkingDays_walk today count :
  getNextWorkingDays tz today count false =
  map (dayOfWalk today) (seq 0 (Z.to_nat count)).
Proof.
  unfold getNextWorkingDays.
  destruct (Z.ltb_spec 0 count) as [Hpos|Hneg].
  - assert (Hinv : loopInv tz today count false [] today).
    { constructor; cbn; try constructor; try lia. }
    destruct (workingDaysLoop_inv Hinv) as (Hlen & _).
    destruct (workingDaysLoop_walk count false [] today) as [n Hn].
    rewrite Hn in *. cbn [app] in *. rewrite filter_keeps_all in *.
    rewrite length_map, length_seq in Hlen.
    replace (Z.to_nat count) with n by lia. reflexivity.
  - rewrite workingDaysLoop_eq. cbn [List.length].
    replace (Z.of_nat 0 <? count) with false by (symmetry; apply Z.ltb_ge; lia).
    replace (Z.to_nat count) with 0%nat by lia. reflexivity.
Qed.

Lemma localDays_sorted today (p : Date -> bool) (indices : list nat) :
  StronglySorted lt indices ->
  StronglySorted Z.lt
    (map (localDay tz) (filter p (map (dayOfWalk today) indices))).
Proof.
  induction 1 as [|i indices Hs IH Hi]; cbn [map filter]; [constructor|].
  destruct (p (dayOfWalk today i)); [|exact IH].
  cbn [map]. constructor; [exact IH|].
  apply Forall_forall. intros D HD.
  apply in_map_iff in HD as (d & <- & Hd).
  apply filter_In in Hd as [Hd _].
  apply in_map_iff in Hd as (j & <- & Hj).
  rewrite !localDay_dayOfWalk.
  rewrite Forall_forall in Hi. specialize (Hi j Hj). lia.
Qed.

End WalkOfDays.

Lemma dayOfWalk_fixedOffset (offset : Z) (today : Date) (i : nat) :
  dayOfWalk (fixedOffset offset) today i = today + Z.of_nat i * msPerDay.
Proof.
  induction i as [|i IH].
  - cbn. lia.
  - change (dayOfWalk (fixedOffset offset) today (S i))
      with (setDateNext (fixedOffset offset)
                        (dayOfWalk (fixedOffset offset) today i)).
    rewrite IH. unfold setDateNext, localTime. cbn [utcOf offsetAt fixedOffset].
    lia.
Qed.

(** X21. Without the business-days filter [getNextWorkingDays] answers
    [count] dates, one on each of the [count] consecutive local calendar
    days starting today, each got from the one before by
    [setDate(getDate() + 1)]; for [count <= 0] it answers the empty
    list.  In a zone of constant offset the dates are exactly [today]
    plus 0, 1, 2, ... whole days of 24 hours. *)
Theorem getNextWorkingDays_every_day
        (tz : TimeZone) (today : Date) (count : Z) :
  let days := getNextWorkingDays tz today count false in
  days = map (fun i => Nat.iter i (setDateNext tz) today)
             (seq 0 (Z.to_nat count)) /\
  map (localDay tz) days =
    map (fun i => localDay tz today + Z.of_nat i) (seq 0 (Z.to_nat count)) /\
  forall offset,
    getNextWorkingDays (fixedOffset offset) today count false =
    map (fun i => today + Z.of_nat i * msPerDay) (seq 0 (Z.to_nat count)).
Proof.
  cbv zeta. repeat split.
  - apply getNextWorkingDays_walk.
  - rewrite getNextWorkingDays_walk, map_map.
    apply map_ext. intros i. apply localDay_dayOfWalk.
  - intros offset. rewrite getNextWorkingDays_walk.
    apply map_ext. intros i. apply dayOfWalk_fixedOffset.
Qed.

(** Across the change to daylight-saving time the dates are 23 hours
    apart, not 24: from Saturday 2025-03-08, 12:00 Pacific time (20:00
    UTC), the next two dates are at 12:00 local time, which is 19:00
    UTC. *)
Example getNextWorkingDays_across_clock_change :
  getNextWorkingDays Sample.pacific 1741464000000 3 false
  = [1741464000000; 1741464000000 + 82800000;
     1741464000000 + 82800000 + 86400000] /\
  map (getDate Sample.pacific)
      (getNextWorkingDays Sample.pacific 1741464000000 3 false) = [8; 9; 10].
Proof. split; vm_compute; reflexivity. Qed.

(** X22. Whatever the filter, the dates [getNextWorkingDays] answers lie
    on local calendar days from today's on, one date per day in
    increasing order, each passing the filter; and no calendar day is
    left out: every day from today's up to the day of an answered date
    that is not a Saturday or Sunday (or any day, without the filter)
    has its date in the answer. *)
Theorem getNextWorkingDays_skips_nothing_kept
        (tz : TimeZone) (today : Date) (count : Z) (businessDaysOnly : bool) :
  let days := getNextWorkingDays tz today count businessDaysOnly in
  (forall d, In d days ->
             keepsDay tz businessDaysOnly d = true /\
             localDay tz today <= localDay tz d) /\
  StronglySorted Z.lt (map (localDay tz) days) /\
  (forall d' D,
      In d' days ->
      localDay tz today <= D <= localDay tz d' ->
      (businessDaysOnly = true ->
       Calendar.weekday D <> 0 /\ Calendar.weekday D <> 6) ->
      exists d, In d days /\ localDay tz d = D).
Proof.
  cbv zeta. unfold getNextWorkingDays.
  destruct (workingDaysLoop_walk tz count businessDaysOnly [] today) as [n ->].
  cbn [app]. split; [|split].
  - intros d Hd. apply filter_In in Hd as [Hd Hk]. split; [exact Hk|].
    apply in_map_iff in Hd as (i & <- & _).
    rewrite localDay_dayOfWalk. lia.
  - apply localDays_sorted. apply seq_sorted.
  - intros d' D Hd' HD Hweek.
    apply filter_In in Hd' as [Hd' _].
    apply in_map_iff in Hd' as (j & <- & Hj). apply in_seq in Hj.
    rewrite localDay_dayOfWalk in HD.
    exists (dayOfWalk tz today (Z.to_nat (D - localDay tz today))).
    assert (HlD : localDay tz (dayOfWalk tz today
                                         (Z.to_nat (D - localDay tz today))) = D).
    { rewrite localDay_dayOfWalk. lia. }
    split; [|exact HlD].
    apply filter_In. split.
    + apply in_map. apply in_seq. lia.
    + unfold keepsDay, getDay. rewrite HlD.
      destruct businessDaysOnly; cbn [negb orb]; [|reflexivity].
      destruct (Hweek eq_refl) as [H0 H6].
      apply Z.eqb_neq in H0, H6. rewrite H0, H6. reflexivity.
Qed.

(** ** The text strategy's date test *)

(** X23. Of the five date strings the text strategy looks for, the
    last -- the day of the month alone -- is contained in each of the
    others, so the date test is just: the text contains the digits of
    the target date's day of the month, anywhere (the "3" of "2:30 PM"
    matches the 3rd).  Hence a slot is reported for an element text and
    a target date exactly when the text contains those digits and has a
    clock time or the word "available"; the slot carries the whole text
    as its time and the target date as its date. *)
Theorem text_strategy_matches_day_digits
        (env : Env) (location : DmvLocation) (targetDates : list Date)
        (texts : list string) :
  (forall text targetDate,
      AppointmentChecker.matchesDate env text targetDate
      = Str.includes text (showZ (getDate (tz env) targetDate))) /\
  (forall s,
      In s (AppointmentChecker.textSlots env location targetDates texts) <->
      exists text targetDate,
        In text texts /\ In targetDate targetDates /\
        Str.includes text (showZ (getDate (tz env) targetDate)) = true /\
        (AppointmentChecker.hasTime text ||
         Str.includes (Str.toLowerCase text) "available") = true /\
        s = {| slot_location := loc_name location;
               slot_date := isoDate targetDate;
               slot_time := text;
               slot_url := loc_url location |}).
Proof.
  split.
  - apply matchesDate_day_digits.
  - apply textSlots_spec.
Qed.

Example text_strategy_minutes_match_the_third :
  AppointmentChecker.matchesDate (Sample.calm []) "Mon, Jan 6 2:30 PM"
                                 Sample.noon = true.
Proof. vm_compute. reflexivity. Qed.
